(** * k8s-chat: the diagnostic pipeline of [app.py], [k8s_client.py], [llm_client.py]

    A shallow embedding of the command runner ([K8sClient]), of the command
    extraction of the two LLM providers and of the command part of the
    [/chat] handler, followed by the properties established about them.

    Conventions.
    - A Python [str] is a Rocq [string]; a character is a code point below
      256.  [isspace] and [lower] follow [str.isspace] and [str.lower] on
      that range.
    - A Python [int] is a [Z].
    - A Python [dict] with string keys is an association list that keeps
      insertion order ([PyDict]); assigning to a key that is present
      replaces the value in place.
    - An exception is a value of [exn]; code that may raise returns
      [res A]; [try ... except] is [try_except].
    - What the process, the clock and the network answer is an input of the
      model: [subprocess_run], [clock], and an [http_result] per request. *)

From Stdlib Require Import String Ascii ZArith List Bool Lia DecimalString.
Import ListNotations.
Local Open Scope string_scope.
Local Open Scope Z_scope.

(** ** Python strings *)

Module PyStr.

(** [str.isspace] of one character (code points below 256). *)
Definition isspace (c : ascii) : bool :=
  let n := N_of_ascii c in
  (((9 <=? n) && (n <=? 13)) || ((28 <=? n) && (n <=? 32))
   || (n =? 133) || (n =? 160))%N.

(** [str.lower] of one character (code points below 256). *)
Definition lower_char (c : ascii) : ascii :=
  let n := N_of_ascii c in
  if (((65 <=? n) && (n <=? 90))
      || ((192 <=? n) && (n <=? 222) && negb (n =? 215)))%N
  then ascii_of_N (n + 32) else c.

Fixpoint lower (s : string) : string :=
  match s with
  | EmptyString => EmptyString
  | String c s' => String (lower_char c) (lower s')
  end.

Fixpoint lstrip (s : string) : string :=
  match s with
  | EmptyString => EmptyString
  | String c s' => if isspace c then lstrip s' else s
  end.

Fixpoint rstrip (s : string) : string :=
  match s with
  | EmptyString => EmptyString
  | String c s' =>
      match rstrip s' with
      | EmptyString => if isspace c then EmptyString else String c EmptyString
      | r => String c r
      end
  end.

(** [s.strip()] *)
Definition strip (s : string) : string := rstrip (lstrip s).

(** [s.startswith(p)] *)
Fixpoint startswith (p s : string) : bool :=
  match p, s with
  | EmptyString, _ => true
  | String _ _, EmptyString => false
  | String a p', String b s' => Ascii.eqb a b && startswith p' s'
  end.

(** [sub in s] *)
Fixpoint contains (sub s : string) : bool :=
  match s with
  | EmptyString => startswith sub EmptyString
  | String _ s' => startswith sub s || contains sub s'
  end.

(** [c in s] for a one-character string [c]. *)
Fixpoint has_char (c : ascii) (s : string) : bool :=
  match s with
  | EmptyString => false
  | String d s' => Ascii.eqb c d || has_char c s'
  end.

(** [bool(s)]: a string is true when it is not empty. *)
Definition truthy (s : string) : bool :=
  match s with EmptyString => false | String _ _ => true end.

(** [s.split(sep)] for a non-empty separator: pieces between the
    non-overlapping occurrences of [sep] found from the left.  [skip] counts
    the characters of a matched separator still to pass over. *)
Fixpoint split_from (sep : string) (skip : nat) (s : string) : list string :=
  match s with
  | EmptyString => [EmptyString]
  | String c s' =>
      match skip with
      | S k => split_from sep k s'
      | O =>
          if startswith sep s
          then EmptyString :: split_from sep (Nat.pred (String.length sep)) s'
          else match split_from sep O s' with
               | p :: ps => String c p :: ps
               | [] => [String c EmptyString]
               end
      end
  end.

Definition split (sep s : string) : list string := split_from sep O s.

(** [s.split()]: the maximal runs of characters that are not white space. *)
Fixpoint words (s : string) : list string :=
  match s with
  | EmptyString => []
  | String c s' =>
      if isspace c then words s'
      else match s' with
           | EmptyString => [String c EmptyString]
           | String d _ =>
               if isspace d then String c EmptyString :: words s'
               else match words s' with
                    | w :: ws => String c w :: ws
                    | [] => [String c EmptyString]
                    end
           end
  end.

(** [sep.join(l)] *)
Fixpoint join (sep : string) (l : list string) : string :=
  match l with
  | [] => EmptyString
  | [x] => x
  | x :: rest => x ++ sep ++ join sep rest
  end.

(** [str(n)] of an [int]. *)
Definition str_of_int (n : Z) : string := NilZero.string_of_int (Z.to_int n).

(** [l[:n]] for any [int] [n]: a negative [n] counts from the end. *)
Definition slice_to {A : Type} (n : Z) (l : list A) : list A :=
  if n <? 0 then firstn (Z.to_nat (Z.of_nat (List.length l) + n)) l
  else firstn (Z.to_nat n) l.

End PyStr.
Import PyStr.

Definition nl : string := String (ascii_of_N 10) EmptyString.

(** ** Exceptions and results *)

(** The exception classes the handlers of the source tell apart;
    [OtherException] is any other subclass of [Exception]. *)
Inductive exn_class : Type :=
| TimeoutExpired        (* subprocess.TimeoutExpired *)
| FileNotFoundError
| RequestsTimeout       (* requests.exceptions.Timeout *)
| OtherException.

(** An exception: its class and [str(e)]. *)
Record exn : Type := Exn { exn_cls : exn_class; exn_str : string }.

(** The outcome of code that may raise. *)
Inductive res (A : Type) : Type :=
| Ok (a : A)
| Raise (e : exn).
Arguments Ok {A} a.
Arguments Raise {A} e.

Definition bind {A B : Type} (m : res A) (k : A -> res B) : res B :=
  match m with
  | Ok a => k a
  | Raise e => Raise e
  end.

(** [try: body  except Exception as e: handler e] *)
Definition try_except {A : Type} (body : res A) (handler : exn -> res A)
  : res A :=
  match body with
  | Ok a => Ok a
  | Raise e => handler e
  end.

Declare Scope res_scope.
Delimit Scope res_scope with res.
Notation "x <- m ;; k" := (bind m (fun x => k))
  (at level 61, m at next level, right associativity) : res_scope.

(** ** Python dictionaries with string keys *)

Module PyDict.

Definition t (V : Type) : Type := list (string * V).

(** [d.get(k)] *)
Fixpoint get {V : Type} (k : string) (d : t V) : option V :=
  match d with
  | [] => None
  | (k', v) :: d' => if String.eqb k k' then Some v else get k d'
  end.

(** [d[k] = v]: replaces the value of a present key where it stands,
    appends a new key at the end. *)
Fixpoint set {V : Type} (k : string) (v : V) (d : t V) : t V :=
  match d with
  | [] => [(k, v)]
  | (k', v') :: d' =>
      if String.eqb k k' then (k', v) :: d' else (k', v') :: set k v d'
  end.

Definition keys {V : Type} (d : t V) : list string := map fst d.

(** [bool(d)] *)
Definition truthy {V : Type} (d : t V) : bool :=
  match d with [] => false | _ :: _ => true end.

End PyDict.

(** ** [k8s_client.py] *)

(** What [subprocess.run(..., capture_output=True, text=True)] returns. *)
Record CompletedProcess : Type := {
  cp_returncode : Z;
  cp_stdout : string;
  cp_stderr : string
}.

(** The dictionary [_run_kubectl_command] returns.  The keys ['error'],
    ['kubectl_available'] and ['cluster_accessible'] are absent from some of
    the dictionaries the source builds: [None] is an absent key. *)
Record CommandResult : Type := {
  success : bool;
  error : option string;
  stdout : string;
  stderr : string;
  returncode : Z;
  command : string;
  timestamp : string;
  kubectl_available : option bool;
  cluster_accessible : option bool
}.

(** The dictionary [read_pod_file] returns. *)
Record FileContent : Type := {
  fc_success : bool;
  fc_error : option string;
  fc_content : string;
  fc_timestamp : option string
}.

(** One entry of the list [_parse_ls_output] returns. *)
Record FileEntry : Type := {
  fe_name : string;
  fe_type : string;
  fe_permissions : string;
  fe_owner : string;
  fe_group : string;
  fe_size : string;
  fe_modified : string
}.

(** The dictionary [browse_pod_files] returns. *)
Record FileListing : Type := {
  fl_success : bool;
  fl_error : option string;
  fl_files : list FileEntry;
  fl_current_path : option string;
  fl_timestamp : option string
}.

(** [self] of [K8sClient]. *)
Record K8sClient : Type := { kubeconfig_path : string }.

(** The characters [_verify_file_path_safety] refuses. *)
Definition injection_chars : list ascii :=
  ["|"; "&"; ";"; "`"; "$"; "("; ")"]%char.

(** [K8sClient._verify_file_path_safety].  No operation of its body raises
    on a [str], so the [except] clause is never taken. *)
Definition _verify_file_path_safety (path : string) : bool * string :=
  let path := strip path in
  let path := if negb (truthy path) then "/" else path in
  if existsb (fun char => has_char char path) injection_chars
  then (false, "Invalid characters in path")
  else (true, "Path is safe for read access").

(** [str.isdigit] (code points below 256): every character is a digit and
    there is at least one. *)
Definition isdigit_char (c : ascii) : bool :=
  let n := N_of_ascii c in
  (((48 <=? n) && (n <=? 57)) || (n =? 178) || (n =? 179) || (n =? 185))%N.

Fixpoint all_digits (s : string) : bool :=
  match s with
  | EmptyString => true
  | String c s' => isdigit_char c && all_digits s'
  end.

Definition isdigit (s : string) : bool := truthy s && all_digits s.

(** The body of the loop of [K8sClient._parse_ls_output] for one line. *)
Definition parse_ls_line (line : string) : list FileEntry :=
  if negb (truthy (strip line)) || startswith "total" line then []
  else
    let parts := words line in
    if (List.length parts <? 9)%nat then []
    else
      let permissions := nth 0 parts "" in
      let size := if isdigit (nth 4 parts "") then nth 4 parts "" else "0" in
      let file_type :=
        if startswith "d" permissions then "directory"
        else if startswith "l" permissions then "symlink"
        else if startswith "c" permissions then "character"
        else if startswith "b" permissions then "block"
        else "file" in
      [ {| fe_name := join " " (skipn 8 parts);
           fe_type := file_type;
           fe_permissions := permissions;
           fe_owner := nth 2 parts "";
           fe_group := nth 3 parts "";
           fe_size := size;
           fe_modified :=
             if (8 <? List.length parts)%nat
             then join " " (firstn 3 (skipn 5 parts)) else "" |} ].

(** [K8sClient._parse_ls_output] *)
Definition _parse_ls_output (ls_output : string) : list FileEntry :=
  flat_map parse_ls_line (split nl (strip ls_output)).

Section Executor.

(** The operating system as the client sees it: [subprocess.run] on an
    argument vector with a timeout either returns a completed process or
    raises, and moves the system to a new state; [clock] is
    [datetime.now().isoformat()]; [default_kubeconfig] is
    [os.path.expanduser("~/.kube/config")]. *)
Variable World : Type.
Variable subprocess_run :
  World -> list string -> Z -> res CompletedProcess * World.
Variable clock : World -> string.
Variable default_kubeconfig : string.

(** The system together with the log of the argument vectors handed to
    [subprocess.run] so far. *)
Record Sys : Type := { world : World; invoked : list (list string) }.

(** [K8sClient._get_kubectl_command] *)
Definition _get_kubectl_command (self : K8sClient) (command : list string)
  : list string :=
  let full_command := ["kubectl"] in
  let full_command :=
    if negb (String.eqb (kubeconfig_path self) default_kubeconfig)
    then (full_command ++ ["--kubeconfig"; kubeconfig_path self])%list
    else full_command in
  (full_command ++ command)%list.

Definition connection_phrases : list string :=
  ["unable to connect"; "connection refused"; "no configuration";
   "invalid configuration"].

(** The [try] block of [_run_kubectl_command] after [subprocess.run]
    returned [result]. *)
Definition triage (full_command : list string) (now : string)
    (result : CompletedProcess) : CommandResult :=
  if negb (cp_returncode result =? 0)
     && contains "not found" (lower (cp_stderr result))
  then {| success := false;
          error := Some "kubectl not found - please install kubectl or ensure it's in PATH";
          stdout := "";
          stderr := cp_stderr result;
          returncode := cp_returncode result;
          command := join " " full_command;
          timestamp := now;
          kubectl_available := Some false;
          cluster_accessible := None |}
  else if negb (cp_returncode result =? 0)
          && existsb (fun phrase => contains phrase (lower (cp_stderr result)))
               connection_phrases
  then {| success := false;
          error := Some ("Cluster connection error: " ++ strip (cp_stderr result));
          stdout := "";
          stderr := cp_stderr result;
          returncode := cp_returncode result;
          command := join " " full_command;
          timestamp := now;
          kubectl_available := None;
          cluster_accessible := Some false |}
  else {| success := (cp_returncode result =? 0);
          error := None;
          stdout := cp_stdout result;
          stderr := cp_stderr result;
          returncode := cp_returncode result;
          command := join " " full_command;
          timestamp := now;
          kubectl_available := Some true;
          cluster_accessible := Some true |}.

(** The three [except] clauses of [_run_kubectl_command].  The last one
    takes every other [Exception]; [full_command] is bound whenever a
    handler runs, because [_get_kubectl_command] does not raise on a list
    of strings. *)
Definition run_handlers (full_command : list string) (now : string)
    (timeout : Z) (e : exn) : res CommandResult :=
  match exn_cls e with
  | TimeoutExpired =>
      Ok {| success := false;
            error := Some ("Command timed out after " ++ str_of_int timeout
                           ++ " seconds");
            stdout := "";
            stderr := "Timeout";
            returncode := -1;
            command := join " " full_command;
            timestamp := now;
            kubectl_available := None;
            cluster_accessible := None |}
  | FileNotFoundError =>
      Ok {| success := false;
            error := Some "kubectl not found - please install kubectl or ensure it's in PATH";
            stdout := "";
            stderr := "kubectl command not found";
            returncode := -1;
            command := "kubectl";
            timestamp := now;
            kubectl_available := Some false;
            cluster_accessible := None |}
  | _ =>
      Ok {| success := false;
            error := Some (exn_str e);
            stdout := "";
            stderr := exn_str e;
            returncode := -1;
            command := join " " full_command;
            timestamp := now;
            kubectl_available := None;
            cluster_accessible := None |}
  end.

(** [K8sClient._run_kubectl_command]: the result or the exception that
    leaves the function, and the system afterwards. *)
Definition _run_kubectl_command (self : K8sClient)
    (command : list string) (timeout : Z) (s : Sys)
  : res CommandResult * Sys :=
  let full_command := _get_kubectl_command self command in
  let '(ran, w) := subprocess_run (world s) full_command timeout in
  let s' := {| world := w; invoked := (invoked s ++ [full_command])%list |} in
  (try_except
     (result <- ran ;; Ok (triage full_command (clock w) result))%res
     (run_handlers full_command (clock w) timeout),
   s').

(** [K8sClient.read_pod_file].  The outer [try] passes exceptions of
    [_run_kubectl_command] to its [except] clause. *)
Definition read_pod_file (self : K8sClient)
    (namespace pod_name file_path : string) (s : Sys)
  : res FileContent * Sys :=
  let '(is_safe, safety_reason) := _verify_file_path_safety file_path in
  if negb is_safe
  then (Ok {| fc_success := false;
              fc_error := Some ("File access denied for safety reasons: "
                                ++ safety_reason);
              fc_content := "";
              fc_timestamp := None |}, s)
  else
    let '(ran, s') :=
      _run_kubectl_command self
        ["exec"; pod_name; "-n"; namespace; "--"; "cat"; file_path] 30 s in
    (try_except
       (result <- ran ;;
        Ok (if success result
            then {| fc_success := true;
                    fc_error := None;
                    fc_content := stdout result;
                    fc_timestamp := Some (timestamp result) |}
            else {| fc_success := false;
                    fc_error := Some (stderr result);
                    fc_content := "";
                    fc_timestamp := None |}))%res
       (fun e => Ok {| fc_success := false;
                       fc_error := Some (exn_str e);
                       fc_content := "";
                       fc_timestamp := None |}),
     s').

(** [K8sClient.browse_pod_files] *)
Definition browse_pod_files (self : K8sClient)
    (namespace pod_name path : string) (s : Sys)
  : res FileListing * Sys :=
  let '(is_safe, safety_reason) := _verify_file_path_safety path in
  if negb is_safe
  then (Ok {| fl_success := false;
              fl_error := Some ("Path access denied for safety reasons: "
                                ++ safety_reason);
              fl_files := [];
              fl_current_path := None;
              fl_timestamp := None |}, s)
  else
    let '(ran, s') :=
      _run_kubectl_command self
        ["exec"; pod_name; "-n"; namespace; "--"; "ls"; "-la"; path] 30 s in
    (try_except
       (result <- ran ;;
        Ok (if success result
            then {| fl_success := true;
                    fl_error := None;
                    fl_files := _parse_ls_output (stdout result);
                    fl_current_path := Some path;
                    fl_timestamp := Some (timestamp result) |}
            else {| fl_success := false;
                    fl_error := Some (stderr result);
                    fl_files := [];
                    fl_current_path := None;
                    fl_timestamp := None |}))%res
       (fun e => Ok {| fl_success := false;
                       fl_error := Some (exn_str e);
                       fl_files := [];
                       fl_current_path := None;
                       fl_timestamp := None |}),
     s').

End Executor.

Arguments world {World} s.
Arguments invoked {World} s.

(** ** [llm_client.py] *)

(** The value of [result['choices'][0]['message']['content']]: a string, or
    any other JSON value. *)
Inductive pyval : Type :=
| PyText (s : string)
| PyOther.

(** What one [requests.post] does: it raises (time-out, connection error,
    ...), or returns a response with its [status_code]; [content] is what
    decoding the body and reading [['choices'][0]['message']['content']]
    gives, an exception when the body is not JSON or has not that shape.
    The arguments of the provider methods (question, history, outputs) only
    enter the request payload, whose answer is this input. *)
Inductive http_result : Type :=
| PostRaises (e : exn)
| Response (status_code : Z) (content : res pyval).

(** [content.split] and the like on a value that is not a [str]. *)
Definition as_str (v : pyval) : res string :=
  match v with
  | PyText s => Ok s
  | PyOther =>
      Raise (Exn OtherException "object has no attribute 'split'")
  end.

(** The body of the extraction loop of [suggest_commands] and
    [suggest_follow_up_commands] for one line of the model's text (the four
    methods spell the same loop out). *)
Definition commands_of_line (line : string) : list string :=
  let line := strip line in
  if startswith "kubectl " line || contains "kubectl " line
  then
    if contains "kubectl " line
    then flat_map
           (fun part =>
              if truthy (strip part) then ["kubectl " ++ strip part] else [])
           (split "kubectl " line)
    else [strip line]
  else [].

(** The list [commands] when the loop over [content.split('\n')] ends. *)
Definition extract_commands (content : string) : list string :=
  flat_map commands_of_line (split nl content).

Definition fallback_cluster_health : string :=
"I'm having trouble connecting to my AI service right now, but I can help you with cluster health analysis.

**To check your cluster health, run:**
```bash
kubectl cluster-info
kubectl get nodes
kubectl get namespaces
kubectl get pods --all-namespaces
```

**What to look for:**
- Nodes in Ready status
- Namespaces in Active status
- Pods in Running state
- Any error conditions".

Definition fallback_pod_analysis : string :=
"I'm having trouble connecting to my AI service right now. For pod analysis, try these commands:

```bash
# List all pods
kubectl get pods --all-namespaces

# Get detailed pod information
kubectl describe pods

# Check pod logs
kubectl logs <pod-name>

# Filter by namespace
kubectl get pods -n <namespace>
```

Look for pods with issues like:
- CrashLoopBackOff
- ImagePullBackOff
- Pending
- Error".

Definition fallback_generic : string :=
"I'm having trouble connecting to my AI service right now. Please try again in a few moments, or contact your administrator if the issue persists.

In the meantime, you can use these basic kubectl commands:
```bash
kubectl get pods
kubectl get services
kubectl get deployments
kubectl get nodes
```".

(** [_generate_enhanced_fallback_response]; its second argument is not
    used by the source. *)
Definition _generate_enhanced_fallback_response (intent : PyDict.t string)
  : string :=
  let intent_type :=
    match PyDict.get "type" intent with
    | Some t => t
    | None => "unknown"
    end in
  if String.eqb intent_type "cluster_health" then fallback_cluster_health
  else if String.eqb intent_type "pod_analysis" then fallback_pod_analysis
  else fallback_generic.

(** The interface the orchestrator uses ([LLMProvider] and the methods both
    subclasses add to it). *)
Class LLMProvider (P : Type) : Type := {
  suggest_commands : P -> http_result -> res (list string);
  analyze_command_outputs : P -> http_result -> res pyval;
  suggest_follow_up_commands : P -> http_result -> res (list string);
  generate_response : P -> PyDict.t string -> http_result -> res pyval
}.

Module OpenRouterProvider.

Record t : Type := { api_key : string; model : string }.

Definition suggest_commands (self : t) (post : http_result)
  : res (list string) :=
  try_except
    (match post with
     | PostRaises e => Raise e
     | Response status_code body =>
         if status_code =? 200
         then (content <- body ;;
               text <- as_str content ;;
               Ok (firstn 3 (extract_commands text)))%res
         else Ok []
     end)
    (fun _ => Ok []).

Definition analyze_command_outputs (self : t) (post : http_result)
  : res pyval :=
  try_except
    (match post with
     | PostRaises e => Raise e
     | Response status_code body =>
         if status_code =? 200
         then body
         else Ok (PyText
                    (_generate_enhanced_fallback_response
                       [("type", "analysis")]))
     end)
    (fun _ =>
       Ok (PyText (_generate_enhanced_fallback_response
                     [("type", "analysis")]))).

Definition suggest_follow_up_commands (self : t) (post : http_result)
  : res (list string) :=
  try_except
    (match post with
     | PostRaises e => Raise e
     | Response status_code body =>
         if status_code =? 200
         then (content <- body ;;
               text <- as_str content ;;
               Ok (firstn 2 (extract_commands text)))%res
         else Ok []
     end)
    (fun _ => Ok []).

Definition generate_response (self : t) (intent : PyDict.t string)
    (post : http_result) : res pyval :=
  try_except
    (match post with
     | PostRaises e => Raise e
     | Response status_code body =>
         if status_code =? 200
         then body
         else Ok (PyText (_generate_enhanced_fallback_response intent))
     end)
    (fun _ => Ok (PyText (_generate_enhanced_fallback_response intent))).

End OpenRouterProvider.

Module LocalLLMProvider.

Record t : Type := { endpoint_url : string; model : string }.

(** [LocalLLMProvider._generate_enhanced_fallback_response] builds an
    [OpenRouterProvider] and calls its method. *)
Definition _generate_enhanced_fallback_response (intent : PyDict.t string)
  : string :=
  _generate_enhanced_fallback_response intent.

Definition suggest_commands (self : t) (post : http_result)
  : res (list string) :=
  try_except
    (match post with
     | PostRaises e => Raise e
     | Response status_code body =>
         if status_code =? 200
         then (content <- body ;;
               text <- as_str content ;;
               Ok (firstn 3 (extract_commands text)))%res
         else Ok []
     end)
    (fun _ => Ok []).

Definition analyze_command_outputs (self : t) (post : http_result)
  : res pyval :=
  try_except
    (match post with
     | PostRaises e => Raise e
     | Response status_code body =>
         if status_code =? 200
         then body
         else Ok (PyText
                    (_generate_enhanced_fallback_response
                       [("type", "analysis")]))
     end)
    (fun _ =>
       Ok (PyText (_generate_enhanced_fallback_response
                     [("type", "analysis")]))).

Definition suggest_follow_up_commands (self : t) (post : http_result)
  : res (list string) :=
  try_except
    (match post with
     | PostRaises e => Raise e
     | Response status_code body =>
         if status_code =? 200
         then (content <- body ;;
               text <- as_str content ;;
               Ok (firstn 2 (extract_commands text)))%res
         else Ok []
     end)
    (fun _ => Ok []).

Definition generate_response (self : t) (intent : PyDict.t string)
    (post : http_result) : res pyval :=
  try_except
    (match post with
     | PostRaises e => Raise e
     | Response status_code body =>
         if status_code =? 200
         then body
         else Ok (PyText (_generate_enhanced_fallback_response intent))
     end)
    (fun _ => Ok (PyText (_generate_enhanced_fallback_response intent))).

End LocalLLMProvider.

#[export] Instance OpenRouter_LLMProvider : LLMProvider OpenRouterProvider.t := {
  suggest_commands := OpenRouterProvider.suggest_commands;
  analyze_command_outputs := OpenRouterProvider.analyze_command_outputs;
  suggest_follow_up_commands := OpenRouterProvider.suggest_follow_up_commands;
  generate_response := OpenRouterProvider.generate_response
}.

#[export] Instance Local_LLMProvider : LLMProvider LocalLLMProvider.t := {
  suggest_commands := LocalLLMProvider.suggest_commands;
  analyze_command_outputs := LocalLLMProvider.analyze_command_outputs;
  suggest_follow_up_commands := LocalLLMProvider.suggest_follow_up_commands;
  generate_response := LocalLLMProvider.generate_response
}.

(** ** [app.py]: the command part of the [/chat] handler *)

(** Modelled from the spec: the enumeration [QuestionType] of the module
    [question_classifier], which is not among the sources.  The handler
    names [MODERATE_INVESTIGATION] and [DEEP_ANALYSIS]; the data model adds
    [SIMPLE_LOOKUP] and leaves the rest open ([OTHER_QUESTION]). *)
Inductive QuestionType : Type :=
| SIMPLE_LOOKUP
| MODERATE_INVESTIGATION
| DEEP_ANALYSIS
| OTHER_QUESTION.

(** The fields of the classification the handler computes with; the scores,
    the method and the reasoning are only copied into the response. *)
Record Classification : Type := {
  question_type : QuestionType;
  suggested_max_commands : Z;
  follow_up_allowed : bool
}.

(** The user's preferences as far as the handler reads them: the value of
    the key ['max_commands_preference'], [None] when the key is absent or
    null. *)
Record UserPrefs : Type := { max_commands_preference : option Z }.

(** The part of the JSON response the command pipeline determines. *)
Record ChatResponse : Type := {
  response : pyval;
  commands_executed : list string;
  analysis_type : string
}.

(** Step 2 of [chat]: [max_commands] after the user's preference.
    [user_prefs and user_prefs.get('max_commands_preference')] is false for
    no preferences, for an absent key and for the value 0. *)
Definition effective_max_commands (classification : Classification)
    (user_prefs : option UserPrefs) : Z :=
  let max_commands := suggested_max_commands classification in
  match user_prefs with
  | Some prefs =>
      match max_commands_preference prefs with
      | Some preference =>
          if negb (preference =? 0)
          then Z.min max_commands preference
          else max_commands
      | None => max_commands
      end
  | None => max_commands
  end.

(** "Limit commands based on classification". *)
Definition limit_commands (suggested_commands : list string)
    (max_commands : Z) : list string :=
  match suggested_commands with
  | [] => suggested_commands
  | _ :: _ =>
      if Z.of_nat (List.length suggested_commands) >? max_commands
      then slice_to max_commands suggested_commands
      else suggested_commands
  end.

(** The limit on follow-up commands. *)
Definition limit_follow_ups (follow_up_commands : list string) : list string :=
  match follow_up_commands with
  | [] => follow_up_commands
  | _ :: _ =>
      if (2 <? List.length follow_up_commands)%nat
      then slice_to 2 follow_up_commands
      else follow_up_commands
  end.

Definition investigates (t : QuestionType) : bool :=
  match t with
  | MODERATE_INVESTIGATION | DEEP_ANALYSIS => true
  | _ => false
  end.

Section Orchestrator.

Variable World : Type.
Variable subprocess_run :
  World -> list string -> Z -> res CompletedProcess * World.
Variable clock : World -> string.
Variable default_kubeconfig : string.

(** Code that reads and changes the system and may raise. *)
Definition M (A : Type) : Type := Sys World -> res A * Sys World.

Definition ret {A : Type} (a : A) : M A := fun s => (Ok a, s).

Definition mbind {A B : Type} (m : M A) (k : A -> M B) : M B :=
  fun s =>
    match m s with
    | (Ok a, s') => k a s'
    | (Raise e, s') => (Raise e, s')
    end.

Definition lift {A : Type} (r : res A) : M A := fun s => (r, s).

(** [command_outputs] and [executed_commands]. *)
Definition Collected : Type := (PyDict.t CommandResult * list string)%type.

(** The two [for cmd in ...] loops of [chat]: both run the command without
    its first word, store the output under the command text and append the
    text to [executed_commands]. *)
Fixpoint run_commands (k8s_client_to_use : K8sClient)
    (commands : list string) (acc : Collected) : M Collected :=
  match commands with
  | [] => ret acc
  | cmd :: rest =>
      let cmd_parts := tl (words cmd) in
      mbind
        (_run_kubectl_command World subprocess_run clock default_kubeconfig
           k8s_client_to_use cmd_parts 30)
        (fun output =>
           run_commands k8s_client_to_use rest
             (PyDict.set cmd output (fst acc), (snd acc ++ [cmd])%list))
  end.

(** Step 5 of [chat]. *)
Definition follow_up_phase {P : Type} `{LLMProvider P} (llm_provider : P)
    (k8s_client_to_use : K8sClient) (classification : Classification)
    (post_follow_up : http_result) (acc : Collected) : M Collected :=
  if follow_up_allowed classification
     && PyDict.truthy (fst acc)
     && investigates (question_type classification)
  then
    mbind (lift (suggest_follow_up_commands llm_provider post_follow_up))
      (fun follow_up_commands =>
         let follow_up_commands := limit_follow_ups follow_up_commands in
         run_commands k8s_client_to_use follow_up_commands acc)
  else ret acc.

(** Steps 2 to 6 of [chat], from the classification to the response, with
    the client [k8s_client_to_use] already chosen.  An exception that
    leaves this part is what the handler turns into the 500 response.  The
    calls of the database ([save_chat_message], [log_activity]) and the
    history are outside the model; [chat_commands] has the choice of the
    client and the calls of the database as well. *)
Definition chat_pipeline {P : Type} `{LLMProvider P} (llm_provider : P)
    (k8s_client_to_use : K8sClient) (classification : Classification)
    (user_prefs : option UserPrefs)
    (post_suggest post_follow_up post_analyze : http_result)
  : M ChatResponse :=
  let max_commands := effective_max_commands classification user_prefs in
  mbind (lift (suggest_commands llm_provider post_suggest))
    (fun suggested_commands =>
       let suggested_commands :=
         limit_commands suggested_commands max_commands in
       match suggested_commands with
       | [] =>
           mbind (lift (analyze_command_outputs llm_provider post_analyze))
             (fun bot_response =>
                ret {| response := bot_response;
                       commands_executed := [];
                       analysis_type := "advice_only" |})
       | _ :: _ =>
           mbind (run_commands k8s_client_to_use suggested_commands ([], []))
             (fun acc =>
                mbind (follow_up_phase llm_provider k8s_client_to_use
                         classification post_follow_up acc)
                  (fun acc =>
                     mbind (lift (analyze_command_outputs llm_provider
                                    post_analyze))
                       (fun bot_response =>
                          ret {| response := bot_response;
                                 commands_executed := snd acc;
                                 analysis_type := "command_based" |})))
       end).

End Orchestrator.

(** ** The specification's vocabulary *)



(** The budget as the specification writes it:
    [min(suggested_max_commands, user_preference ?? infinity)]. *)
Definition spec_effective_budget (classification : Classification)
    (user_prefs : option UserPrefs) : Z :=
  match user_prefs with
  | Some {| max_commands_preference := Some preference |} =>
      Z.min (suggested_max_commands classification) preference
  | _ => suggested_max_commands classification
  end.

(** The request failed: it raised (time-out, connection error, ...), the
    status is not 200, or decoding the body of a 200 response raised. *)
Definition request_failed (post : http_result) : bool :=
  match post with
  | PostRaises _ => true
  | Response status_code content =>
      negb (status_code =? 200)
      || match content with Raise _ => true | Ok _ => false end
  end.


(** ** Concrete systems for the examples *)

(** A system whose every command succeeds with the same output. *)
Definition always_ok (w : unit) (argv : list string) (timeout : Z)
  : res CompletedProcess * unit :=
  (Ok {| cp_returncode := 0; cp_stdout := "ok"; cp_stderr := "" |}, w).

(** A system that answers with the number of commands run before. *)
Definition counting (w : nat) (argv : list string) (timeout : Z)
  : res CompletedProcess * nat :=
  (Ok {| cp_returncode := 0;
         cp_stdout := NilZero.string_of_uint (Nat.to_uint w);
         cp_stderr := "" |}, S w).

(** A system in which every command raises [e]. *)
Definition always_raises (e : exn) (w : unit) (argv : list string)
    (timeout : Z) : res CompletedProcess * unit :=
  (Raise e, w).

(** A system in which every command completes as [p]. *)
Definition always_completes (p : CompletedProcess) (w : unit)
    (argv : list string) (timeout : Z) : res CompletedProcess * unit :=
  (Ok p, w).

Definition no_clock {W : Type} (w : W) : string := "2025-01-01T00:00:00".

Definition home_kubeconfig : string := "/root/.kube/config".

Definition default_client : K8sClient :=
  {| kubeconfig_path := home_kubeconfig |}.

Definition hosted : OpenRouterProvider.t :=
  {| OpenRouterProvider.api_key := "key";
     OpenRouterProvider.model := "minimax/minimax-01" |}.

Definition self_hosted : LocalLLMProvider.t :=
  {| LocalLLMProvider.endpoint_url := "http://localhost:8080";
     LocalLLMProvider.model := "default" |}.

Definition start {W : Type} (w : W) : Sys W := {| world := w; invoked := [] |}.

(** A text that proposes five commands. *)
Definition five_commands : string :=
  "kubectl get pods" ++ nl ++ "kubectl get nodes" ++ nl
  ++ "kubectl get services" ++ nl ++ "kubectl get events" ++ nl
  ++ "kubectl top nodes".

Definition timed_out : exn :=
  Exn TimeoutExpired "Command '['kubectl', 'get', 'pods']' timed out after 30 seconds".

Definition refused : CompletedProcess :=
  {| cp_returncode := 1;
     cp_stdout := "";
     cp_stderr := "Unable to connect to the server: dial tcp 10.0.0.1:6443: i/o timeout" |}.

Definition double_quote : string := String (ascii_of_N 34) EmptyString.

(** What [kubectl get pods web-0 db-0] prints when the pod [web-0] exists
    and the pod [db-0] does not: the tool ran and reached the cluster. *)
Definition one_pod_missing : CompletedProcess :=
  {| cp_returncode := 1;
     cp_stdout := "NAME READY STATUS RESTARTS AGE" ++ nl
                  ++ "web-0 1/1 Running 0 3d";
     cp_stderr := "Error from server (NotFound): pods " ++ double_quote
                  ++ "db-0" ++ double_quote ++ " not found" |}.

Definition lookup : Classification :=
  {| question_type := SIMPLE_LOOKUP;
     suggested_max_commands := 3;
     follow_up_allowed := false |}.

Definition deep : Classification :=
  {| question_type := DEEP_ANALYSIS;
     suggested_max_commands := 3;
     follow_up_allowed := true |}.

Definition answered : http_result := Response 200 (Ok (PyText "All good.")).

Definition unreachable_llm : http_result :=
  PostRaises (Exn RequestsTimeout "Read timed out.").

(** [command_outputs] and [executed_commands] after one primary command
    on the counting system. *)
Definition primary_collected : Collected :=
  match fst (run_commands nat counting no_clock home_kubeconfig
               default_client ["kubectl get pods"] ([], []) (start 0%nat)) with
  | Ok acc => acc
  | Raise _ => ([], [])
  end.

(** ** [k8s_client.py]: the remaining operations *)

(** The dictionary [get_pod_logs] returns. *)
Record PodLogs : Type := {
  pl_success : bool;
  pl_error : option string;
  pl_logs : string;
  pl_timestamp : option string
}.

(** A value of the dictionaries built from several commands. *)
Inductive K8sValue : Type :=
| VResult (r : CommandResult)
| VLogs (l : PodLogs)
| VText (s : string).

(** What [execute_commands_for_intent] returns: the result of one
    command, or a dictionary of results. *)
Inductive IntentData : Type :=
| OneResult (r : CommandResult)
| Bundle (d : PyDict.t K8sValue).

(** [d.get(k, default)] *)
Definition get_default {V : Type} (k : string) (default : V) (d : PyDict.t V)
  : V :=
  match PyDict.get k d with
  | Some v => v
  | None => default
  end.

Section ClientOperations.

Variable World : Type.
Variable subprocess_run :
  World -> list string -> Z -> res CompletedProcess * World.
Variable clock : World -> string.
Variable default_kubeconfig : string.

Abbreviation run_kubectl :=
  (_run_kubectl_command World subprocess_run clock default_kubeconfig).
Abbreviation bindM := (mbind World).
Abbreviation retM := (ret World).

(** [K8sClient._validate_kubectl_access]: it runs [kubectl cluster-info]
    with a timeout of 10 seconds and swallows a time-out and a missing
    binary; any other exception leaves the function. *)
Definition _validate_kubectl_access : M World unit :=
  fun s =>
    let '(ran, w) :=
      subprocess_run (world s) ["kubectl"; "cluster-info"] 10 in
    let s' := {| world := w;
                 invoked := (invoked s ++ [["kubectl"; "cluster-info"]])%list |} in
    (match ran with
     | Ok _ => Ok tt
     | Raise e =>
         match exn_cls e with
         | TimeoutExpired | FileNotFoundError => Ok tt
         | _ => Raise e
         end
     end, s').

(** [K8sClient.__init__]; [None] is the default argument. *)
Definition K8sClient__init__ (kubeconfig_path : option string)
  : M World K8sClient :=
  let path :=
    match kubeconfig_path with
    | Some p => if truthy p then p else default_kubeconfig
    | None => default_kubeconfig
    end in
  bindM _validate_kubectl_access
    (fun _ => retM {| kubeconfig_path := path |}).

Definition get_namespaces (self : K8sClient) : M World CommandResult :=
  run_kubectl self ["get"; "namespaces"; "-o"; "json"] 30.

Definition get_nodes (self : K8sClient) : M World CommandResult :=
  run_kubectl self ["get"; "nodes"; "-o"; "json"] 30.

Definition get_pods (self : K8sClient) (namespace : string)
  : M World CommandResult :=
  if String.eqb namespace "all"
  then run_kubectl self ["get"; "pods"; "--all-namespaces"; "-o"; "json"] 30
  else run_kubectl self ["get"; "pods"; "-n"; namespace; "-o"; "json"] 30.

Definition get_deployments (self : K8sClient) (namespace : string)
  : M World CommandResult :=
  if String.eqb namespace "all"
  then run_kubectl self
         ["get"; "deployments"; "--all-namespaces"; "-o"; "json"] 30
  else run_kubectl self ["get"; "deployments"; "-n"; namespace; "-o"; "json"] 30.

Definition get_services (self : K8sClient) (namespace : string)
  : M World CommandResult :=
  if String.eqb namespace "all"
  then run_kubectl self ["get"; "services"; "--all-namespaces"; "-o"; "json"] 30
  else run_kubectl self ["get"; "services"; "-n"; namespace; "-o"; "json"] 30.

Definition get_events (self : K8sClient) (namespace : string)
  : M World CommandResult :=
  if String.eqb namespace "all"
  then run_kubectl self ["get"; "events"; "--all-namespaces"; "-o"; "json"] 30
  else run_kubectl self ["get"; "events"; "-n"; namespace; "-o"; "json"] 30.

Definition describe_pod (self : K8sClient) (pod_name namespace : string)
  : M World CommandResult :=
  run_kubectl self ["describe"; "pod"; pod_name; "-n"; namespace] 30.

Definition describe_deployment (self : K8sClient)
    (deployment_name namespace : string) : M World CommandResult :=
  run_kubectl self ["describe"; "deployment"; deployment_name; "-n"; namespace]
    30.

(** [K8sClient.get_pod_logs], the second definition of that name in the
    class, which replaces the first: its parameters are
    [(namespace, pod_name, tail_lines=1000)]. *)
Definition get_pod_logs (self : K8sClient) (namespace pod_name : string)
    (tail_lines : Z) : M World PodLogs :=
  fun s =>
    let '(ran, s') :=
      run_kubectl self
        ["logs"; pod_name; "-n"; namespace; "--tail"; str_of_int tail_lines]
        30 s in
    (try_except
       (result <- ran ;;
        Ok (if success result
            then {| pl_success := true;
                    pl_error := None;
                    pl_logs := stdout result;
                    pl_timestamp := Some (timestamp result) |}
            else {| pl_success := false;
                    pl_error := Some (stderr result);
                    pl_logs := "";
                    pl_timestamp := None |}))%res
       (fun e => Ok {| pl_success := false;
                       pl_error := Some (exn_str e);
                       pl_logs := "";
                       pl_timestamp := None |}),
     s').

(** [datetime.now().isoformat()] as a step of the monad. *)
Definition now : M World string := fun s => (Ok (clock (world s)), s).

(** [K8sClient.get_cluster_health]; the entries are evaluated in the order
    of the dictionary display. *)
Definition get_cluster_health (self : K8sClient) : M World (PyDict.t K8sValue) :=
  bindM now (fun t =>
  bindM (get_namespaces self) (fun namespaces =>
  bindM (get_pods self "all") (fun pods =>
  bindM (get_deployments self "all") (fun deployments =>
  bindM (get_events self "all") (fun events =>
  retM [("timestamp", VText t);
        ("namespaces", VResult namespaces);
        ("pods", VResult pods);
        ("deployments", VResult deployments);
        ("events", VResult events)]))))).

(** [K8sClient.analyze_pod_issues].  The call
    [self.get_pod_logs(pod_name, namespace)] binds the pod name to the
    parameter [namespace] of [get_pod_logs] and the namespace to its
    parameter [pod_name]. *)
Definition analyze_pod_issues (self : K8sClient) (pod_name namespace : string)
  : M World (PyDict.t K8sValue) :=
  bindM (run_kubectl self ["get"; "pod"; pod_name; "-n"; namespace; "-o"; "json"]
           30) (fun pod_info =>
  bindM (get_pod_logs self pod_name namespace 1000) (fun pod_logs =>
  bindM (describe_pod self pod_name namespace) (fun pod_describe =>
  bindM (get_events self namespace) (fun namespace_events =>
  bindM now (fun t =>
  retM [("pod_info", VResult pod_info);
        ("pod_logs", VLogs pod_logs);
        ("pod_describe", VResult pod_describe);
        ("namespace_events", VResult namespace_events);
        ("timestamp", VText t)]))))).

(** [try: body except Exception as e: handler e] for code that changes the
    system. *)
Definition try_exceptM {A : Type} (body : M World A) (handler : exn -> M World A)
  : M World A :=
  fun s =>
    match body s with
    | (Ok a, s') => (Ok a, s')
    | (Raise e, s') => handler e s'
    end.

(** [K8sClient.execute_commands_for_intent] for an intent whose values are
    strings. *)
Definition execute_commands_for_intent (self : K8sClient)
    (intent : PyDict.t string) : M World IntentData :=
  try_exceptM
    (let intent_type := get_default "type" "unknown" intent in
     if String.eqb intent_type "cluster_health"
     then bindM (get_cluster_health self) (fun d => retM (Bundle d))
     else if String.eqb intent_type "pod_analysis"
     then
       let namespace := get_default "namespace" "default" intent in
       match PyDict.get "pod_name" intent with
       | Some (String c p) =>
           bindM (analyze_pod_issues self (String c p) namespace)
             (fun d => retM (Bundle d))
       | _ =>
           bindM (get_pods self (get_default "namespace" "all" intent))
             (fun r => retM (OneResult r))
       end
     else if String.eqb intent_type "namespace_analysis"
     then
       let namespace := get_default "namespace" "all" intent in
       bindM (get_pods self namespace) (fun pods =>
       bindM (get_deployments self namespace) (fun deployments =>
       bindM (get_services self namespace) (fun services =>
       bindM (get_events self namespace) (fun events =>
       bindM now (fun t =>
       retM (Bundle [("pods", VResult pods);
                     ("deployments", VResult deployments);
                     ("services", VResult services);
                     ("events", VResult events);
                     ("timestamp", VText t)]))))))
     else if String.eqb intent_type "deployment_analysis"
     then
       let namespace := get_default "namespace" "default" intent in
       match PyDict.get "deployment_name" intent with
       | Some (String c d) =>
           let deployment_name := String c d in
           bindM (run_kubectl self
                    ["get"; "deployment"; deployment_name; "-n"; namespace;
                     "-o"; "json"] 30) (fun deployment_info =>
           bindM (describe_deployment self deployment_name namespace)
             (fun deployment_describe =>
           bindM (get_pods self namespace) (fun related_pods =>
           bindM (get_events self namespace) (fun namespace_events =>
           bindM now (fun t =>
           retM (Bundle [("deployment_info", VResult deployment_info);
                         ("deployment_describe", VResult deployment_describe);
                         ("related_pods", VResult related_pods);
                         ("namespace_events", VResult namespace_events);
                         ("timestamp", VText t)]))))))
       | _ =>
           bindM (get_deployments self (get_default "namespace" "all" intent))
             (fun r => retM (OneResult r))
       end
     else
       bindM (get_pods self "all") (fun pods =>
       bindM (get_deployments self "all") (fun deployments =>
       bindM (get_events self "all") (fun events =>
       bindM now (fun t =>
       retM (Bundle [("pods", VResult pods);
                     ("deployments", VResult deployments);
                     ("events", VResult events);
                     ("timestamp", VText t)]))))))
    (fun e =>
       bindM now (fun t =>
       retM (Bundle [("error", VText (exn_str e)); ("timestamp", VText t)]))).

End ClientOperations.

(** ** Vocabulary for the client operations *)

(** The verbs of the commands the client builds for inspection. *)
Definition inspection_verbs : list string := ["get"; "describe"; "logs"].

Definition inspects (command : list string) : bool :=
  match command with
  | verb :: _ => existsb (String.eqb verb) inspection_verbs
  | [] => false
  end.

(** [m] never raises and runs exactly the commands [commands], in order,
    each through [_get_kubectl_command]. *)
Definition runs_exactly {World A : Type} (default_kubeconfig : string)
    (self : K8sClient) (m : Sys World -> res A * Sys World)
    (commands : list (list string)) : Prop :=
  forall s, exists a s',
    m s = (Ok a, s')
    /\ invoked s'
       = (invoked s
          ++ map (_get_kubectl_command default_kubeconfig self) commands)%list.

(** [m] never raises and runs exactly [n] commands, each with an
    inspection verb. *)
Definition runs_inspections {World A : Type} (default_kubeconfig : string)
    (self : K8sClient) (m : Sys World -> res A * Sys World) (n : nat) : Prop :=
  forall s, exists a s' commands,
    m s = (Ok a, s')
    /\ invoked s'
       = (invoked s
          ++ map (_get_kubectl_command default_kubeconfig self) commands)%list
    /\ List.length commands = n
    /\ forallb inspects commands = true.

(** ** [llm_client.py]: the factory and the request messages *)

(** [s.rstrip(c)] for one character [c]. *)
Fixpoint rstrip_char (c : ascii) (s : string) : string :=
  match s with
  | EmptyString => EmptyString
  | String d s' =>
      match rstrip_char c s' with
      | EmptyString => if Ascii.eqb d c then EmptyString else String d EmptyString
      | r => String d r
      end
  end.

(** [n] times the character [c]. *)
Fixpoint repeat_char (c : ascii) (n : nat) : string :=
  match n with
  | O => EmptyString
  | S n' => String c (repeat_char c n')
  end.

(** [s.endswith(c)] for one character [c]. *)
Fixpoint ends_with_char (c : ascii) (s : string) : bool :=
  match s with
  | EmptyString => false
  | String d EmptyString => Ascii.eqb d c
  | String _ s' => ends_with_char c s'
  end.

Module Factory.

(** A value of a configuration dictionary: a string or [None]. *)
Definition Config : Type := PyDict.t (option string).

(** The attributes [OpenRouterProvider.__init__] sets. *)
Record OpenRouterInstance : Type := {
  or_api_url : string;
  or_api_key : string;
  or_model : option string;
  or_authorization : string
}.

(** The attributes [LocalLLMProvider.__init__] sets. *)
Record LocalInstance : Type := {
  lo_endpoint_url : string;
  lo_model : option string;
  lo_api_url : string
}.

Inductive Provider : Type :=
| Hosted (p : OpenRouterInstance)
| SelfHosted (p : LocalInstance).

Definition attribute_error (name : string) : exn :=
  Exn OtherException ("'NoneType' object has no attribute '" ++ name ++ "'").

Definition key_error (key : string) : exn :=
  Exn OtherException ("'" ++ key ++ "'").

Definition value_error (text : string) : exn := Exn OtherException text.

(** [OpenRouterProvider.__init__] *)
Definition OpenRouterProvider__init__ (api_key : string)
    (model : option string) : OpenRouterInstance :=
  {| or_api_url := "https://openrouter.ai/api/v1/chat/completions";
     or_api_key := api_key;
     or_model := model;
     or_authorization := "Bearer " ++ api_key |}.

(** [LocalLLMProvider.__init__]; [rstrip] raises on [None]. *)
Definition LocalLLMProvider__init__ (endpoint_url : option string)
    (model : option string) : res LocalInstance :=
  match endpoint_url with
  | None => Raise (attribute_error "rstrip")
  | Some url =>
      let endpoint := rstrip_char "/" url in
      Ok {| lo_endpoint_url := endpoint;
            lo_model := model;
            lo_api_url := endpoint ++ "/v1/chat/completions" |}
  end.

(** [LLMClientFactory.create_provider] *)
Definition create_provider (provider_config : Config) : res Provider :=
  (provider <- match get_default "provider" (Some "") provider_config with
               | Some p => Ok p
               | None => Raise (attribute_error "lower")
               end ;;
   let provider_type := lower provider in
   if String.eqb provider_type "openrouter"
   then
     let api_key := get_default "api_key" None provider_config in
     let model :=
       get_default "model" (Some "minimax/minimax-01") provider_config in
     match api_key with
     | Some (String c k) =>
         Ok (Hosted (OpenRouterProvider__init__ (String c k) model))
     | _ => Raise (value_error "OpenRouter provider requires an API key")
     end
   else if String.eqb provider_type "local"
   then
     let endpoint_url :=
       get_default "endpoint_url" (Some "http://localhost:8080")
         provider_config in
     let model := get_default "model" (Some "default") provider_config in
     (p <- LocalLLMProvider__init__ endpoint_url model ;; Ok (SelfHosted p))
   else Raise (value_error ("Unsupported provider type: " ++ provider_type))
  )%res.

(** The dictionary [provider_config] the [/chat] handler builds from the
    active configuration (app.py): ['provider'] is read with a subscript,
    the other keys with [get], and an absent or empty model becomes
    ['default']. *)
Definition chat_provider_config (active_llm_config : Config) : res Config :=
  match PyDict.get "provider" active_llm_config with
  | None => Raise (key_error "provider")
  | Some provider =>
      Ok [("provider", provider);
          ("api_key", get_default "api_key" None active_llm_config);
          ("endpoint_url", get_default "endpoint_url" None active_llm_config);
          ("model",
           match get_default "model" None active_llm_config with
           | Some (String c m) => Some (String c m)
           | _ => Some "default"
           end)]
  end.

(** The provider the [/chat] handler works with. *)
Definition chat_provider (active_llm_config : Config) : res Provider :=
  (provider_config <- chat_provider_config active_llm_config ;;
   create_provider provider_config)%res.

End Factory.

(** One entry of a conversation history, as far as the providers read
    it. *)
Record HistoryEntry : Type := { h_role : string; h_message : string }.

(** One message of a request payload. *)
Record ChatMessage : Type := { m_role : string; m_content : string }.

(** [conversation_history[-10:] if len(conversation_history) > 10 else
    conversation_history] *)
Definition recent_history (conversation_history : list HistoryEntry)
  : list HistoryEntry :=
  if (10 <? List.length conversation_history)%nat
  then skipn (List.length conversation_history - 10) conversation_history
  else conversation_history.

(** The list [messages] that [generate_response] and
    [generate_response_stream] of both providers build. *)
Definition build_messages (system_prompt : string)
    (conversation_history : list HistoryEntry) (user_message : string)
  : list ChatMessage :=
  ([{| m_role := "system"; m_content := system_prompt |}]
   ++ flat_map
        (fun msg =>
           if String.eqb (h_role msg) "user"
           then [{| m_role := "user"; m_content := h_message msg |}]
           else if String.eqb (h_role msg) "assistant"
           then [{| m_role := "assistant"; m_content := h_message msg |}]
           else [])
        (recent_history conversation_history)
   ++ [{| m_role := "user"; m_content := user_message |}])%list.

(** ** [project/llm_client.py]: the shared extractor *)

Module Project.

(** [\d] on code points below 256. *)
Definition is_decimal (c : ascii) : bool :=
  let n := N_of_ascii c in ((48 <=? n) && (n <=? 57))%N.

(** [re.sub(r'^[-*]\s+', '', line)] *)
Definition drop_bullet (line : string) : string :=
  match line with
  | String c (String w rest) =>
      if (Ascii.eqb c "-" || Ascii.eqb c "*") && isspace w
      then lstrip rest
      else line
  | _ => line
  end.

Fixpoint all_decimal (s : string) : bool :=
  match s with
  | String c s' => is_decimal c && all_decimal s'
  | EmptyString => true
  end.

Fixpoint skip_decimals (s : string) : string :=
  match s with
  | String c s' => if is_decimal c then skip_decimals s' else s
  | EmptyString => EmptyString
  end.

(** [re.sub(r'^\d+\.\s+', '', line)] *)
Definition drop_number (line : string) : string :=
  match line with
  | String c t =>
      if is_decimal c
      then match skip_decimals t with
           | String dot (String w rest) =>
               if Ascii.eqb dot "." && isspace w then lstrip rest else line
           | _ => line
           end
      else line
  | EmptyString => line
  end.

(** The longest prefix without a line feed: what [.+] can take. *)
Fixpoint until_newline (s : string) : string :=
  match s with
  | String c s' =>
      if Ascii.eqb c (ascii_of_N 10) then EmptyString
      else String c (until_newline s')
  | EmptyString => EmptyString
  end.

(** The text [\s+.+] matches at the start of [t], if any: the white space
    is taken greedily, and given back as long as nothing is left for
    [.+]. *)
Fixpoint ws_dots (t : string) : option string :=
  match t with
  | String w t' =>
      if isspace w
      then match ws_dots t' with
           | Some m => Some (String w m)
           | None =>
               match until_newline t' with
               | EmptyString => None
               | d => Some (String w d)
               end
           end
      else None
  | EmptyString => None
  end.

(** What follows the prefix [p] in [s], when [s] begins with [p]. *)
Fixpoint after_prefix (p s : string) : option string :=
  match p, s with
  | EmptyString, _ => Some s
  | String _ _, EmptyString => None
  | String a p', String b s' =>
      if Ascii.eqb a b then after_prefix p' s' else None
  end.

(** [re.search(r'kubectl\s+.+', line)]: the text of the leftmost match. *)
Fixpoint search_kubectl (line : string) : option string :=
  match line with
  | EmptyString => None
  | String c rest =>
      let here :=
        match after_prefix "kubectl" line with
        | Some t =>
            match ws_dots t with
            | Some m => Some ("kubectl" ++ m)
            | None => None
            end
        | None => None
        end in
      match here with
      | Some m => Some m
      | None => search_kubectl rest
      end
  end.

(** The body of the loop of [extract_kubectl_commands] for one line. *)
Definition commands_of_line (line : string) : list string :=
  let line := strip line in
  if negb (truthy line) then []
  else
    let line := drop_bullet line in
    let line := drop_number line in
    let line := strip line in
    if startswith "kubectl " line then [line]
    else if contains "kubectl " line
    then match search_kubectl line with
         | Some m => [m]
         | None => []
         end
    else [].

(** [extract_kubectl_commands] *)
Definition extract_kubectl_commands (content : string) : list string :=
  firstn 3 (flat_map commands_of_line (split nl content)).

(** [suggest_commands] and [suggest_follow_up_commands] of both providers
    of this file: on a 200 response all four return what the extractor
    returns. *)
Definition suggest_commands (post : http_result) : res (list string) :=
  try_except
    (match post with
     | PostRaises e => Raise e
     | Response status_code body =>
         if status_code =? 200
         then (content <- body ;;
               text <- as_str content ;;
               Ok (extract_kubectl_commands text))%res
         else Ok []
     end)
    (fun _ => Ok []).

Definition suggest_follow_up_commands (post : http_result)
  : res (list string) :=
  try_except
    (match post with
     | PostRaises e => Raise e
     | Response status_code body =>
         if status_code =? 200
         then (content <- body ;;
               text <- as_str content ;;
               Ok (extract_kubectl_commands text))%res
         else Ok []
     end)
    (fun _ => Ok []).

End Project.

(** ** [k8s_client.py]: the age of a resource *)

(** [K8sClient._calculate_age].  Parsing the time stamp and reading the
    clock are the library's: [age] is [now - creation_time] in whole
    seconds, rounded down, or the exception raised on the way.  A
    [timedelta] holds [days = age // 86400] and
    [seconds = age % 86400]. *)
Definition _calculate_age (age : res Z) : string :=
  match age with
  | Raise _ => "Unknown"
  | Ok total =>
      let days := total / 86400 in
      let seconds := total mod 86400 in
      let hours := seconds / 3600 in
      let minutes := (seconds mod 3600) / 60 in
      if 0 <? days then str_of_int days ++ "d"
      else if 0 <? hours then str_of_int hours ++ "h"
      else if 0 <? minutes then str_of_int minutes ++ "m"
      else "Just now"
  end.

(** ** [app.py]: the authentication decorators *)

(** A row of the session table and of the user table, as far as the
    decorators read them. *)
Record AuthSession : Type := { session_user_id : Z }.

Record AuthUser : Type := {
  user_id : Z;
  user_role : string;
  user_is_banned : bool
}.

(** What a decorated endpoint answers: a refusal of the decorator, with
    its status code and error text, or the answer of the endpoint. *)
Inductive AuthReply (R : Type) : Type :=
| Denied (status : Z) (error : string)
| Served (r : R).
Arguments Denied {R} status error.
Arguments Served {R} r.

Section Auth.

(** The database and the endpoint.  Every call of the database may raise
    and may change it. *)
Variable Db : Type.
Variable R : Type.
Variable get_session : string -> Db -> res (option AuthSession) * Db.
Variable get_user_by_id : Z -> Db -> res (option AuthUser) * Db.
Variable update_session_activity : string -> Db -> res unit * Db.

(** The part the two decorators share once the user is known and allowed:
    the activity of the session is updated, then the endpoint runs. *)
Definition enter (f : AuthUser -> AuthSession -> Db -> res R * Db)
    (session_id : string) (user : AuthUser) (session : AuthSession) (db : Db)
  : AuthReply R * Db :=
  match update_session_activity session_id db with
  | (Raise _, db') => (Denied 500 "Authentication failed", db')
  | (Ok _, db') =>
      match f user session db' with
      | (Raise _, db'') => (Denied 500 "Authentication failed", db'')
      | (Ok r, db'') => (Served r, db'')
      end
  end.

(** [require_user_auth(f)]; [cookie] is
    [request.cookies.get('session_id')]. *)
Definition require_user_auth (f : AuthUser -> AuthSession -> Db -> res R * Db)
    (cookie : option string) (db : Db) : AuthReply R * Db :=
  match cookie with
  | Some (String c sid) =>
      let session_id := String c sid in
      match get_session session_id db with
      | (Raise _, db1) => (Denied 500 "Authentication failed", db1)
      | (Ok None, db1) => (Denied 401 "Invalid or expired session", db1)
      | (Ok (Some session), db1) =>
          match get_user_by_id (session_user_id session) db1 with
          | (Raise _, db2) => (Denied 500 "Authentication failed", db2)
          | (Ok None, db2) => (Denied 401 "User not found", db2)
          | (Ok (Some user), db2) =>
              if user_is_banned user
              then (Denied 403 "Account is banned", db2)
              else enter f session_id user session db2
          end
      end
  | _ => (Denied 401 "Session ID required", db)
  end.

(** [require_admin_auth(f)] *)
Definition require_admin_auth (f : AuthUser -> AuthSession -> Db -> res R * Db)
    (cookie : option string) (db : Db) : AuthReply R * Db :=
  match cookie with
  | Some (String c sid) =>
      let session_id := String c sid in
      match get_session session_id db with
      | (Raise _, db1) => (Denied 500 "Authentication failed", db1)
      | (Ok None, db1) => (Denied 401 "Invalid or expired session", db1)
      | (Ok (Some session), db1) =>
          match get_user_by_id (session_user_id session) db1 with
          | (Raise _, db2) => (Denied 500 "Authentication failed", db2)
          | (Ok None, db2) => (Denied 401 "User not found", db2)
          | (Ok (Some user), db2) =>
              if negb (String.eqb (user_role user) "admin")
              then (Denied 403 "Admin access required", db2)
              else if user_is_banned user
              then (Denied 403 "Account is banned", db2)
              else enter f session_id user session db2
          end
      end
  | _ => (Denied 401 "Session ID required for admin access", db)
  end.

End Auth.

(** ** [app.py]: the role of a node from its system pods *)

Local Unset Elimination Schemes.

(** A decoded JSON document.  Numbers are the integers. *)
Inductive json : Type :=
| JNull
| JBool (b : bool)
| JNum (n : Z)
| JStr (s : string)
| JList (l : list json)
| JDict (d : list (string * json)).

Local Set Elimination Schemes.

Definition not_a_dict : exn :=
  Exn OtherException "object has no attribute 'get'".

Definition not_a_str : exn :=
  Exn OtherException "object has no attribute 'lower'".

Definition not_iterable : exn :=
  Exn OtherException "object is not iterable".

(** [x.get(key, default)]: only a dictionary has the method. *)
Definition json_get (key : string) (default : json) (x : json) : res json :=
  match x with
  | JDict d =>
      Ok (match PyDict.get key d with Some v => v | None => default end)
  | _ => Raise not_a_dict
  end.

(** The values [for item in x] visits: the elements of a list, the keys of
    a dictionary, the characters of a string. *)
Definition json_iter (x : json) : res (list json) :=
  match x with
  | JList l => Ok l
  | JDict d => Ok (map (fun kv => JStr (fst kv)) d)
  | JStr s =>
      Ok (map (fun c => JStr (String c EmptyString)) (list_ascii_of_string s))
  | _ => Raise not_iterable
  end.

Definition critical_components : list string :=
  ["kube-apiserver"; "kube-controller-manager"; "kube-scheduler"; "etcd"].

(** The body of the loop over [pods] for one pod: 1 when the pod is on the
    node and its lowered name holds one of the critical components, 0
    otherwise, or the exception raised on the way. *)
Definition counts_for_node (node_name : string) (pod : json) : res nat :=
  (spec <- json_get "spec" (JDict []) pod ;;
   pod_node <- json_get "nodeName" JNull spec ;;
   match pod_node with
   | JStr n =>
       if String.eqb n node_name
       then
         metadata <- json_get "metadata" (JDict []) pod ;;
         name <- json_get "name" (JStr "") metadata ;;
         match name with
         | JStr pod_name =>
             Ok (if existsb (fun component => contains component (lower pod_name))
                      critical_components
                 then 1%nat else 0%nat)
         | _ => Raise not_a_str
         end
       else Ok 0%nat
   | _ => Ok 0%nat
   end)%res.

(** The count after the loop over [pods]. *)
Fixpoint count_components (node_name : string) (pods : list json) (count : nat)
  : res nat :=
  match pods with
  | [] => Ok count
  | pod :: rest =>
      (n <- counts_for_node node_name pod ;;
       count_components node_name rest (count + n))%res
  end.

Section NodeRole.

Variable World : Type.
Variable subprocess_run :
  World -> list string -> Z -> res CompletedProcess * World.
Variable clock : World -> string.
Variable default_kubeconfig : string.

(** [json.loads]: the decoded document, or the exception of the decoder. *)
Variable json_loads : string -> res json.

(** [determine_role_from_system_pods(node_name, k8s_client)], for a node
    name that is a string. *)
Definition determine_role_from_system_pods (node_name : string)
    (k8s_client : K8sClient) (s : Sys World) : string * Sys World :=
  let '(ran, s') :=
    _run_kubectl_command World subprocess_run clock default_kubeconfig
      k8s_client ["get"; "pods"; "-n"; "kube-system"; "-o"; "json"] 30 s in
  (match
     (pods_result <- ran ;;
      if negb (success pods_result) then Ok "worker"
      else
        pods_data <- json_loads (stdout pods_result) ;;
        pods <- json_get "items" (JList []) pods_data ;;
        items <- json_iter pods ;;
        count <- count_components node_name items 0 ;;
        Ok (if (2 <=? count)%nat then "master" else "worker"))%res
   with
   | Ok role => role
   | Raise _ => "worker"
   end, s').

End NodeRole.

(** A pod as the cluster reports it, reduced to the two fields the role
    detection reads. *)
Definition system_pod (name node : string) : json :=
  JDict [("metadata", JDict [("name", JStr name)]);
         ("spec", JDict [("nodeName", JStr node)])].

(** A pod name holds one of the critical components. *)
Definition is_critical (pod_name : string) : bool :=
  existsb (fun component => contains component (lower pod_name))
    critical_components.

(** ** [app.py]: the start of the [/chat] handler and the history cache *)

(** [if k in d: del d[k]] *)
Fixpoint dict_remove {V : Type} (k : string) (d : PyDict.t V) : PyDict.t V :=
  match d with
  | [] => []
  | (k', v) :: d' =>
      if String.eqb k k' then d' else (k', v) :: dict_remove k d'
  end.

(** An entry of [app.conversation_history[session_id]] as the handler
    creates it for a stored turn or for the message of a request. *)
Record CachedTurn : Type := {
  ct_role : string;
  ct_message : string;
  ct_timestamp : string
}.

(** [app.conversation_history] *)
Definition HistoryCache : Type := PyDict.t (list CachedTurn).

(** How the first part of the handler ends: with a response (its status,
    its ['error'] and whether it has ['requires_setup']), or with what the
    rest of the handler works with. *)
Inductive Prelude : Type :=
| Reply (status : Z) (error : string) (requires_setup : bool)
| Continue (user_prefs : option UserPrefs) (llm_provider : Factory.Provider)
    (active_llm_config : Factory.Config).

(** [data.get('session_id', 'default')] *)
Definition session_key (session_id : option string) : string :=
  match session_id with Some sid => sid | None => "default" end.

(** The dictionary appended for the message of the request. *)
Definition user_turn (user_message now : string) : CachedTurn :=
  {| ct_role := "user"; ct_message := user_message; ct_timestamp := now |}.

(** [app.conversation_history[session_id].append(turn)]; the handler calls
    it for a session that is in the cache. *)
Definition append_turn (session_id : string) (turn : CachedTurn)
    (cache : HistoryCache) : HistoryCache :=
  match PyDict.get session_id cache with
  | Some turns => PyDict.set session_id (turns ++ [turn])%list cache
  | None => cache
  end.

Section ChatPrelude.

Variable Db : Type.
Variable get_user_preferences : Z -> Db -> res (option UserPrefs) * Db.
Variable get_chat_history : Z -> string -> Db -> res (list CachedTurn) * Db.
Variable get_active_llm_config : Db -> res (option Factory.Config) * Db.

(** [if session_id not in app.conversation_history: ...] *)
Definition load_history (user_id : Z) (session_id : string)
    (cache : HistoryCache) (db : Db) : res HistoryCache * Db :=
  match PyDict.get session_id cache with
  | Some _ => (Ok cache, db)
  | None =>
      match get_chat_history user_id session_id db with
      | (Ok db_history, db') =>
          (Ok (PyDict.set session_id db_history cache), db')
      | (Raise e, db') => (Raise e, db')
      end
  end.

(** The handler from the active configuration to the provider. *)
Definition provider_or_reply (user_prefs : option UserPrefs)
    (active_llm_config : option Factory.Config) : Prelude :=
  match active_llm_config with
  | None | Some [] =>
      Reply 400
        "No active LLM configuration found. Please add and activate an LLM configuration in the settings."
        true
  | Some active_llm_config =>
      match Factory.chat_provider active_llm_config with
      | Raise e =>
          Reply 500 ("Failed to initialize LLM provider: " ++ exn_str e) true
      | Ok llm_provider => Continue user_prefs llm_provider active_llm_config
      end
  end.

(** The [/chat] handler from the request to the creation of the provider.
    [message] and [session_id] are the values of these keys of the request
    body, a dictionary, [None] for an absent key; [now] is the time of the
    request.  An exception of the database is answered by the handler's
    last [except] clause. *)
Definition chat_prelude (message session_id : option string) (user_id : Z)
    (now : string) (cache : HistoryCache) (db : Db)
  : Prelude * HistoryCache * Db :=
  match message with
  | None => (Reply 400 "Message is required" false, cache, db)
  | Some user_message =>
      let session_id := session_key session_id in
      match get_user_preferences user_id db with
      | (Raise _, db1) => (Reply 500 "Internal server error" false, cache, db1)
      | (Ok user_prefs, db1) =>
          match load_history user_id session_id cache db1 with
          | (Raise _, db2) =>
              (Reply 500 "Internal server error" false, cache, db2)
          | (Ok cache1, db2) =>
              let cache2 :=
                append_turn session_id (user_turn user_message now) cache1 in
              match get_active_llm_config db2 with
              | (Raise _, db3) =>
                  (Reply 500 "Internal server error" false, cache2, db3)
              | (Ok active_llm_config, db3) =>
                  (provider_or_reply user_prefs active_llm_config,
                   cache2, db3)
              end
          end
      end
  end.

End ChatPrelude.

(** The effect of [logout] on the cache; [cookie] is
    [request.cookies.get('session_id')]. *)
Definition logout (cookie : option string) (cache : HistoryCache)
  : HistoryCache :=
  match cookie with
  | Some (String c sid) => dict_remove (String c sid) cache
  | _ => cache
  end.

(** ** [app.py]: the command part of the [/chat] handler, with the client
    and the database *)

(** The active kubeconfig as the handler reads it: a dictionary with the
    keys ['name'] and ['path']. *)
Record Kubeconfig : Type := { kc_name : string; kc_path : option string }.

(** The keyword arguments of [app.db.log_activity] that the handler
    gives. *)
Record Activity : Type := {
  act_action_type : string;
  act_command : option string;
  act_classification_type : QuestionType;
  act_success : bool;
  act_error_message : option string
}.

(** The keyword arguments of [app.db.save_chat_message], after the user and
    the session. *)
Record StoredMessage : Type := {
  sm_role : string;
  sm_message : pyval;
  sm_commands_executed : option (list string)
}.

(** How the handler answers: with the response of the turn, or with the
    status 500 of its last [except] clause. *)
Inductive TurnReply : Type :=
| Answered (resp : ChatResponse)
| InternalError.

Section Turn.

(** [World] holds the operating system and the database here: a call of
    the database returns or raises and moves the world, as a process
    does. *)
Variable World : Type.
Variable subprocess_run :
  World -> list string -> Z -> res CompletedProcess * World.
Variable clock : World -> string.
Variable default_kubeconfig : string.
Variable get_active_kubeconfig : World -> res (option Kubeconfig) * World.
Variable log_activity : Z -> Activity -> World -> res unit * World.
Variable save_chat_message :
  Z -> string -> StoredMessage -> World -> res unit * World.

(** A call of the database as a step of the handler: it starts no
    process. *)
Definition db_call {A : Type} (f : World -> res A * World) : M World A :=
  fun s =>
    let '(r, w) := f (world s) in
    (r, {| world := w; invoked := invoked s |}).

(** The path a client built for the kubeconfig [config] keeps. *)
Definition path_of (config : Kubeconfig) : string :=
  match kc_path config with
  | Some p => if truthy p then p else default_kubeconfig
  | None => default_kubeconfig
  end.

(** The processes the choice of the client starts, by the answer of
    [get_active_kubeconfig]. *)
Definition construction_of (active : res (option Kubeconfig))
  : list (list string) :=
  match active with
  | Ok (Some _) => [["kubectl"; "cluster-info"]]
  | _ => []
  end.

(** "Get active kubeconfig and create appropriate K8sClient".  The handler
    builds a client, whose constructor runs [kubectl cluster-info], when a
    kubeconfig is active, and otherwise takes [app.k8s_client], which is
    [None] when the client could not be built at start-up. *)
Definition client_for_turn (app_k8s_client : option K8sClient)
  : M World (option K8sClient) :=
  mbind World (db_call get_active_kubeconfig)
    (fun active_kubeconfig =>
       match active_kubeconfig with
       | Some config =>
           mbind World
             (K8sClient__init__ World subprocess_run default_kubeconfig
                (kc_path config))
             (fun client => ret World (Some client))
       | None => ret World app_k8s_client
       end).

(** The two [for cmd in ...] loops of [chat] with their call of
    [log_activity]; [action_type] tells them apart. *)
Fixpoint run_and_log (k8s_client_to_use : option K8sClient) (user_id : Z)
    (action_type : string) (classification : Classification)
    (commands : list string) (acc : Collected) : M World Collected :=
  match commands with
  | [] => ret World acc
  | cmd :: rest =>
      let cmd_parts := tl (words cmd) in
      match k8s_client_to_use with
      | None =>
          lift World
            (Raise (Factory.attribute_error "_run_kubectl_command"))
      | Some client =>
          mbind World
            (_run_kubectl_command World subprocess_run clock
               default_kubeconfig client cmd_parts 30)
            (fun output =>
               let acc :=
                 (PyDict.set cmd output (fst acc),
                  (snd acc ++ [cmd])%list) in
               mbind World
                 (db_call
                    (log_activity user_id
                       {| act_action_type := action_type;
                          act_command := Some cmd;
                          act_classification_type :=
                            question_type classification;
                          act_success := success output;
                          act_error_message :=
                            if success output then None
                            else Some (stderr output) |}))
                 (fun _ =>
                    run_and_log k8s_client_to_use user_id action_type
                      classification rest acc))
      end
  end.

Section TurnProvider.

Context {P : Type} `{LLMProvider P}.
Variable llm_provider : P.

(** Step 5 of [chat]. *)
Definition follow_up_step (k8s_client_to_use : option K8sClient)
    (user_id : Z) (classification : Classification)
    (post_follow_up : http_result) (acc : Collected) : M World Collected :=
  if follow_up_allowed classification
     && PyDict.truthy (fst acc)
     && investigates (question_type classification)
  then
    mbind World
      (lift World (suggest_follow_up_commands llm_provider post_follow_up))
      (fun follow_up_commands =>
         let follow_up_commands := limit_follow_ups follow_up_commands in
         run_and_log k8s_client_to_use user_id "followup_command_executed"
           classification follow_up_commands acc)
  else ret World acc.

(** Steps 2 to 6 of [chat] as the handler has them, from the classification
    to the response: the client is chosen inside the turn, and the database
    is called after every command and before the response.  The cache of
    the history and the fields of the response copied from the
    classification are left out. *)
Definition chat_commands (app_k8s_client : option K8sClient)
    (user_id : Z) (session_id user_message : string)
    (classification : Classification) (user_prefs : option UserPrefs)
    (post_suggest post_follow_up post_analyze : http_result)
  : M World ChatResponse :=
  let max_commands := effective_max_commands classification user_prefs in
  let save role message commands :=
    db_call
      (save_chat_message user_id session_id
         {| sm_role := role;
            sm_message := message;
            sm_commands_executed := commands |}) in
  mbind World (lift World (suggest_commands llm_provider post_suggest))
    (fun suggested_commands =>
       let suggested_commands :=
         limit_commands suggested_commands max_commands in
       match suggested_commands with
       | [] =>
           mbind World
             (lift World (analyze_command_outputs llm_provider post_analyze))
             (fun bot_response =>
           mbind World (save "user" (PyText user_message) None)
             (fun _ =>
           mbind World (save "assistant" bot_response (Some []))
             (fun _ =>
           mbind World
             (db_call
                (log_activity user_id
                   {| act_action_type := "advice_query";
                      act_command := None;
                      act_classification_type :=
                        question_type classification;
                      act_success := true;
                      act_error_message := None |}))
             (fun _ =>
           ret World {| response := bot_response;
                        commands_executed := [];
                        analysis_type := "advice_only" |}))))
       | _ :: _ =>
           mbind World (client_for_turn app_k8s_client)
             (fun k8s_client_to_use =>
           mbind World
             (run_and_log k8s_client_to_use user_id "command_executed"
                classification suggested_commands ([], []))
             (fun acc =>
           mbind World
             (follow_up_step k8s_client_to_use user_id classification
                post_follow_up acc)
             (fun acc =>
           mbind World
             (lift World (analyze_command_outputs llm_provider post_analyze))
             (fun bot_response =>
           mbind World (save "user" (PyText user_message) None)
             (fun _ =>
           mbind World (save "assistant" bot_response (Some (snd acc)))
             (fun _ =>
           ret World {| response := bot_response;
                        commands_executed := snd acc;
                        analysis_type := "command_based" |}))))))
       end).

(** The same steps under the handler's [except Exception]. *)
Definition chat_turn (app_k8s_client : option K8sClient)
    (user_id : Z) (session_id user_message : string)
    (classification : Classification) (user_prefs : option UserPrefs)
    (post_suggest post_follow_up post_analyze : http_result)
    (s : Sys World) : TurnReply * Sys World :=
  match chat_commands app_k8s_client user_id session_id user_message
          classification user_prefs post_suggest post_follow_up
          post_analyze s with
  | (Ok resp, s') => (Answered resp, s')
  | (Raise _, s') => (InternalError, s')
  end.

End TurnProvider.

End Turn.

(** ** Further concrete inputs for the examples *)

Definition listing : string :=
  "total 8" ++ nl
  ++ "drwxr-xr-x 2 root root 4096 Jan 1 12:00 etc" ++ nl
  ++ "-rw-r--r-- 1 root root 12 Jan 1 12:00 my file.txt" ++ nl
  ++ "lrwxrwxrwx 1 root root 7 Jan 1 12:00 bin -> usr/bin".

Definition etc_entry : FileEntry :=
  {| fe_name := "etc";
     fe_type := "directory";
     fe_permissions := "drwxr-xr-x";
     fe_owner := "root";
     fe_group := "root";
     fe_size := "4096";
     fe_modified := "Jan 1 12:00" |}.

(** A database with one session, "s1", of the user 1, an administrator
    who is not banned, and one session, "s2", of the user 2, a banned
    user. *)
Definition one_session (session_id : string) (db : unit)
  : res (option AuthSession) * unit :=
  (Ok (if String.eqb session_id "s1" then Some {| session_user_id := 1 |}
       else if String.eqb session_id "s2" then Some {| session_user_id := 2 |}
       else None), db).

Definition two_users (id : Z) (db : unit) : res (option AuthUser) * unit :=
  (Ok (if id =? 1
       then Some {| user_id := 1; user_role := "admin";
                    user_is_banned := false |}
       else if id =? 2
       then Some {| user_id := 2; user_role := "user";
                    user_is_banned := true |}
       else None), db).

Definition touch (session_id : string) (db : unit) : res unit * unit :=
  (Ok tt, db).

Definition whoami (user : AuthUser) (session : AuthSession) (db : unit)
  : res Z * unit :=
  (Ok (user_id user), db).

(** The system pods of a cluster with one control-plane node. *)
Definition kube_system_pods : list (string * string) :=
  [("etcd-cp1", "cp1"); ("kube-apiserver-cp1", "cp1");
   ("kube-proxy-x7k2p", "w1"); ("coredns-5d78c9869d-abcde", "w1")].

Definition decoded_pods (stdout : string) : res json :=
  Ok (JDict [("items",
              JList (map (fun x => system_pod (fst x) (snd x))
                       kube_system_pods))]).

Definition local_config : Factory.Config :=
  [("provider", Some "Local");
   ("endpoint_url", Some "http://llm.internal:8080//");
   ("model", Some "llama3")].

Definition pods_listed : CompletedProcess :=
  {| cp_returncode := 0; cp_stdout := "{}"; cp_stderr := "" |}.

(** A store in which the user 1 has one stored turn in every session and
    the other users none, no user has preferences, and the active
    configuration is the one given. *)
Definition no_preferences (user_id : Z) (db : unit)
  : res (option UserPrefs) * unit :=
  (Ok None, db).

Definition stored_turns (user_id : Z) (session_id : string) (db : unit)
  : res (list CachedTurn) * unit :=
  (Ok (if user_id =? 1
       then [{| ct_role := "user"; ct_message := "list the pods";
                ct_timestamp := "t0" |}]
       else []), db).

Definition active_config (config : option Factory.Config) (db : unit)
  : res (option Factory.Config) * unit :=
  (Ok config, db).

(** A database whose calls return: the active kubeconfig is the one given,
    activities and messages are stored. *)
Definition prod_kubeconfig : Kubeconfig :=
  {| kc_name := "prod"; kc_path := Some "/etc/kube/prod" |}.

Definition active_kubeconfig (config : option Kubeconfig) (w : unit)
  : res (option Kubeconfig) * unit :=
  (Ok config, w).

Definition activity_logged (user_id : Z) (activity : Activity) (w : unit)
  : res unit * unit :=
  (Ok tt, w).

Definition message_saved (user_id : Z) (session_id : string)
    (message : StoredMessage) (w : unit) : res unit * unit :=
  (Ok tt, w).

(** * Properties *)

(** ** Strings *)

Example split_lines_ex :
  split nl ("a" ++ nl ++ "b" ++ nl) = ["a"; "b"; ""].
Proof. reflexivity. Qed.

Example split_sep_ex :
  split "kubectl " "- kubectl get pods && kubectl logs x" =
  ["- "; "get pods && "; "logs x"].
Proof. reflexivity. Qed.

Example words_ex : words "  kubectl get   pods " = ["kubectl"; "get"; "pods"].
Proof. reflexivity. Qed.

Example strip_ex : strip "  a b  " = "a b".
Proof. reflexivity. Qed.

Example slice_ex :
  slice_to 2 [1; 2; 3] = [1; 2] /\ slice_to (-1) [1; 2; 3] = [1; 2]
  /\ slice_to 5 [1; 2; 3] = [1; 2; 3] /\ slice_to (-7) [1; 2; 3] = [].
Proof. repeat split; reflexivity. Qed.

Example str_of_int_ex : str_of_int 30 = "30" /\ str_of_int (-1) = "-1".
Proof. split; reflexivity. Qed.

Section StripFacts.

Variable c : ascii.
Hypothesis c_not_space : isspace c = false.

Lemma eqb_not_space d : Ascii.eqb c d = true -> isspace d = false.
Proof. intros E; apply Ascii.eqb_eq in E; subst d; exact c_not_space. Qed.

Lemma has_char_lstrip s : has_char c (lstrip s) = has_char c s.
Proof.
  induction s as [|d s IH]; simpl; [reflexivity|].
  destruct (isspace d) eqn:Hd; simpl; [|reflexivity].
  rewrite IH.
  destruct (Ascii.eqb c d) eqn:E; [|reflexivity].
  apply eqb_not_space in E; congruence.
Qed.

Lemma has_char_rstrip s : has_char c (rstrip s) = has_char c s.
Proof.
  induction s as [|d s IH]; simpl; [reflexivity|].
  destruct (rstrip s) as [|x r] eqn:R.
  - simpl in IH. rewrite <- IH.
    destruct (isspace d) eqn:Hd; simpl.
    + destruct (Ascii.eqb c d) eqn:E; [|reflexivity].
      apply eqb_not_space in E; congruence.
    + reflexivity.
  - cbn [has_char]. cbn [has_char] in IH. rewrite IH. reflexivity.
Qed.

Lemma has_char_strip s : has_char c (strip s) = has_char c s.
Proof. unfold strip. rewrite has_char_rstrip. apply has_char_lstrip. Qed.

End StripFacts.

Lemma lstrip_head s c r : lstrip s = String c r -> isspace c = false.
Proof.
  induction s as [|d s IH]; simpl; [discriminate|].
  destruct (isspace d) eqn:Hd; [exact IH|].
  intros E; injection E as -> _; exact Hd.
Qed.

Lemma rstrip_head s c r : rstrip s = String c r -> exists s', s = String c s'.
Proof.
  destruct s as [|d s]; simpl; [discriminate|].
  destruct (rstrip s); [destruct (isspace d)|];
    intros E; inversion E; subst; eauto.
Qed.

Lemma strip_head s c r : strip s = String c r -> isspace c = false.
Proof.
  unfold strip. intros E.
  destruct (rstrip_head _ _ _ E) as [s' E'].
  exact (lstrip_head _ _ _ E').
Qed.

Lemma startswith_contains p s : startswith p s = true -> contains p s = true.
Proof. destruct s; simpl; intros ->; reflexivity. Qed.

Lemma words_kubectl rest : words ("kubectl " ++ rest) = "kubectl" :: words rest.
Proof. reflexivity. Qed.

Lemma injection_chars_not_space c :
  In c injection_chars -> isspace c = false.
Proof.
  unfold injection_chars; simpl.
  intros [<-|[<-|[<-|[<-|[<-|[<-|[<-|[]]]]]]]]; reflexivity.
Qed.

Lemma has_char_truthy c s : has_char c s = true -> truthy s = true.
Proof. destruct s; simpl; [discriminate|reflexivity]. Qed.

(** The verdict of the path check is decided by the seven characters in the
    path as given: stripping and the default ["/"] do not change it. *)
Lemma verify_decides path :
  _verify_file_path_safety path =
  if existsb (fun char => has_char char path) injection_chars
  then (false, "Invalid characters in path")
  else (true, "Path is safe for read access").
Proof.
  unfold _verify_file_path_safety.
  assert (E : existsb
                (fun char =>
                   has_char char
                     (if negb (truthy (strip path)) then "/" else strip path))
                injection_chars
              = existsb (fun char => has_char char path) injection_chars).
  { assert (Ext : forall l,
               (forall a, In a l -> In a injection_chars) ->
               existsb
                 (fun char =>
                    has_char char
                      (if negb (truthy (strip path)) then "/" else strip path))
                 l
               = existsb (fun char => has_char char path) l).
    { induction l as [|a l IH]; intros Hl; [reflexivity|].
      simpl. rewrite IH by (intros; apply Hl; now right).
      f_equal.
      assert (Ha : isspace a = false)
        by (apply injection_chars_not_space, Hl; now left).
      rewrite <- (has_char_strip a Ha path).
      destruct (strip path) eqn:S; simpl; [|reflexivity].
      assert (In a injection_chars) as Hin by (apply Hl; now left).
      unfold injection_chars in Hin; simpl in Hin.
      destruct Hin as [<-|[<-|[<-|[<-|[<-|[<-|[<-|[]]]]]]]]; reflexivity. }
    apply Ext; auto. }
  rewrite E. reflexivity.
Qed.

(** ** The path check and the in-pod file operations *)

Section PathSafety.

Variable World : Type.
Variable subprocess_run :
  World -> list string -> Z -> res CompletedProcess * World.
Variable clock : World -> string.
Variable default_kubeconfig : string.

(** C8.  A path that contains one of the characters pipe, ampersand,
    semicolon, backtick, dollar or a parenthesis is refused by the path
    check with the reason "Invalid characters in path"; [read_pod_file] and
    [browse_pod_files] then return [success = False] and leave the system
    as it was: no command is run. *)
Theorem unsafe_path_rejected (self : K8sClient) (s : Sys World)
    (namespace pod_name path : string) (c : ascii) :
  In c injection_chars ->
  has_char c path = true ->
  _verify_file_path_safety path = (false, "Invalid characters in path")
  /\ (exists r, read_pod_file World subprocess_run clock default_kubeconfig
                  self namespace pod_name path s = (Ok r, s)
                /\ fc_success r = false
                /\ fc_error r =
                   Some "File access denied for safety reasons: Invalid characters in path")
  /\ (exists r, browse_pod_files World subprocess_run clock default_kubeconfig
                  self namespace pod_name path s = (Ok r, s)
                /\ fl_success r = false
                /\ fl_error r =
                   Some "Path access denied for safety reasons: Invalid characters in path").
Proof.
  intros Hin Hc.
  assert (V : _verify_file_path_safety path
              = (false, "Invalid characters in path")).
  { rewrite verify_decides.
    replace (existsb (fun char => has_char char path) injection_chars)
      with true; [reflexivity|].
    symmetry. apply existsb_exists. exists c. split; assumption. }
  split; [exact V|].
  unfold read_pod_file, browse_pod_files.
  rewrite V. simpl.
  split; eexists; repeat split; reflexivity.
Qed.

End PathSafety.

Lemma unsafe_path_rejected_witness :
  _verify_file_path_safety "/etc/passwd; rm -rf /"
  = (false, "Invalid characters in path")
  /\ invoked
       (snd (read_pod_file unit always_ok no_clock home_kubeconfig
               default_client "default" "web-0" "/etc/passwd; rm -rf /"
               (start tt))) = []
  /\ invoked
       (snd (browse_pod_files unit always_ok no_clock home_kubeconfig
               default_client "default" "web-0" "/tmp | cat" (start tt))) = [].
Proof.
  pose proof (unsafe_path_rejected unit always_ok no_clock home_kubeconfig
                default_client (start tt) "default" "web-0"
                "/etc/passwd; rm -rf /" ";"%char) as H1.
  pose proof (unsafe_path_rejected unit always_ok no_clock home_kubeconfig
                default_client (start tt) "default" "web-0"
                "/tmp | cat" "|"%char) as H2.
  destruct H1 as (V & (r1 & E1 & _) & _);
    [simpl; tauto | reflexivity |].
  destruct H2 as (_ & _ & (r2 & E2 & _));
    [simpl; tauto | reflexivity |].
  split; [exact V|].
  rewrite E1, E2. split; reflexivity.
Defined.

(** A path without those characters is read: one command is run. *)
Example safe_path_is_read :
  invoked
    (snd (read_pod_file unit always_ok no_clock home_kubeconfig
            default_client "default" "web-0" "/etc/hosts" (start tt)))
  = [["kubectl"; "exec"; "web-0"; "-n"; "default"; "--"; "cat"; "/etc/hosts"]].
Proof. reflexivity. Qed.

(** ** The commands the providers return *)

Lemma commands_of_line_shape line cmd :
  In cmd (commands_of_line line) ->
  exists rest, cmd = "kubectl " ++ rest /\ truthy rest = true.
Proof.
  unfold commands_of_line.
  destruct (contains "kubectl " (strip line)) eqn:C.
  - rewrite orb_true_r. intros H.
    apply in_flat_map in H. destruct H as (part & _ & H).
    destruct (truthy (strip part)) eqn:T; simpl in H; [|contradiction].
    destruct H as [<-|[]].
    exists (strip part). split; [reflexivity | exact T].
  - rewrite orb_false_r.
    destruct (startswith "kubectl " (strip line)) eqn:P; [|contradiction].
    apply startswith_contains in P. congruence.
Qed.

Lemma extract_commands_shape content cmd :
  In cmd (extract_commands content) ->
  exists rest, cmd = "kubectl " ++ rest /\ truthy rest = true.
Proof.
  unfold extract_commands. intros H.
  apply in_flat_map in H. destruct H as (line & _ & H).
  exact (commands_of_line_shape _ _ H).
Qed.

Lemma In_firstn {A : Type} (n : nat) (l : list A) (x : A) :
  In x (firstn n l) -> In x l.
Proof.
  revert l; induction n as [|n IH]; intros [|a l]; simpl; try tauto.
  intros [->|H]; [now left | right; auto].
Qed.

(** Both providers spell out the same method bodies. *)
Lemma local_suggest_commands l h post :
  LocalLLMProvider.suggest_commands l post
  = OpenRouterProvider.suggest_commands h post.
Proof. reflexivity. Qed.

Lemma local_suggest_follow_up_commands l h post :
  LocalLLMProvider.suggest_follow_up_commands l post
  = OpenRouterProvider.suggest_follow_up_commands h post.
Proof. reflexivity. Qed.



(** What the two suggestion methods return, by cases on the request. *)
Lemma suggest_commands_cases h post :
  (exists text, post = Response 200 (Ok (PyText text))
                /\ OpenRouterProvider.suggest_commands h post
                   = Ok (firstn 3 (extract_commands text)))
  \/ OpenRouterProvider.suggest_commands h post = Ok [].
Proof.
  destruct post as [e|status [[text|]|e]];
    unfold OpenRouterProvider.suggest_commands; simpl; auto;
    destruct (status =? 200) eqn:E; simpl; auto.
  apply Z.eqb_eq in E; subst. left; eauto.
Qed.

Lemma suggest_follow_up_commands_cases h post :
  (exists text, post = Response 200 (Ok (PyText text))
                /\ OpenRouterProvider.suggest_follow_up_commands h post
                   = Ok (firstn 2 (extract_commands text)))
  \/ OpenRouterProvider.suggest_follow_up_commands h post = Ok [].
Proof.
  destruct post as [e|status [[text|]|e]];
    unfold OpenRouterProvider.suggest_follow_up_commands; simpl; auto;
    destruct (status =? 200) eqn:E; simpl; auto.
  apply Z.eqb_eq in E; subst. left; eauto.
Qed.

(** C4.  Whatever the request returns, [suggest_commands] returns a list of
    at most 3 commands and [suggest_follow_up_commands] a list of at most 2,
    for the hosted and for the local provider. *)
Theorem suggestion_caps (h : OpenRouterProvider.t) (l : LocalLLMProvider.t)
    (post : http_result) :
  (exists cmds, OpenRouterProvider.suggest_commands h post = Ok cmds
                /\ (List.length cmds <= 3)%nat)
  /\ (exists cmds, OpenRouterProvider.suggest_follow_up_commands h post = Ok cmds
                   /\ (List.length cmds <= 2)%nat)
  /\ (exists cmds, LocalLLMProvider.suggest_commands l post = Ok cmds
                   /\ (List.length cmds <= 3)%nat)
  /\ (exists cmds, LocalLLMProvider.suggest_follow_up_commands l post = Ok cmds
                   /\ (List.length cmds <= 2)%nat).
Proof.
  rewrite (local_suggest_commands l h),
    (local_suggest_follow_up_commands l h).
  assert (S3 : exists cmds,
             OpenRouterProvider.suggest_commands h post = Ok cmds
             /\ (List.length cmds <= 3)%nat).
  { destruct (suggest_commands_cases h post) as [(text & _ & ->)| ->];
      eexists; split; try reflexivity;
      [apply firstn_le_length | simpl; lia]. }
  assert (S2 : exists cmds,
             OpenRouterProvider.suggest_follow_up_commands h post = Ok cmds
             /\ (List.length cmds <= 2)%nat).
  { destruct (suggest_follow_up_commands_cases h post) as [(text & _ & ->)| ->];
      eexists; split; try reflexivity;
      [apply firstn_le_length | simpl; lia]. }
  repeat split; assumption.
Qed.

Example five_proposed_three_returned :
  OpenRouterProvider.suggest_commands hosted
    (Response 200 (Ok (PyText five_commands)))
  = Ok ["kubectl get pods"; "kubectl get nodes"; "kubectl get services"]
  /\ LocalLLMProvider.suggest_follow_up_commands self_hosted
       (Response 200 (Ok (PyText five_commands)))
     = Ok ["kubectl get pods"; "kubectl get nodes"].
Proof. split; reflexivity. Qed.

(** The list marker of a line becomes a command of its own. *)
Example list_marker_becomes_command :
  OpenRouterProvider.suggest_commands hosted
    (Response 200 (Ok (PyText "- kubectl get pods -l app=nginx")))
  = Ok ["kubectl -"; "kubectl get pods -l app=nginx"].
Proof. reflexivity. Qed.

(** ** The command runner *)

(** Splits a goal made of conjunctions and implications into its atoms and
    closes each by computation or by a contradiction among the
    hypotheses. *)
Ltac crush_cases :=
  repeat match goal with
         | |- _ /\ _ => split
         | |- ~ _ => intro
         | |- _ -> _ => intro
         | H : _ /\ _ |- _ => destruct H
         | H : _ \/ _ |- _ => destruct H
         end;
  try reflexivity; try congruence; try contradiction.

Section ExecutorFacts.

Variable World : Type.
Variable subprocess_run :
  World -> list string -> Z -> res CompletedProcess * World.
Variable clock : World -> string.
Variable default_kubeconfig : string.

Abbreviation run :=
  (_run_kubectl_command World subprocess_run clock default_kubeconfig).
Abbreviation full := (_get_kubectl_command default_kubeconfig).

(** The runner always hands the full argument vector to the system once. *)
Lemma run_invokes self command timeout s :
  invoked (snd (run self command timeout s))
  = (invoked s ++ [full self command])%list.
Proof.
  unfold _run_kubectl_command.
  destruct (subprocess_run (world s) (full self command) timeout).
  reflexivity.
Qed.

Lemma run_ok self command timeout s :
  exists r, fst (run self command timeout s) = Ok r.
Proof.
  unfold _run_kubectl_command.
  destruct (subprocess_run (world s) (full self command) timeout)
    as [[result|e] w]; simpl.
  - eauto.
  - unfold run_handlers. destruct (exn_cls e); eauto.
Qed.

(** C2.  For every argument vector, timeout and behaviour of the system,
    [_run_kubectl_command] returns a result dictionary and raises nothing.
    When [subprocess.run] raises, the result has [success = False] and its
    [error] is the text of the handler that caught the exception:
    ["Command timed out after {timeout} seconds"] for a time-out, the
    "kubectl not found" message for a missing binary, and [str(e)] for any
    other exception. *)
Theorem run_kubectl_never_raises (self : K8sClient) (command : list string)
    (timeout : Z) (s : Sys World) :
  exists r,
    fst (run self command timeout s) = Ok r
    /\ forall e,
        fst (subprocess_run (world s) (full self command) timeout) = Raise e ->
        success r = false
        /\ error r =
           Some (match exn_cls e with
                 | TimeoutExpired =>
                     "Command timed out after " ++ str_of_int timeout
                     ++ " seconds"
                 | FileNotFoundError =>
                     "kubectl not found - please install kubectl or ensure it's in PATH"
                 | _ => exn_str e
                 end).
Proof.
  unfold _run_kubectl_command.
  destruct (subprocess_run (world s) (full self command) timeout)
    as [[result|e] w]; simpl.
  - eexists. split; [reflexivity|]. intros e H; discriminate.
  - unfold run_handlers.
    destruct (exn_cls e) eqn:C; eexists; (split; [reflexivity|]);
      intros e' H; injection H as <-; rewrite C; split; reflexivity.
Qed.

(** The order of the tests of [_run_kubectl_command].  When the
    process completes with a non-zero exit code and "not found" is in the
    lowered stderr, the result has [kubectl_available = False] and nothing
    else is looked at; otherwise, with a non-zero exit code and one of the
    four connection phrases in the lowered stderr, it has
    [cluster_accessible = False]; otherwise [success] is [returncode == 0]
    and stdout and stderr are returned as captured.  A binary that cannot
    be started ([FileNotFoundError]) also gives [kubectl_available = False].
    The tool-missing and the unreachable result set different keys, so no
    result carries both flags. *)
Theorem outcome_triage (self : K8sClient) (command : list string)
    (timeout : Z) (s : Sys World) :
  exists r,
    fst (run self command timeout s) = Ok r
    /\ (forall result,
         fst (subprocess_run (world s) (full self command) timeout) = Ok result ->
         let err := lower (cp_stderr result) in
         let tool_missing := contains "not found" err in
         let unreachable :=
           contains "unable to connect" err
           || contains "connection refused" err
           || contains "no configuration" err
           || contains "invalid configuration" err in
         stderr r = cp_stderr result
         /\ returncode r = cp_returncode result
         /\ (cp_returncode result <> 0 -> tool_missing = true ->
             kubectl_available r = Some false
             /\ cluster_accessible r = None
             /\ success r = false)
         /\ (cp_returncode result <> 0 -> tool_missing = false ->
             unreachable = true ->
             cluster_accessible r = Some false
             /\ kubectl_available r = None
             /\ success r = false)
         /\ (cp_returncode result = 0
             \/ (tool_missing = false /\ unreachable = false) ->
             success r = (cp_returncode result =? 0)
             /\ stdout r = cp_stdout result
             /\ stderr r = cp_stderr result
             /\ kubectl_available r = Some true
             /\ cluster_accessible r = Some true))
    /\ (forall e,
         fst (subprocess_run (world s) (full self command) timeout) = Raise e ->
         exn_cls e = FileNotFoundError ->
         kubectl_available r = Some false
         /\ cluster_accessible r = None
         /\ success r = false)
    /\ ~ (kubectl_available r = Some false
          /\ cluster_accessible r = Some false).
Proof.
  unfold _run_kubectl_command.
  destruct (subprocess_run (world s) (full self command) timeout)
    as [[result|e] w]; simpl.
  - eexists. split; [reflexivity|].
    assert (U : existsb
                  (fun phrase => contains phrase (lower (cp_stderr result)))
                  connection_phrases
                = (contains "unable to connect" (lower (cp_stderr result))
                   || contains "connection refused" (lower (cp_stderr result))
                   || contains "no configuration" (lower (cp_stderr result))
                   || contains "invalid configuration"
                        (lower (cp_stderr result)))).
    { unfold connection_phrases. cbn [existsb].
      rewrite orb_false_r, !orb_assoc. reflexivity. }
    unfold triage. rewrite U. clear U.
    split; [|split].
    + intros result' E. injection E as <-.
      destruct (cp_returncode result =? 0) eqn:Z0;
        [apply Z.eqb_eq in Z0 | apply Z.eqb_neq in Z0];
        destruct (contains "not found" (lower (cp_stderr result)));
        destruct (contains "unable to connect" (lower (cp_stderr result))
                  || contains "connection refused" (lower (cp_stderr result))
                  || contains "no configuration" (lower (cp_stderr result))
                  || contains "invalid configuration"
                       (lower (cp_stderr result)));
        simpl; crush_cases.
    + intros e E; discriminate.
    + destruct (cp_returncode result =? 0);
        destruct (contains "not found" (lower (cp_stderr result)));
        destruct (contains "unable to connect" (lower (cp_stderr result))
                  || contains "connection refused" (lower (cp_stderr result))
                  || contains "no configuration" (lower (cp_stderr result))
                  || contains "invalid configuration"
                       (lower (cp_stderr result)));
        simpl; crush_cases.
  - unfold run_handlers.
    destruct (exn_cls e) eqn:C; eexists; (split; [reflexivity|]);
      (split; [intros result E; discriminate|]);
      (split; [intros e' E; injection E as <-; rewrite C|]);
      simpl; crush_cases.
Qed.

End ExecutorFacts.

Lemma run_kubectl_never_raises_witness :
  exists r,
    fst (_run_kubectl_command unit (always_raises timed_out) no_clock
           home_kubeconfig default_client ["get"; "pods"] 30 (start tt)) = Ok r
    /\ success r = false
    /\ error r = Some "Command timed out after 30 seconds".
Proof.
  destruct (run_kubectl_never_raises unit (always_raises timed_out) no_clock
              home_kubeconfig default_client ["get"; "pods"] 30 (start tt))
    as (r & E & H).
  exists r. split; [exact E|].
  exact (H timed_out eq_refl).
Defined.

Example missing_binary_result :
  fst (_run_kubectl_command unit
         (always_raises
            (Exn FileNotFoundError
               "[Errno 2] No such file or directory: 'kubectl'"))
         no_clock home_kubeconfig default_client ["get"; "pods"] 30 (start tt))
  = Ok {| success := false;
          error := Some "kubectl not found - please install kubectl or ensure it's in PATH";
          stdout := "";
          stderr := "kubectl command not found";
          returncode := -1;
          command := "kubectl";
          timestamp := "2025-01-01T00:00:00";
          kubectl_available := Some false;
          cluster_accessible := None |}.
Proof. reflexivity. Qed.

Example unexpected_fault_result :
  fst (_run_kubectl_command unit
         (always_raises (Exn OtherException "embedded null byte"))
         no_clock home_kubeconfig
         {| kubeconfig_path := "/tmp/kc" |} ["get"; "pods"] 30 (start tt))
  = Ok {| success := false;
          error := Some "embedded null byte";
          stdout := "";
          stderr := "embedded null byte";
          returncode := -1;
          command := "kubectl --kubeconfig /tmp/kc get pods";
          timestamp := "2025-01-01T00:00:00";
          kubectl_available := None;
          cluster_accessible := None |}.
Proof. reflexivity. Qed.

Lemma outcome_triage_witness :
  exists r,
    fst (_run_kubectl_command unit (always_completes refused) no_clock
           home_kubeconfig default_client ["get"; "pods"] 30 (start tt)) = Ok r
    /\ cluster_accessible r = Some false
    /\ kubectl_available r = None
    /\ success r = false.
Proof.
  destruct (outcome_triage unit (always_completes refused) no_clock
              home_kubeconfig default_client ["get"; "pods"] 30 (start tt))
    as (r & E & H & _).
  exists r. split; [exact E|].
  destruct (H refused eq_refl) as (_ & _ & _ & H2 & _).
  apply H2; [discriminate | reflexivity | reflexivity].
Defined.

(** C5 fails on the code.  The pod [db-0] does not exist: [kubectl] ran,
    reached the cluster and says so in stderr, which does not say that the
    binary is missing.  The first test of the runner ("Check if kubectl
    itself is not available") looks for "not found" anywhere in stderr, so
    the result reports a missing tool, with the error text and the flag of
    the handler for a binary that cannot be started, and what the process
    printed is dropped. *)
Lemma resource_not_found_reported_as_missing_tool :
  exists r missing,
    fst (_run_kubectl_command unit (always_completes one_pod_missing)
           no_clock home_kubeconfig default_client
           ["get"; "pods"; "web-0"; "db-0"] 30 (start tt)) = Ok r
    /\ fst (_run_kubectl_command unit
              (always_raises
                 (Exn FileNotFoundError
                    "[Errno 2] No such file or directory: 'kubectl'"))
              no_clock home_kubeconfig default_client
              ["get"; "pods"; "web-0"; "db-0"] 30 (start tt)) = Ok missing
    /\ kubectl_available r = Some false
    /\ kubectl_available r = kubectl_available missing
    /\ error r = error missing
    /\ error r
       = Some "kubectl not found - please install kubectl or ensure it's in PATH"
    /\ stdout r = ""
    /\ cp_stdout one_pod_missing <> ""
    /\ existsb
         (fun phrase => contains phrase (lower (cp_stderr one_pod_missing)))
         connection_phrases = false.
Proof.
  do 2 eexists. split; [reflexivity|]. split; [reflexivity|].
  repeat split. discriminate.
Qed.

(** The first test wins when both patterns are in stderr. *)
Example tool_missing_checked_first :
  let p := {| cp_returncode := 127;
              cp_stdout := "";
              cp_stderr := "connection refused; sh: kubectl: Not Found" |} in
  exists r,
    fst (_run_kubectl_command unit (always_completes p) no_clock
           home_kubeconfig default_client ["get"; "pods"] 30 (start tt)) = Ok r
    /\ kubectl_available r = Some false
    /\ cluster_accessible r = None.
Proof. eexists. repeat split. Qed.

(** A zero exit code is a success whatever stderr says. *)
Example zero_exit_is_success :
  let p := {| cp_returncode := 0;
              cp_stdout := "NAME READY";
              cp_stderr := "warning: resource not found" |} in
  exists r,
    fst (_run_kubectl_command unit (always_completes p) no_clock
           home_kubeconfig default_client ["get"; "pods"] 30 (start tt)) = Ok r
    /\ success r = true
    /\ stdout r = "NAME READY"
    /\ stderr r = "warning: resource not found".
Proof. eexists. repeat split. Qed.

(** ** Dictionaries *)

Lemma get_set_same {V : Type} k (v : V) d :
  PyDict.get k (PyDict.set k v d) = Some v.
Proof.
  induction d as [|[k' v'] d IH]; simpl.
  - now rewrite String.eqb_refl.
  - destruct (String.eqb k k') eqn:E; simpl; rewrite E; auto.
Qed.

Lemma get_set_other {V : Type} k k' (v : V) d :
  k <> k' -> PyDict.get k' (PyDict.set k v d) = PyDict.get k' d.
Proof.
  intros N. induction d as [|[k0 v0] d IH]; simpl.
  - destruct (String.eqb k' k) eqn:E; [|reflexivity].
    apply String.eqb_eq in E; congruence.
  - destruct (String.eqb k k0) eqn:E; simpl.
    + apply String.eqb_eq in E; subst k0.
      destruct (String.eqb k' k) eqn:E'; [|reflexivity].
      apply String.eqb_eq in E'; congruence.
    + rewrite IH. reflexivity.
Qed.

Lemma keys_set {V : Type} k (v : V) d :
  PyDict.keys (PyDict.set k v d)
  = if existsb (String.eqb k) (PyDict.keys d)
    then PyDict.keys d else (PyDict.keys d ++ [k])%list.
Proof.
  unfold PyDict.keys.
  induction d as [|[k' v'] d IH]; simpl; [reflexivity|].
  destruct (String.eqb k k') eqn:E; simpl; [reflexivity|].
  rewrite IH.
  destruct (existsb (String.eqb k) (map fst d)); reflexivity.
Qed.

Lemma keys_set_keeps {V : Type} k k' (v : V) d :
  In k' (PyDict.keys d) -> In k' (PyDict.keys (PyDict.set k v d)).
Proof.
  rewrite keys_set.
  destruct (existsb (String.eqb k) (PyDict.keys d)); [auto|].
  intros H. apply in_or_app. now left.
Qed.

Lemma keys_set_adds {V : Type} k (v : V) d :
  In k (PyDict.keys (PyDict.set k v d)).
Proof.
  rewrite keys_set.
  destruct (existsb (String.eqb k) (PyDict.keys d)) eqn:E.
  - apply existsb_exists in E. destruct E as (x & Hx & E).
    apply String.eqb_eq in E. now subst.
  - apply in_or_app. right. now left.
Qed.

(** ** The orchestrator *)

Section OrchestratorFacts.

Variable World : Type.
Variable subprocess_run :
  World -> list string -> Z -> res CompletedProcess * World.
Variable clock : World -> string.
Variable default_kubeconfig : string.

Abbreviation run_all :=
  (run_commands World subprocess_run clock default_kubeconfig).
Abbreviation argv_of :=
  (fun self cmd => _get_kubectl_command default_kubeconfig self (tl (words cmd))).

(** What a loop over [commands] does: it never raises, runs every command
    in order without its first word, appends every text to
    [executed_commands], keeps every key of [command_outputs] and leaves
    the entries of all other texts as they were. *)
Lemma run_commands_spec self commands :
  forall acc s,
  exists outputs s',
    run_all self commands acc s = (Ok (outputs, (snd acc ++ commands)%list), s')
    /\ invoked s' = (invoked s ++ map (argv_of self) commands)%list
    /\ (forall k, ~ In k commands ->
                  PyDict.get k outputs = PyDict.get k (fst acc))
    /\ (forall k, In k (PyDict.keys (fst acc)) -> In k (PyDict.keys outputs))
    /\ (forall k, In k commands -> In k (PyDict.keys outputs)).
Proof.
  induction commands as [|cmd rest IH]; intros [outputs0 executed0] s;
    cbn [run_commands fst snd].
  - exists outputs0, s. unfold ret. rewrite !app_nil_r.
    repeat split; auto. intros k [].
  - unfold mbind.
    destruct (run_ok World subprocess_run clock default_kubeconfig
                self (tl (words cmd)) 30 s) as (output & Eo).
    pose proof (run_invokes World subprocess_run clock default_kubeconfig
                  self (tl (words cmd)) 30 s) as Ei.
    destruct (_run_kubectl_command World subprocess_run clock
                default_kubeconfig self (tl (words cmd)) 30 s)
      as [r s1]; simpl in Eo, Ei; subst r.
    destruct (IH (PyDict.set cmd output outputs0, (executed0 ++ [cmd])%list) s1)
      as (outputs & s' & E & I & Hother & Hkeys & Hnew).
    cbn [fst snd] in *.
    exists outputs, s'. rewrite E, I, Ei.
    rewrite <- !app_assoc. cbn [map app].
    repeat split.
    + intros k Hk. rewrite Hother by (intros H; apply Hk; now right).
      apply get_set_other. intros ->. apply Hk. now left.
    + intros k Hk. apply Hkeys, keys_set_keeps, Hk.
    + intros k [<-|Hk]; [apply Hkeys, keys_set_adds | apply Hnew, Hk].
Qed.

(** A loop over [before ++ after] is the loop over [before] followed by
    the loop over [after]. *)
Lemma run_commands_app self before after :
  forall acc s,
    run_all self (before ++ after) acc s
    = match run_all self before acc s with
      | (Ok acc1, s1) => run_all self after acc1 s1
      | (Raise e, s1) => (Raise e, s1)
      end.
Proof.
  induction before as [|cmd rest IH]; intros acc s; [reflexivity|].
  cbn [app run_commands]. unfold mbind.
  destruct (_run_kubectl_command World subprocess_run clock
              default_kubeconfig self (tl (words cmd)) 30 s) as [[r|e] s1];
    [apply IH | reflexivity].
Qed.

(** The entry of a command after a loop is the result of its last run. *)
Lemma run_commands_stores self before cmd after acc s :
  ~ In cmd after ->
  exists outputs s' r,
    run_all self (before ++ cmd :: after) acc s
    = (Ok (outputs, (snd acc ++ before ++ cmd :: after)%list), s')
    /\ fst (_run_kubectl_command World subprocess_run clock
              default_kubeconfig self (tl (words cmd)) 30
              (snd (run_all self before acc s))) = Ok r
    /\ PyDict.get cmd outputs = Some r.
Proof.
  intros Hlast. rewrite run_commands_app.
  destruct (run_commands_spec self before acc s)
    as (outputs1 & s1 & E1 & _).
  rewrite E1. cbn [snd run_commands]. unfold mbind.
  destruct (run_ok World subprocess_run clock default_kubeconfig
              self (tl (words cmd)) 30 s1) as (r & Er).
  destruct (_run_kubectl_command World subprocess_run clock
              default_kubeconfig self (tl (words cmd)) 30 s1)
    as [x s2]; cbn [fst] in Er; subst x.
  cbn [fst snd].
  destruct (run_commands_spec self after
              (PyDict.set cmd r outputs1,
               ((snd acc ++ before) ++ [cmd])%list) s2)
    as (outputs & s' & E & _ & Hother & _).
  cbn [fst snd] in E, Hother.
  exists outputs, s', r. rewrite E.
  split; [|split; [reflexivity|]].
  - rewrite <- !app_assoc. reflexivity.
  - rewrite (Hother cmd Hlast). apply get_set_same.
Qed.

Lemma limit_follow_ups_firstn l : limit_follow_ups l = firstn 2 l.
Proof.
  unfold limit_follow_ups. destruct l as [|a [|b [|c l]]]; reflexivity.
Qed.

Lemma limit_follow_ups_length l : (List.length (limit_follow_ups l) <= 2)%nat.
Proof.
  unfold limit_follow_ups. destruct l as [|a l]; [simpl; lia|].
  destruct (2 <? List.length (a :: l))%nat eqn:E.
  - unfold slice_to. simpl (2 <? 0). cbv iota.
    etransitivity; [apply firstn_le_length|]. simpl. lia.
  - apply Nat.ltb_ge in E. exact E.
Qed.

Lemma limit_commands_prefix l b : exists n, limit_commands l b = firstn n l.
Proof.
  unfold limit_commands. destruct l as [|a l].
  - exists 0%nat. reflexivity.
  - destruct (Z.of_nat (List.length (a :: l)) >? b).
    + unfold slice_to. destruct (b <? 0); eauto.
    + exists (List.length (a :: l)). symmetry. apply firstn_all.
Qed.

Lemma limit_commands_length l b :
  0 <= b -> Z.of_nat (List.length (limit_commands l b)) <= b.
Proof.
  intros Hb. unfold limit_commands. destruct l as [|a l]; [simpl; lia|].
  destruct (Z.of_nat (List.length (a :: l)) >? b) eqn:E.
  - unfold slice_to.
    replace (b <? 0) with false by (symmetry; apply Z.ltb_ge; lia).
    pose proof (firstn_le_length (Z.to_nat b) (a :: l)). lia.
  - rewrite Z.gtb_ltb in E. apply Z.ltb_ge in E. exact E.
Qed.

Lemma effective_max_commands_le classification user_prefs :
  effective_max_commands classification user_prefs
  <= suggested_max_commands classification.
Proof.
  unfold effective_max_commands.
  destruct user_prefs as [[[p|]]|]; simpl; try lia.
  destruct (negb (p =? 0)); lia.
Qed.

Section Provider.

Context {P : Type} `{LLMProvider P}.
Variable llm_provider : P.



(** C3, as the code has it.  The budget is [suggested_max_commands], or
    the smaller of it and the user's preference when that preference is
    present and not 0; it never exceeds [suggested_max_commands]; the
    commands kept are a prefix of the suggested ones; when the budget is
    not negative their number is at most the budget; and the primary loop
    runs exactly the kept commands, in order. *)
Theorem budget_bounds_primary_commands (self : K8sClient)
    (classification : Classification) (user_prefs : option UserPrefs)
    (suggested : list string) (s : Sys World) :
  let max_commands := effective_max_commands classification user_prefs in
  let kept := limit_commands suggested max_commands in
  (forall preference,
      user_prefs = Some {| max_commands_preference := Some preference |} ->
      preference <> 0 ->
      max_commands = Z.min (suggested_max_commands classification) preference)
  /\ (user_prefs = None
      \/ user_prefs = Some {| max_commands_preference := None |}
      \/ user_prefs = Some {| max_commands_preference := Some 0 |} ->
      max_commands = suggested_max_commands classification)
  /\ max_commands <= suggested_max_commands classification
  /\ (exists n, kept = firstn n suggested)
  /\ (0 <= max_commands -> Z.of_nat (List.length kept) <= max_commands)
  /\ exists outputs s',
      run_all self kept ([], []) s = (Ok (outputs, kept), s')
      /\ invoked s' = (invoked s ++ map (argv_of self) kept)%list.
Proof.
  intros max_commands kept. repeat split.
  - intros p -> Hp. unfold max_commands, effective_max_commands. simpl.
    apply Z.eqb_neq in Hp. rewrite Hp. reflexivity.
  - intros [->|[->| ->]]; reflexivity.
  - apply effective_max_commands_le.
  - apply limit_commands_prefix.
  - apply limit_commands_length.
  - destruct (run_commands_spec self kept ([], []) s)
      as (outputs & s' & E & I & _).
    exists outputs, s'. split; assumption.
Qed.

(** C7, as the code has it.  The follow-up commands are the first two
    suggestions of the provider, and none when the step is skipped.  When
    the follow-up phase completes, every entry of [command_outputs] whose
    command text is not one of the follow-up commands is unchanged and no
    key is removed; the entry of a follow-up command, also of one whose
    text a primary command had, is the result of the last run of that
    command in the follow-up phase; and [executed_commands] keeps the
    earlier commands followed by the follow-up commands, duplicates
    included. *)
Theorem follow_ups_keep_other_entries (self : K8sClient)
    (classification : Classification) (post_follow_up : http_result)
    (acc : Collected) (s s' : Sys World)
    (outputs : PyDict.t CommandResult) (executed : list string) :
  follow_up_phase World subprocess_run clock default_kubeconfig
    llm_provider self classification post_follow_up acc s
  = (Ok (outputs, executed), s') ->
  let step_taken :=
    follow_up_allowed classification && PyDict.truthy (fst acc)
    && investigates (question_type classification) in
  exists follow_ups,
    (List.length follow_ups <= 2)%nat
    /\ (step_taken = false -> follow_ups = [])
    /\ (step_taken = true ->
        exists suggested,
          suggest_follow_up_commands llm_provider post_follow_up
          = Ok suggested
          /\ follow_ups = firstn 2 suggested)
    /\ executed = (snd acc ++ follow_ups)%list
    /\ (forall cmd, ~ In cmd follow_ups ->
                    PyDict.get cmd outputs = PyDict.get cmd (fst acc))
    /\ (forall cmd, In cmd (PyDict.keys (fst acc)) ->
                    In cmd (PyDict.keys outputs))
    /\ (forall before cmd after,
           follow_ups = (before ++ cmd :: after)%list -> ~ In cmd after ->
           exists r,
             fst (_run_kubectl_command World subprocess_run clock
                    default_kubeconfig self (tl (words cmd)) 30
                    (snd (run_all self before acc s))) = Ok r
             /\ PyDict.get cmd outputs = Some r).
Proof.
  intros E step_taken. subst step_taken. revert E. unfold follow_up_phase.
  destruct (follow_up_allowed classification && PyDict.truthy (fst acc)
            && investigates (question_type classification)).
  - unfold mbind, lift.
    destruct (suggest_follow_up_commands llm_provider post_follow_up)
      as [fl|e]; [|discriminate].
    rewrite limit_follow_ups_firstn. intros E.
    destruct (run_commands_spec self (firstn 2 fl) acc s)
      as (outputs' & s'' & E' & _ & Hother & Hkeys & _).
    rewrite E in E'. injection E' as <- -> <-.
    exists (firstn 2 fl).
    split; [rewrite <- limit_follow_ups_firstn; apply limit_follow_ups_length|].
    split; [discriminate|].
    split; [intros _; exists fl; split; reflexivity|].
    split; [reflexivity|]. split; [exact Hother|]. split; [exact Hkeys|].
    intros before cmd after Hsplit Hlast.
    destruct (run_commands_stores self before cmd after acc s Hlast)
      as (outputs2 & s2 & r & E2 & Er & G).
    rewrite <- Hsplit, E in E2. injection E2 as <- _.
    exists r. split; assumption.
  - unfold ret. intros E. injection E as -> <-.
    exists []. split; [simpl; lia|]. split; [reflexivity|].
    split; [discriminate|].
    split; [now rewrite app_nil_r|]. split; [reflexivity|].
    split; [auto|].
    intros before cmd after Hsplit. destruct before; discriminate.
Qed.


End Provider.

End OrchestratorFacts.

(** ** The suggested commands as the orchestrator runs them *)

(** C10.  Every command in a list returned by [suggest_commands] or
    [suggest_follow_up_commands], of either provider, begins with
    ["kubectl "]: it is ["kubectl " ++ rest], and its first white-space
    separated word is ["kubectl"].  The loop of the orchestrator, which runs
    each command without its first word, therefore hands to the command
    runner exactly the words of [rest], of every command in order: it
    removes the tool name and no argument. *)
Theorem suggested_commands_start_with_kubectl
    (h : OpenRouterProvider.t) (l : LocalLLMProvider.t)
    (post : http_result) (cmds : list string) :
  OpenRouterProvider.suggest_commands h post = Ok cmds
  \/ OpenRouterProvider.suggest_follow_up_commands h post = Ok cmds
  \/ LocalLLMProvider.suggest_commands l post = Ok cmds
  \/ LocalLLMProvider.suggest_follow_up_commands l post = Ok cmds ->
  (forall cmd, In cmd cmds ->
      startswith "kubectl " cmd = true
      /\ exists rest,
           cmd = "kubectl " ++ rest
           /\ words cmd = "kubectl" :: words rest
           /\ tl (words cmd) = words rest)
  /\ exists rests,
      cmds = map (fun rest => "kubectl " ++ rest) rests
      /\ forall (World : Type)
           (subprocess_run :
              World -> list string -> Z -> res CompletedProcess * World)
           (clock : World -> string) (default_kubeconfig : string)
           (self : K8sClient) (acc : Collected) (s : Sys World),
          exists outputs s',
            run_commands World subprocess_run clock default_kubeconfig
              self cmds acc s
            = (Ok (outputs, (snd acc ++ cmds)%list), s')
            /\ invoked s'
               = (invoked s
                  ++ map (fun rest =>
                            _get_kubectl_command default_kubeconfig self
                              (words rest))
                       rests)%list.
Proof.
  rewrite (local_suggest_commands l h),
    (local_suggest_follow_up_commands l h).
  intros Hret.
  assert (Hex : exists n text, cmds = firstn n (extract_commands text)).
  { destruct Hret as [H|[H|[H|H]]].
    1,3: destruct (suggest_commands_cases h post) as [(text & _ & E)|E];
      rewrite E in H; injection H as <-;
      [exists 3%nat, text; reflexivity | exists 0%nat, ""; reflexivity].
    all: destruct (suggest_follow_up_commands_cases h post)
        as [(text & _ & E)|E];
      rewrite E in H; injection H as <-;
      [exists 2%nat, text; reflexivity | exists 0%nat, ""; reflexivity]. }
  destruct Hex as (n & text & ->).
  assert (Shape : forall cmd, In cmd (firstn n (extract_commands text)) ->
                    exists rest, cmd = "kubectl " ++ rest).
  { intros cmd Hin. apply In_firstn, extract_commands_shape in Hin.
    destruct Hin as (rest & -> & _). eauto. }
  split.
  - intros cmd Hin. destruct (Shape cmd Hin) as (rest & ->).
    split; [reflexivity|]. exists rest. repeat split; reflexivity.
  - revert Shape. generalize (firstn n (extract_commands text)).
    intros cs Shape.
    assert (R : exists rests, cs = map (fun rest => "kubectl " ++ rest) rests).
    { induction cs as [|c cs IH].
      - exists []. reflexivity.
      - destruct (Shape c (or_introl eq_refl)) as (rest & ->).
        destruct IH as (rests & ->).
        + intros cmd Hin. apply Shape. now right.
        + exists (rest :: rests). reflexivity. }
    destruct R as (rests & ->). exists rests. split; [reflexivity|].
    intros World subprocess_run clock default_kubeconfig self acc s.
    destruct (run_commands_spec World subprocess_run clock default_kubeconfig
                self (map (fun rest => "kubectl " ++ rest) rests) acc s)
      as (outputs & s' & E & I & _).
    exists outputs, s'. split; [exact E|].
    rewrite I, map_map. reflexivity.
Qed.


(** ** Failures of the LLM request *)

Lemma hosted_suggest_total h post :
  exists c, OpenRouterProvider.suggest_commands h post = Ok c.
Proof.
  destruct (suggest_commands_cases h post) as [(text & _ & ->)| ->]; eauto.
Qed.

Lemma hosted_follow_up_total h post :
  exists c, OpenRouterProvider.suggest_follow_up_commands h post = Ok c.
Proof.
  destruct (suggest_follow_up_commands_cases h post) as [(text & _ & ->)| ->];
    eauto.
Qed.

Lemma hosted_analyze_total h post :
  exists v, OpenRouterProvider.analyze_command_outputs h post = Ok v.
Proof.
  destruct post as [e|status [v|e]];
    unfold OpenRouterProvider.analyze_command_outputs; simpl;
    try destruct (status =? 200); simpl; eauto.
Qed.




(** ** The orchestrator on concrete turns *)



(** The answer "- kubectl get pods -l app=nginx" on the counting system:
    both commands it gives are run without the word "kubectl". *)
Lemma suggested_commands_start_with_kubectl_witness :
  (startswith "kubectl " "kubectl get pods -l app=nginx" = true
   /\ tl (words "kubectl get pods -l app=nginx")
      = ["get"; "pods"; "-l"; "app=nginx"])
  /\ invoked
       (snd (run_commands nat counting no_clock home_kubeconfig
               default_client
               ["kubectl -"; "kubectl get pods -l app=nginx"] ([], [])
               (start 0%nat)))
     = [["kubectl"; "-"]; ["kubectl"; "get"; "pods"; "-l"; "app=nginx"]].
Proof.
  destruct (suggested_commands_start_with_kubectl hosted self_hosted
              (Response 200 (Ok (PyText "- kubectl get pods -l app=nginx")))
              ["kubectl -"; "kubectl get pods -l app=nginx"]
              (or_introl eq_refl)) as (Hcmd & rests & Hmap & Hrun).
  split.
  - destruct (Hcmd "kubectl get pods -l app=nginx") as (Hs & rest & E & _ & Ht).
    + right. left. reflexivity.
    + split; [exact Hs|]. rewrite Ht. injection E as <-. reflexivity.
  - destruct (Hrun nat counting no_clock home_kubeconfig default_client
                ([], []) (start 0%nat)) as (outputs & s' & E & I).
    rewrite E. cbn [snd]. rewrite I.
    destruct rests as [|r1 [|r2 [|r3 rests]]]; try discriminate.
    injection Hmap as <- <-. reflexivity.
Defined.

(** C3 fails on the code: with the preference 0 present the claimed budget
    is [min(3, 0) = 0], yet the handler keeps the budget 3 and runs three
    commands. *)
Lemma zero_preference_is_ignored :
  let prefs := Some {| max_commands_preference := Some 0 |} in
  spec_effective_budget lookup prefs = 0
  /\ effective_max_commands lookup prefs = 3
  /\ exists resp s',
      chat_pipeline unit always_ok no_clock home_kubeconfig hosted
        default_client lookup prefs
        (Response 200 (Ok (PyText five_commands)))
        unreachable_llm answered (start tt) = (Ok resp, s')
      /\ commands_executed resp
         = ["kubectl get pods"; "kubectl get nodes"; "kubectl get services"]
      /\ List.length (invoked s') = 3%nat.
Proof.
  split; [reflexivity|]. split; [reflexivity|].
  do 2 eexists. split; [cbv; reflexivity|]. split; reflexivity.
Qed.

(** A negative preference gives a negative budget, and [l[:-1]] drops only
    the last command. *)
Example negative_preference :
  let prefs := Some {| max_commands_preference := Some (-1) |} in
  effective_max_commands lookup prefs = -1
  /\ limit_commands
       ["kubectl get pods"; "kubectl get nodes"; "kubectl get services"] (-1)
     = ["kubectl get pods"; "kubectl get nodes"].
Proof. split; reflexivity. Qed.

(** The scenario of the specification: two suggestions, budget 1. *)
Example budget_one_runs_first_only :
  let prefs := Some {| max_commands_preference := Some 1 |} in
  exists resp s',
    chat_pipeline unit always_ok no_clock home_kubeconfig hosted
      default_client lookup prefs
      (Response 200
         (Ok (PyText ("kubectl get pods -l app=nginx" ++ nl
                      ++ "kubectl describe pod nginx-1"))))
      unreachable_llm answered (start tt) = (Ok resp, s')
    /\ commands_executed resp = ["kubectl get pods -l app=nginx"]
    /\ invoked s' = [["kubectl"; "get"; "pods"; "-l"; "app=nginx"]].
Proof. do 2 eexists. split; [cbv; reflexivity|]. split; reflexivity. Qed.

Lemma budget_bounds_primary_commands_witness :
  effective_max_commands lookup
    (Some {| max_commands_preference := Some 2 |}) = 2
  /\ Z.of_nat
       (List.length
          (limit_commands
             ["kubectl get pods"; "kubectl get nodes"; "kubectl get services"]
             2)) <= 2.
Proof.
  destruct (budget_bounds_primary_commands unit always_ok no_clock
              home_kubeconfig default_client lookup
              (Some {| max_commands_preference := Some 2 |})
              ["kubectl get pods"; "kubectl get nodes"; "kubectl get services"]
              (start tt))
    as (Hmin & _ & _ & _ & Hlen & _).
  split.
  - exact (Hmin 2 eq_refl ltac:(discriminate)).
  - apply Hlen. rewrite (Hmin 2 eq_refl ltac:(discriminate)). discriminate.
Defined.

(** C7 fails on the code: the follow-up command repeats the text of the
    primary command, and the entry recorded by the primary phase (output
    "0") is replaced by the follow-up result (output "1"). *)
Lemma follow_up_replaces_primary_entry :
  exists before after s1 s2 r1 r2,
    run_commands nat counting no_clock home_kubeconfig default_client
      ["kubectl get pods"] ([], []) (start 0%nat) = (Ok before, s1)
    /\ follow_up_phase nat counting no_clock home_kubeconfig hosted
         default_client deep
         (Response 200 (Ok (PyText "kubectl get pods"))) before s1
       = (Ok after, s2)
    /\ PyDict.get "kubectl get pods" (fst before) = Some r1
    /\ PyDict.get "kubectl get pods" (fst after) = Some r2
    /\ stdout r1 = "0"
    /\ stdout r2 = "1"
    /\ r1 <> r2
    /\ snd after = ["kubectl get pods"; "kubectl get pods"].
Proof.
  do 6 eexists.
  split; [cbv; reflexivity|].
  split; [cbv; reflexivity|].
  split; [cbv; reflexivity|].
  split; [cbv; reflexivity|].
  split; [reflexivity|].
  split; [reflexivity|].
  split; [discriminate | reflexivity].
Qed.

Lemma follow_ups_keep_other_entries_witness :
  exists outputs r,
    fst (follow_up_phase nat counting no_clock home_kubeconfig hosted
           default_client deep
           (Response 200 (Ok (PyText "kubectl get events")))
           primary_collected (start 1%nat))
    = Ok (outputs, ["kubectl get pods"; "kubectl get events"])
    /\ PyDict.get "kubectl get pods" outputs
       = PyDict.get "kubectl get pods" (fst primary_collected)
    /\ PyDict.get "kubectl get events" outputs = Some r
    /\ stdout r = "1".
Proof.
  edestruct (follow_ups_keep_other_entries nat counting no_clock
               home_kubeconfig hosted default_client deep
               (Response 200 (Ok (PyText "kubectl get events")))
               primary_collected (start 1%nat))
    as (fs & _ & _ & Hs & E & Hother & _ & Hnew); [cbv; reflexivity|].
  destruct (Hs eq_refl) as (suggested & Es & ->).
  injection Es as <-.
  destruct (Hnew [] "kubectl get events" [] eq_refl (fun F => F))
    as (r & Er & G).
  do 2 eexists. split; [reflexivity|].
  split; [|split; [exact G|]].
  - apply (Hother "kubectl get pods"). simpl. intros [H|[]]. discriminate.
  - injection Er as <-. reflexivity.
Defined.

(** * Further properties *)

(** ** The command runner and the operations built on it *)

(** Closes the atoms of a statement about one result record. *)
Ltac settle_result :=
  repeat match goal with
         | H : exists _, _ |- _ => destruct H
         | H : _ /\ _ |- _ => destruct H
         | H : Ok _ = Ok _ |- _ => injection H as <-
         end;
  try reflexivity; try congruence; try discriminate;
  try match goal with
      | H : forall _, Ok ?p <> Ok _ |- _ => exfalso; exact (H p eq_refl)
      end.

Section ClientFacts.

Variable World : Type.
Variable subprocess_run :
  World -> list string -> Z -> res CompletedProcess * World.
Variable clock : World -> string.
Variable default_kubeconfig : string.

Abbreviation run' :=
  (_run_kubectl_command World subprocess_run clock default_kubeconfig).
Abbreviation full' := (_get_kubectl_command default_kubeconfig).
Abbreviation exactly := (@runs_exactly World _ default_kubeconfig).

(** X1.  A result reports success exactly when the process completed with exit
    code 0, which is also exactly when its [returncode] is 0; a failure
    without a process result has the return code -1.  The key ['error'] is
    absent exactly when both availability flags are [True]: a command that
    merely failed carries no ['error']. *)
Theorem run_result_invariant (self : K8sClient) (command : list string)
    (timeout : Z) (s : Sys World) :
  exists r,
    fst (run' self command timeout s) = Ok r
    /\ (success r = true <->
        exists p, fst (subprocess_run (world s) (full' self command) timeout)
                  = Ok p /\ cp_returncode p = 0)
    /\ (success r = true <-> returncode r = 0)
    /\ ((forall p, fst (subprocess_run (world s) (full' self command) timeout)
                   <> Ok p) -> returncode r = -1)
    /\ (error r = None <->
        kubectl_available r = Some true /\ cluster_accessible r = Some true)
    /\ (success r = true -> error r = None)
    /\ (forall p, fst (subprocess_run (world s) (full' self command) timeout)
                  = Ok p ->
                  stderr r = cp_stderr p
                  /\ (error r = None -> stdout r = cp_stdout p)).
Proof.
  unfold _run_kubectl_command.
  destruct (subprocess_run (world s) (full' self command) timeout)
    as [[p|e] w]; simpl.
  - eexists. split; [reflexivity|].
    unfold triage.
    destruct (existsb
                (fun phrase => contains phrase (lower (cp_stderr p)))
                connection_phrases);
      destruct (contains "not found" (lower (cp_stderr p)));
      (destruct (cp_returncode p =? 0) eqn:Z0;
       [apply Z.eqb_eq in Z0 | apply Z.eqb_neq in Z0]); simpl;
      repeat split; intros; settle_result; eauto.
  - unfold run_handlers.
    destruct (exn_cls e); eexists; (split; [reflexivity|]); simpl;
      repeat split; intros; settle_result.
Qed.

Lemma exactly_ret {A : Type} self (a : A) : exactly self (ret World a) [].
Proof.
  intros s. exists a, s. split; [reflexivity|].
  simpl. now rewrite app_nil_r.
Qed.

Lemma exactly_bind {A B : Type} self (m : M World A) (k : A -> M World B)
    c1 c2 :
  exactly self m c1 -> (forall a, exactly self (k a) c2) ->
  exactly self (mbind World m k) (c1 ++ c2)%list.
Proof.
  intros Hm Hk s. unfold mbind.
  destruct (Hm s) as (a & s1 & E1 & I1). rewrite E1.
  destruct (Hk a s1) as (b & s2 & E2 & I2).
  exists b, s2. split; [exact E2|].
  rewrite I2, I1, map_app, app_assoc. reflexivity.
Qed.

Lemma exactly_run self command timeout :
  exactly self (run' self command timeout) [command].
Proof.
  intros s.
  destruct (run_ok World subprocess_run clock default_kubeconfig
              self command timeout s) as (r & E).
  pose proof (run_invokes World subprocess_run clock default_kubeconfig
                self command timeout s) as I.
  destruct (run' self command timeout s) as [x s']; simpl in *; subst x.
  exists r, s'. split; [reflexivity | exact I].
Qed.

Lemma exactly_now self : exactly self (now World clock) [].
Proof.
  intros s. exists (clock (world s)), s. split; [reflexivity|].
  simpl. now rewrite app_nil_r.
Qed.

Lemma exactly_get_pod_logs self namespace pod_name tail_lines :
  exactly self
    (get_pod_logs World subprocess_run clock default_kubeconfig
       self namespace pod_name tail_lines)
    [["logs"; pod_name; "-n"; namespace; "--tail"; str_of_int tail_lines]].
Proof.
  intros s. unfold get_pod_logs.
  destruct (exactly_run self
              ["logs"; pod_name; "-n"; namespace; "--tail";
               str_of_int tail_lines] 30 s) as (r & s' & E & I).
  rewrite E. simpl. eexists _, s'. split; [reflexivity | exact I].
Qed.

Abbreviation inspecting := (@runs_inspections World _ default_kubeconfig).

(** One call of the runner: its result, the system after it, and how the
    result reflects the process. *)
Lemma run_result_cases self command timeout s :
  exists r s',
    run' self command timeout s = (Ok r, s')
    /\ invoked s' = (invoked s ++ [full' self command])%list
    /\ (success r = true <->
        exists p, fst (subprocess_run (world s) (full' self command) timeout)
                  = Ok p /\ cp_returncode p = 0)
    /\ (forall p, fst (subprocess_run (world s) (full' self command) timeout)
                  = Ok p -> success r = true -> stdout r = cp_stdout p).
Proof.
  unfold _run_kubectl_command.
  destruct (subprocess_run (world s) (full' self command) timeout)
    as [[p|e] w]; simpl.
  - eexists _, _. split; [reflexivity|]. split; [reflexivity|].
    unfold triage.
    destruct (existsb
                (fun phrase => contains phrase (lower (cp_stderr p)))
                connection_phrases);
      destruct (contains "not found" (lower (cp_stderr p)));
      (destruct (cp_returncode p =? 0) eqn:Z0;
       [apply Z.eqb_eq in Z0 | apply Z.eqb_neq in Z0]); simpl;
      repeat split; intros; settle_result; eauto.
  - unfold run_handlers.
    destruct (exn_cls e); eexists _, _; (split; [reflexivity|]);
      (split; [reflexivity|]); simpl;
      repeat split; intros; settle_result.
Qed.

Lemma inspecting_of_exactly {A : Type} self (m : M World A) commands :
  exactly self m commands -> forallb inspects commands = true ->
  inspecting self m (List.length commands).
Proof.
  intros H F s. destruct (H s) as (a & s' & E & I).
  exists a, s', commands. auto.
Qed.

Lemma inspecting_bind {A B : Type} self (m : M World A) (k : A -> M World B)
    n1 n2 :
  inspecting self m n1 -> (forall a, inspecting self (k a) n2) ->
  inspecting self (mbind World m k) (n1 + n2).
Proof.
  intros Hm Hk s. unfold mbind.
  destruct (Hm s) as (a & s1 & c1 & E1 & I1 & L1 & F1). rewrite E1.
  destruct (Hk a s1) as (b & s2 & c2 & E2 & I2 & L2 & F2).
  exists b, s2, (c1 ++ c2)%list. split; [exact E2|].
  rewrite I2, I1, map_app, app_assoc, length_app, forallb_app, F1, F2, L1, L2.
  auto.
Qed.

Lemma inspecting_run self command timeout :
  inspects command = true -> inspecting self (run' self command timeout) 1.
Proof.
  intros H. apply (inspecting_of_exactly self _ [command]).
  - apply exactly_run.
  - simpl. now rewrite H.
Qed.

Lemma inspecting_pure {A : Type} self (m : M World A) :
  exactly self m [] -> inspecting self m 0.
Proof. intros H. now apply (inspecting_of_exactly self m []). Qed.

Lemma inspecting_get_pods self namespace :
  inspecting self
    (get_pods World subprocess_run clock default_kubeconfig self namespace) 1.
Proof.
  unfold get_pods. destruct (String.eqb namespace "all");
    now apply inspecting_run.
Qed.

Lemma inspecting_get_deployments self namespace :
  inspecting self
    (get_deployments World subprocess_run clock default_kubeconfig
       self namespace) 1.
Proof.
  unfold get_deployments. destruct (String.eqb namespace "all");
    now apply inspecting_run.
Qed.

Lemma inspecting_get_services self namespace :
  inspecting self
    (get_services World subprocess_run clock default_kubeconfig
       self namespace) 1.
Proof.
  unfold get_services. destruct (String.eqb namespace "all");
    now apply inspecting_run.
Qed.

Lemma inspecting_get_events self namespace :
  inspecting self
    (get_events World subprocess_run clock default_kubeconfig
       self namespace) 1.
Proof.
  unfold get_events. destruct (String.eqb namespace "all");
    now apply inspecting_run.
Qed.

Lemma inspecting_get_pod_logs self namespace pod_name tail_lines :
  inspecting self
    (get_pod_logs World subprocess_run clock default_kubeconfig
       self namespace pod_name tail_lines) 1.
Proof.
  apply (inspecting_of_exactly self _
           [["logs"; pod_name; "-n"; namespace; "--tail";
             str_of_int tail_lines]]).
  - apply exactly_get_pod_logs.
  - reflexivity.
Qed.

(** Builds the count of a sequence of client calls. *)
Ltac count_inspections :=
  repeat first
    [ apply inspecting_get_pods
    | apply inspecting_get_deployments
    | apply inspecting_get_services
    | apply inspecting_get_events
    | apply inspecting_run; reflexivity
    | apply inspecting_pure; first [apply exactly_now | apply exactly_ret]
    | apply inspecting_get_pod_logs
    | eapply inspecting_bind; [|intros ?] ].

(** X2.  [read_pod_file] never raises.  For a path without the seven
    characters it runs exactly one command, [exec pod -n namespace -- cat]
    followed by the path as it was given (not the stripped path the check
    looked at); the file content is the standard output exactly when the
    process completed with exit code 0, and otherwise the content is empty
    and an error text is present. *)
Theorem read_pod_file_runs_cat (self : K8sClient)
    (namespace pod_name file_path : string) (s : Sys World) :
  existsb (fun char => has_char char file_path) injection_chars = false ->
  let argv := full' self
                ["exec"; pod_name; "-n"; namespace; "--"; "cat"; file_path] in
  exists r s',
    read_pod_file World subprocess_run clock default_kubeconfig
      self namespace pod_name file_path s = (Ok r, s')
    /\ invoked s' = (invoked s ++ [argv])%list
    /\ (fc_success r = true <->
        exists p, fst (subprocess_run (world s) argv 30) = Ok p
                  /\ cp_returncode p = 0)
    /\ (forall p, fst (subprocess_run (world s) argv 30) = Ok p ->
                  cp_returncode p = 0 ->
                  fc_content r = cp_stdout p /\ fc_error r = None)
    /\ (fc_success r = false -> fc_content r = "" /\ fc_error r <> None).
Proof.
  intros Hsafe argv. unfold read_pod_file.
  rewrite verify_decides, Hsafe. cbn [negb].
  destruct (run_result_cases self
              ["exec"; pod_name; "-n"; namespace; "--"; "cat"; file_path] 30 s)
    as (r & s' & E & I & Hs & Hout).
  rewrite E. cbn [try_except bind].
  eexists _, s'. split; [reflexivity|]. split; [exact I|].
  fold argv in Hs, Hout.
  destruct (success r) eqn:S; cbn.
  - split; [tauto|]. split.
    + intros p Hp Hz. split; [|reflexivity].
      apply Hout; [exact Hp | reflexivity].
    + discriminate.
  - split.
    { split; [discriminate|]. intros Hp. apply Hs in Hp. discriminate. }
    split.
    + intros p Hp Hz. exfalso.
      assert (false = true) by (apply Hs; eauto). discriminate.
    + intros _. split; [reflexivity | discriminate].
Qed.

(** X3.  [browse_pod_files] never raises.  For a path without the seven
    characters it runs exactly one command, [exec pod -n namespace -- ls
    -la path]; the listing is the parsed standard output, with the path as
    [current_path], exactly when the process completed with exit code 0,
    and otherwise the list of files is empty. *)
Theorem browse_pod_files_runs_ls (self : K8sClient)
    (namespace pod_name path : string) (s : Sys World) :
  existsb (fun char => has_char char path) injection_chars = false ->
  let argv := full' self
                ["exec"; pod_name; "-n"; namespace; "--"; "ls"; "-la"; path] in
  exists r s',
    browse_pod_files World subprocess_run clock default_kubeconfig
      self namespace pod_name path s = (Ok r, s')
    /\ invoked s' = (invoked s ++ [argv])%list
    /\ (fl_success r = true <->
        exists p, fst (subprocess_run (world s) argv 30) = Ok p
                  /\ cp_returncode p = 0)
    /\ (forall p, fst (subprocess_run (world s) argv 30) = Ok p ->
                  cp_returncode p = 0 ->
                  fl_files r = _parse_ls_output (cp_stdout p)
                  /\ fl_current_path r = Some path)
    /\ (fl_success r = false -> fl_files r = [] /\ fl_error r <> None).
Proof.
  intros Hsafe argv. unfold browse_pod_files.
  rewrite verify_decides, Hsafe. cbn [negb].
  destruct (run_result_cases self
              ["exec"; pod_name; "-n"; namespace; "--"; "ls"; "-la"; path] 30 s)
    as (r & s' & E & I & Hs & Hout).
  rewrite E. cbn [try_except bind].
  eexists _, s'. split; [reflexivity|]. split; [exact I|].
  fold argv in Hs, Hout.
  destruct (success r) eqn:S; cbn.
  - split; [tauto|]. split.
    + intros p Hp Hz. split; [|reflexivity].
      f_equal. apply Hout; [exact Hp | reflexivity].
    + discriminate.
  - split.
    { split; [discriminate|]. intros Hp. apply Hs in Hp. discriminate. }
    split.
    + intros p Hp Hz. exfalso.
      assert (false = true) by (apply Hs; eauto). discriminate.
    + intros _. split; [reflexivity | discriminate].
Qed.

(** The stderr of a result is what a completed process wrote to it. *)
Lemma run_stderr_completed self command timeout s p :
  fst (subprocess_run (world s) (full' self command) timeout) = Ok p ->
  exists r, fst (run' self command timeout s) = Ok r
            /\ stderr r = cp_stderr p.
Proof.
  intros Hp. unfold _run_kubectl_command.
  destruct (subprocess_run (world s) (full' self command) timeout)
    as [ran w].
  cbn [fst] in Hp. subst ran. cbn [try_except bind fst]. unfold triage.
  eexists. split; [reflexivity|].
  destruct (negb (cp_returncode p =? 0)
            && contains "not found" (lower (cp_stderr p)));
    [reflexivity|].
  destruct (negb (cp_returncode p =? 0)
            && existsb (fun phrase => contains phrase (lower (cp_stderr p)))
                 connection_phrases); reflexivity.
Qed.

(** X4.  [get_pod_logs] never raises and runs exactly one command,
    [logs pod -n namespace --tail n] with [n] in decimal; the logs are the
    standard output exactly when the process completed with exit code 0,
    and otherwise the logs are empty and the error is the stderr of the
    result of the runner: what the process wrote to stderr when it
    completed with another exit code. *)
Theorem get_pod_logs_runs_logs (self : K8sClient)
    (namespace pod_name : string) (tail_lines : Z) (s : Sys World) :
  let command :=
    ["logs"; pod_name; "-n"; namespace; "--tail"; str_of_int tail_lines] in
  let argv := full' self command in
  exists r s',
    get_pod_logs World subprocess_run clock default_kubeconfig
      self namespace pod_name tail_lines s = (Ok r, s')
    /\ invoked s' = (invoked s ++ [argv])%list
    /\ (pl_success r = true <->
        exists p, fst (subprocess_run (world s) argv 30) = Ok p
                  /\ cp_returncode p = 0)
    /\ (forall p, fst (subprocess_run (world s) argv 30) = Ok p ->
                  cp_returncode p = 0 -> pl_logs r = cp_stdout p)
    /\ (pl_success r = false ->
        pl_logs r = ""
        /\ exists result,
             fst (run' self command 30 s) = Ok result
             /\ pl_error r = Some (stderr result))
    /\ (forall p, fst (subprocess_run (world s) argv 30) = Ok p ->
                  cp_returncode p <> 0 -> pl_error r = Some (cp_stderr p)).
Proof.
  intros command argv. unfold get_pod_logs. fold command.
  destruct (run_result_cases self command 30 s)
    as (r & s' & E & I & Hs & Hout).
  assert (Herr : forall p, fst (subprocess_run (world s) argv 30) = Ok p ->
                           stderr r = cp_stderr p).
  { intros p Hp.
    destruct (run_stderr_completed self command 30 s p Hp) as (r' & Er & H).
    rewrite E in Er. injection Er as <-. exact H. }
  rewrite E. cbn [try_except bind fst].
  eexists _, s'. split; [reflexivity|]. split; [exact I|].
  fold argv in Hs, Hout.
  destruct (success r) eqn:S; cbn.
  - split; [tauto|]. split.
    + intros p Hp Hz. apply Hout; [exact Hp | reflexivity].
    + split; [discriminate|].
      intros p Hp Hz. exfalso. apply Hz.
      destruct (proj1 Hs eq_refl) as (p' & Hp' & Hz').
      rewrite Hp in Hp'. injection Hp' as <-. exact Hz'.
  - split.
    { split; [discriminate|]. intros Hp. apply Hs in Hp. discriminate. }
    split.
    + intros p Hp Hz. exfalso.
      assert (false = true) by (apply Hs; eauto). discriminate.
    + split.
      * intros _. split; [reflexivity|]. exists r. split; reflexivity.
      * intros p Hp _. rewrite (Herr p Hp). reflexivity.
Qed.

(** X5.  [analyze_pod_issues pod namespace] never raises and runs four
    commands in this order: [get pod], [logs], [describe pod] and
    [get events].  The [logs] command names the namespace as the pod and
    the pod as the namespace: it is [logs namespace -n pod --tail 1000]. *)
Theorem analyze_pod_issues_commands (self : K8sClient)
    (pod_name namespace : string) (s : Sys World) :
  exists d s',
    analyze_pod_issues World subprocess_run clock default_kubeconfig
      self pod_name namespace s = (Ok d, s')
    /\ invoked s'
       = (invoked s
          ++ map (full' self)
               [["get"; "pod"; pod_name; "-n"; namespace; "-o"; "json"];
                ["logs"; namespace; "-n"; pod_name; "--tail"; "1000"];
                ["describe"; "pod"; pod_name; "-n"; namespace];
                if String.eqb namespace "all"
                then ["get"; "events"; "--all-namespaces"; "-o"; "json"]
                else ["get"; "events"; "-n"; namespace; "-o"; "json"]])%list
    /\ PyDict.keys d
       = ["pod_info"; "pod_logs"; "pod_describe"; "namespace_events";
          "timestamp"].
Proof.
  unfold analyze_pod_issues, describe_pod, get_events, mbind, now, ret.
  destruct (exactly_run self
              ["get"; "pod"; pod_name; "-n"; namespace; "-o"; "json"] 30 s)
    as (r1 & s1 & E1 & I1).
  rewrite E1.
  destruct (exactly_get_pod_logs self pod_name namespace 1000 s1)
    as (r2 & s2 & E2 & I2).
  rewrite E2.
  destruct (exactly_run self ["describe"; "pod"; pod_name; "-n"; namespace]
              30 s2) as (r3 & s3 & E3 & I3).
  rewrite E3.
  destruct (String.eqb namespace "all").
  - destruct (exactly_run self
                ["get"; "events"; "--all-namespaces"; "-o"; "json"] 30 s3)
      as (r4 & s4 & E4 & I4).
    rewrite E4. eexists _, s4. split; [reflexivity|].
    split; [|reflexivity].
    rewrite I4, I3, I2, I1. cbn [map app]. rewrite <- !app_assoc. reflexivity.
  - destruct (exactly_run self
                ["get"; "events"; "-n"; namespace; "-o"; "json"] 30 s3)
      as (r4 & s4 & E4 & I4).
    rewrite E4. eexists _, s4. split; [reflexivity|].
    split; [|reflexivity].
    rewrite I4, I3, I2, I1. cbn [map app]. rewrite <- !app_assoc. reflexivity.
Qed.

(** X6.  [execute_commands_for_intent] never raises for an intent with string
    values, whatever the intent and the system do; it runs between one and
    four commands, and each of them has the verb [get], [describe] or
    [logs]. *)
Theorem intent_commands_only_inspect (self : K8sClient)
    (intent : PyDict.t string) (s : Sys World) :
  exists d s' commands,
    execute_commands_for_intent World subprocess_run clock default_kubeconfig
      self intent s = (Ok d, s')
    /\ invoked s' = (invoked s ++ map (full' self) commands)%list
    /\ (1 <= List.length commands <= 4)%nat
    /\ forallb inspects commands = true.
Proof.
  assert (H : exists n, (1 <= n <= 4)%nat
                        /\ inspecting self
                             (execute_commands_for_intent World subprocess_run
                                clock default_kubeconfig self intent) n).
  { assert (T : forall (m : M World IntentData) handler n,
               inspecting self m n ->
               inspecting self (try_exceptM World m handler) n).
    { intros m handler n Hm s0. unfold try_exceptM.
      destruct (Hm s0) as (a & s1 & c & E & R). rewrite E. eauto. }
    unfold execute_commands_for_intent.
    destruct (String.eqb (get_default "type" "unknown" intent)
                "cluster_health").
    { exists 4%nat. split; [lia|]. apply T.
      unfold get_cluster_health, get_namespaces.
      change 4%nat with ((0 + (1 + (1 + (1 + (1 + 0)))) + 0))%nat.
      count_inspections. }
    destruct (String.eqb (get_default "type" "unknown" intent)
                "pod_analysis").
    { destruct (PyDict.get "pod_name" intent) as [[|c p]|].
      - exists 1%nat. split; [lia|]. apply T.
        change 1%nat with (1 + 0)%nat. count_inspections.
      - exists 4%nat. split; [lia|]. apply T.
        unfold analyze_pod_issues, describe_pod.
        change 4%nat with ((1 + (1 + (1 + (1 + (0 + 0)))) + 0))%nat.
        count_inspections.
      - exists 1%nat. split; [lia|]. apply T.
        change 1%nat with (1 + 0)%nat. count_inspections. }
    destruct (String.eqb (get_default "type" "unknown" intent)
                "namespace_analysis").
    { exists 4%nat. split; [lia|]. apply T.
      change 4%nat with (1 + (1 + (1 + (1 + (0 + 0)))))%nat.
      count_inspections. }
    destruct (String.eqb (get_default "type" "unknown" intent)
                "deployment_analysis").
    { destruct (PyDict.get "deployment_name" intent) as [[|c p]|].
      - exists 1%nat. split; [lia|]. apply T.
        change 1%nat with (1 + 0)%nat. count_inspections.
      - exists 4%nat. split; [lia|]. apply T.
        unfold describe_deployment.
        change 4%nat with (1 + (1 + (1 + (1 + (0 + 0)))))%nat.
        count_inspections.
      - exists 1%nat. split; [lia|]. apply T.
        change 1%nat with (1 + 0)%nat. count_inspections. }
    exists 3%nat. split; [lia|]. apply T.
    change 3%nat with (1 + (1 + (1 + (0 + 0))))%nat.
    count_inspections. }
  destruct H as (n & Hn & H).
  destruct (H s) as (d & s' & commands & E & I & L & F).
  exists d, s', commands. rewrite L. auto.
Qed.

(** X7.  Building a client runs [kubectl cluster-info] once, without the
    [--kubeconfig] flag whatever path is given; no path or an empty path
    selects the default one.  A time-out and a missing binary are
    swallowed; any other exception of the process leaves the
    constructor. *)
Theorem client_init_validates_default (kubeconfig_path : option string)
    (s : Sys World) :
  let ran := fst (subprocess_run (world s) ["kubectl"; "cluster-info"] 10) in
  exists r s',
    K8sClient__init__ World subprocess_run default_kubeconfig
      kubeconfig_path s = (r, s')
    /\ invoked s' = (invoked s ++ [["kubectl"; "cluster-info"]])%list
    /\ (forall e, ran = Raise e ->
                  exn_cls e <> TimeoutExpired ->
                  exn_cls e <> FileNotFoundError -> r = Raise e)
    /\ ((exists p, ran = Ok p)
        \/ (exists e, ran = Raise e
                      /\ (exn_cls e = TimeoutExpired
                          \/ exn_cls e = FileNotFoundError)) ->
        r = Ok {| kubeconfig_path :=
                    match kubeconfig_path with
                    | Some (String c p) => String c p
                    | _ => default_kubeconfig
                    end |}).
Proof.
  intros ran. unfold K8sClient__init__, _validate_kubectl_access, mbind, ret.
  subst ran.
  destruct (subprocess_run (world s) ["kubectl"; "cluster-info"] 10)
    as [[p|e] w]; cbn [fst].
  - eexists _, _. split; [reflexivity|]. split; [reflexivity|].
    split; [discriminate|]. intros _.
    destruct kubeconfig_path as [[|c p']|]; reflexivity.
  - destruct (exn_cls e) eqn:C;
      (eexists _, _; split; [reflexivity|]; split; [reflexivity|]; split;
       [ intros e' H; injection H as <-; intros; congruence
       | intros [[p H]|(e' & H & [H'|H'])];
         try discriminate; try (injection H as <-; congruence);
         destruct kubeconfig_path as [[|c p']|]; reflexivity ]).
Qed.

End ClientFacts.

(** ** The listing parser *)

Lemma words_truthy s : Forall (fun w => truthy w = true) (words s).
Proof.
  induction s as [|c s IH]; simpl; [constructor|].
  destruct (isspace c); [exact IH|].
  destruct s as [|d s']; [repeat constructor|].
  destruct (isspace d); [constructor; [reflexivity | exact IH]|].
  destruct (words (String d s')) as [|w ws]; [repeat constructor|].
  inversion IH; subst. constructor; [reflexivity | assumption].
Qed.

Lemma join_truthy sep l :
  l <> [] -> Forall (fun w => truthy w = true) l -> truthy (join sep l) = true.
Proof.
  destruct l as [|x [|y l]]; [congruence | |]; intros _ F;
    inversion F as [|? ? Hx _]; subst; simpl.
  - exact Hx.
  - destruct x; [discriminate | reflexivity].
Qed.

Lemma Forall_skipn {A : Type} (Q : A -> Prop) n l :
  Forall Q l -> Forall Q (skipn n l).
Proof.
  revert l; induction n as [|n IH]; intros [|a l] F; simpl; auto.
  inversion F; auto.
Qed.

Lemma Forall_firstn {A : Type} (Q : A -> Prop) n l :
  Forall Q l -> Forall Q (firstn n l).
Proof.
  revert l; induction n as [|n IH]; intros [|a l] F; simpl; auto.
  inversion F; subst. constructor; auto.
Qed.

Lemma lstrip_empty_words s : lstrip s = "" -> words s = [].
Proof.
  induction s as [|c s IH]; simpl; [reflexivity|].
  destruct (isspace c); [exact IH | discriminate].
Qed.

Lemma strip_empty_words s : truthy (strip s) = false -> words s = [].
Proof.
  unfold strip. intros H. apply lstrip_empty_words.
  destruct (lstrip s) as [|c r] eqn:L; [reflexivity|].
  pose proof (lstrip_head _ _ _ L) as Hc.
  simpl in H. destruct (rstrip r); [rewrite Hc in H|]; discriminate.
Qed.

(** X8.  A line of the listing gives an entry exactly when the line as it
    stands, not stripped, does not begin with "total" and it has at least
    nine white-space separated fields, and then it gives one entry; so the
    parser returns at most one entry per line of its stripped input. *)
Theorem parse_ls_one_entry_per_line (ls_output line : string) :
  (parse_ls_line line = [] <->
   startswith "total" line = true \/ (List.length (words line) < 9)%nat)
  /\ (List.length (parse_ls_line line) <= 1)%nat
  /\ (List.length (_parse_ls_output ls_output)
      <= List.length (split nl (strip ls_output)))%nat.
Proof.
  assert (One : forall l, (List.length (parse_ls_line l) <= 1)%nat).
  { intros l. unfold parse_ls_line.
    destruct (negb (truthy (strip l)) || startswith "total" l);
      [simpl; lia|].
    destruct (List.length (words l) <? 9)%nat; simpl; lia. }
  split; [|split; [apply One|]].
  - unfold parse_ls_line.
    destruct (truthy (strip line)) eqn:T; cbn [negb orb].
    + destruct (startswith "total" line); [split; auto|].
      destruct (List.length (words line) <? 9)%nat eqn:L.
      * apply Nat.ltb_lt in L. split; auto.
      * apply Nat.ltb_ge in L. split; [discriminate|].
        intros [H|H]; [discriminate | lia].
    + apply strip_empty_words in T. rewrite T.
      split; [right; simpl; lia | reflexivity].
  - unfold _parse_ls_output.
    induction (split nl (strip ls_output)) as [|l ls IH]; simpl; [lia|].
    rewrite length_app. specialize (One l). lia.
Qed.

Lemma startswith_one_char a b p :
  startswith (String a "") p = true -> startswith (String b "") p = true ->
  a = b.
Proof.
  destruct p as [|c r]; simpl; [discriminate|].
  rewrite !andb_true_r. intros Ha Hb.
  apply Ascii.eqb_eq in Ha, Hb. congruence.
Qed.

(** The type chosen from the permissions [p]. *)
Lemma first_char_decides_type p :
  let file_type :=
    if startswith "d" p then "directory"
    else if startswith "l" p then "symlink"
    else if startswith "c" p then "character"
    else if startswith "b" p then "block"
    else "file" in
  (file_type = "directory" <-> startswith "d" p = true)
  /\ (file_type = "symlink" <-> startswith "l" p = true)
  /\ (file_type = "character" <-> startswith "c" p = true)
  /\ (file_type = "block" <-> startswith "b" p = true)
  /\ (file_type = "file" <->
      startswith "d" p = false /\ startswith "l" p = false
      /\ startswith "c" p = false /\ startswith "b" p = false).
Proof.
  destruct (startswith "d" p) eqn:Sd; destruct (startswith "l" p) eqn:Sl;
    destruct (startswith "c" p) eqn:Sc; destruct (startswith "b" p) eqn:Sb;
    try (pose proof (startswith_one_char _ _ _ Sd Sl); discriminate);
    try (pose proof (startswith_one_char _ _ _ Sd Sc); discriminate);
    try (pose proof (startswith_one_char _ _ _ Sd Sb); discriminate);
    try (pose proof (startswith_one_char _ _ _ Sl Sc); discriminate);
    try (pose proof (startswith_one_char _ _ _ Sl Sb); discriminate);
    try (pose proof (startswith_one_char _ _ _ Sc Sb); discriminate);
    simpl; repeat split; intros;
    repeat match goal with H : _ /\ _ |- _ => destruct H end;
    try reflexivity; try discriminate.
Qed.

(** X9.  Every entry the parser returns has a non-empty name, non-empty
    permissions and a non-empty modification field; its size is a string
    of digits; and its type is "directory", "symlink", "character" or
    "block" exactly when the permissions begin with d, l, c or b, and
    "file" exactly when they begin with none of the four. *)
Theorem parse_ls_entries_wellformed (ls_output : string) (e : FileEntry) :
  In e (_parse_ls_output ls_output) ->
  truthy (fe_name e) = true
  /\ truthy (fe_permissions e) = true
  /\ truthy (fe_modified e) = true
  /\ isdigit (fe_size e) = true
  /\ In (fe_type e) ["file"; "directory"; "symlink"; "character"; "block"]
  /\ (fe_type e = "directory" <-> startswith "d" (fe_permissions e) = true)
  /\ (fe_type e = "symlink" <-> startswith "l" (fe_permissions e) = true)
  /\ (fe_type e = "character" <-> startswith "c" (fe_permissions e) = true)
  /\ (fe_type e = "block" <-> startswith "b" (fe_permissions e) = true)
  /\ (fe_type e = "file" <->
      startswith "d" (fe_permissions e) = false
      /\ startswith "l" (fe_permissions e) = false
      /\ startswith "c" (fe_permissions e) = false
      /\ startswith "b" (fe_permissions e) = false).
Proof.
  unfold _parse_ls_output. intros H.
  apply in_flat_map in H. destruct H as (line & _ & H).
  unfold parse_ls_line in H.
  destruct (negb (truthy (strip line)) || startswith "total" line);
    [contradiction|].
  destruct (List.length (words line) <? 9)%nat eqn:L; [contradiction|].
  apply Nat.ltb_ge in L.
  pose proof (words_truthy line) as W.
  destruct H as [<-|[]]. cbn [fe_name fe_permissions fe_modified fe_size fe_type].
  assert (L8 : (8 <? List.length (words line))%nat = true)
    by (apply Nat.ltb_lt; lia).
  rewrite L8.
  split; [|split; [|split; [|split; [|split]]]].
  - apply join_truthy; [|now apply Forall_skipn].
    intros E. apply (f_equal (@List.length string)) in E.
    rewrite length_skipn in E. cbn [List.length] in E. lia.
  - destruct (words line) as [|p0 rest]; [simpl in L; lia|].
    inversion W; assumption.
  - apply join_truthy; [|now apply Forall_firstn, Forall_skipn].
    intros E. apply (f_equal (@List.length string)) in E.
    rewrite length_firstn, length_skipn in E. cbn [List.length] in E. lia.
  - destruct (isdigit (nth 4 (words line) "")) eqn:D; [exact D | reflexivity].
  - destruct (startswith "d" (nth 0 (words line) ""));
      [simpl; tauto|].
    destruct (startswith "l" (nth 0 (words line) ""));
      [simpl; tauto|].
    destruct (startswith "c" (nth 0 (words line) ""));
      [simpl; tauto|].
    destruct (startswith "b" (nth 0 (words line) ""));
      simpl; tauto.
  - apply first_char_decides_type.
Qed.

(** ** The chat pipeline as a whole *)

Section ChatFacts.

Variable World : Type.
Variable subprocess_run :
  World -> list string -> Z -> res CompletedProcess * World.
Variable clock : World -> string.
Variable default_kubeconfig : string.

Abbreviation pipeline :=
  (chat_pipeline World subprocess_run clock default_kubeconfig).
Abbreviation argv_of' :=
  (fun self cmd => _get_kubectl_command default_kubeconfig self (tl (words cmd))).

Section AnyProvider.

Context {P : Type} `{LLMProvider P}.
Variable llm_provider : P.

(** The outcome of the pipeline when the three provider calls return. *)
Lemma pipeline_outcome self classification user_prefs
    post_suggest post_follow_up post_analyze s suggested :
  suggest_commands llm_provider post_suggest = Ok suggested ->
  let kept :=
    limit_commands suggested
      (effective_max_commands classification user_prefs) in
  let follows :=
    follow_up_allowed classification
    && investigates (question_type classification) in
  forall r s',
    pipeline llm_provider self classification user_prefs
      post_suggest post_follow_up post_analyze s = (r, s') ->
    exists run,
      invoked s' = (invoked s ++ map (argv_of' self) run)%list
      /\ (kept = [] -> run = [])
      /\ (follows = false -> run = kept)
      /\ (forall fl, kept <> [] -> follows = true ->
                     suggest_follow_up_commands llm_provider post_follow_up
                     = Ok fl ->
                     run = (kept ++ limit_follow_ups fl)%list)
      /\ (kept <> [] -> exists fs, run = (kept ++ fs)%list)
      /\ (forall resp, r = Ok resp ->
            commands_executed resp = run
            /\ analysis_type resp
               = if match run with [] => true | _ => false end
                 then "advice_only" else "command_based").
Proof.
  intros Hs. cbv zeta. intros r s'.
  unfold chat_pipeline, mbind, lift. rewrite Hs.
  remember (limit_commands suggested
              (effective_max_commands classification user_prefs))
    as kept eqn:K.
  remember (follow_up_allowed classification
            && investigates (question_type classification))
    as follows eqn:F.
  clear K.
  destruct kept as [|cmd rest].
  - intros E. exists [].
    destruct (analyze_command_outputs llm_provider post_analyze);
      injection E as <- <-; cbn [map]; rewrite app_nil_r;
      (split; [reflexivity|]); (split; [reflexivity|]);
      (split; [reflexivity|]); (split; [congruence|]);
      (split; [congruence|]); intros resp E; try discriminate;
      injection E as <-; split; reflexivity.
  - destruct (run_commands_spec World subprocess_run clock default_kubeconfig
                self (cmd :: rest) ([], []) s)
      as (outputs & s1 & E1 & I1 & _ & _ & Hnew).
    rewrite E1. cbn [snd app].
    assert (Tr : PyDict.truthy outputs = true).
    { assert (Hin : In cmd (PyDict.keys outputs)) by (apply Hnew; now left).
      destruct outputs; [contradiction | reflexivity]. }
    unfold follow_up_phase. cbn [fst snd]. rewrite Tr, andb_true_r.
    rewrite <- F. clear F. unfold mbind, lift.
    destruct follows.
    + destruct (suggest_follow_up_commands llm_provider post_follow_up)
        as [fl|e].
      * destruct (run_commands_spec World subprocess_run clock
                    default_kubeconfig self (limit_follow_ups fl)
                    (outputs, cmd :: rest) s1)
          as (outputs2 & s2 & E2 & I2 & _).
        rewrite E2. cbn [snd].
        intros E. exists ((cmd :: rest) ++ limit_follow_ups fl)%list.
        assert (I : invoked s2
                    = (invoked s
                       ++ map (argv_of' self)
                            ((cmd :: rest) ++ limit_follow_ups fl))%list).
        { rewrite I2, I1, map_app, app_assoc. reflexivity. }
        destruct (analyze_command_outputs llm_provider post_analyze);
          injection E as <- <-;
          (split; [exact I|]); (split; [discriminate|]);
          (split; [discriminate|]);
          (split; [intros fl' _ _ Hfl; injection Hfl as <-; reflexivity|]);
          (split; [intros _; eexists; reflexivity|]);
          intros resp E; try discriminate;
          injection E as <-; split; reflexivity.
      * intros E. injection E as <- <-. exists (cmd :: rest).
        split; [exact I1|]. split; [discriminate|]. split; [discriminate|].
        split; [intros fl _ _ Hfl; discriminate|].
        split; [intros _; exists []; now rewrite app_nil_r|].
        intros resp E; discriminate.
    + unfold ret. intros E. exists (cmd :: rest).
      destruct (analyze_command_outputs llm_provider post_analyze);
        injection E as <- <-;
        (split; [exact I1|]); (split; [discriminate|]);
        (split; [reflexivity|]); (split; [discriminate|]);
        (split; [intros _; exists []; now rewrite app_nil_r|]);
        intros resp E; try discriminate;
        injection E as <-; split; reflexivity.
Qed.

(** X11.  A response is of type "advice_only" exactly when no command was
    executed, and then no process was run; otherwise it is
    "command_based". *)
Theorem advice_only_iff_nothing_run (self : K8sClient)
    (classification : Classification) (user_prefs : option UserPrefs)
    (post_suggest post_follow_up post_analyze : http_result)
    (s s' : Sys World) (resp : ChatResponse) :
  pipeline llm_provider self classification user_prefs
    post_suggest post_follow_up post_analyze s = (Ok resp, s') ->
  (analysis_type resp = "advice_only" <-> commands_executed resp = [])
  /\ (analysis_type resp = "command_based" <-> commands_executed resp <> [])
  /\ (analysis_type resp = "advice_only" -> invoked s' = invoked s).
Proof.
  intros E.
  destruct (suggest_commands llm_provider post_suggest) as [suggested|e] eqn:Hs.
  - destruct (pipeline_outcome self classification user_prefs post_suggest
                post_follow_up post_analyze s suggested Hs _ _ E)
      as (run & I & _ & _ & _ & _ & R).
    destruct (R resp eq_refl) as (Hc & Ht). rewrite Hc, Ht, I.
    destruct run; cbn [map]; rewrite ?app_nil_r;
      repeat split; intros; try reflexivity; try discriminate;
      try congruence.
  - unfold chat_pipeline, mbind, lift in E. rewrite Hs in E. discriminate.
Qed.

(** X12.  Which commands a turn executes.  With [kept] the suggested commands
    cut to the budget: nothing is executed when [kept] is empty; only
    [kept] when the classification forbids a follow-up or its type is
    neither a moderate investigation nor a deep analysis; and otherwise
    [kept] followed by the follow-up suggestions cut to two. *)
Theorem executed_commands_characterised (self : K8sClient)
    (classification : Classification) (user_prefs : option UserPrefs)
    (post_suggest post_follow_up post_analyze : http_result)
    (s s' : Sys World) (resp : ChatResponse)
    (suggested follow_ups : list string) :
  suggest_commands llm_provider post_suggest = Ok suggested ->
  suggest_follow_up_commands llm_provider post_follow_up = Ok follow_ups ->
  pipeline llm_provider self classification user_prefs
    post_suggest post_follow_up post_analyze s = (Ok resp, s') ->
  let kept :=
    limit_commands suggested
      (effective_max_commands classification user_prefs) in
  commands_executed resp
  = match kept with
    | [] => []
    | _ :: _ =>
        if follow_up_allowed classification
           && investigates (question_type classification)
        then (kept ++ limit_follow_ups follow_ups)%list
        else kept
    end.
Proof.
  intros Hs Hf E kept.
  destruct (pipeline_outcome self classification user_prefs post_suggest
              post_follow_up post_analyze s suggested Hs _ _ E)
    as (run & _ & H0 & H1 & H2 & _ & R).
  destruct (R resp eq_refl) as (-> & _).
  fold kept in H0, H1, H2.
  destruct kept as [|cmd rest]; [now apply H0|].
  destruct (follow_up_allowed classification
            && investigates (question_type classification)).
  - apply H2; [discriminate | reflexivity | exact Hf].
  - now apply H1.
Qed.

End AnyProvider.

End ChatFacts.

(** ** The turn with its client and its database calls *)

Section TurnFacts.

Variable World : Type.
Variable subprocess_run :
  World -> list string -> Z -> res CompletedProcess * World.
Variable clock : World -> string.
Variable default_kubeconfig : string.
Variable get_active_kubeconfig : World -> res (option Kubeconfig) * World.
Variable log_activity : Z -> Activity -> World -> res unit * World.
Variable save_chat_message :
  Z -> string -> StoredMessage -> World -> res unit * World.

Abbreviation loop :=
  (run_and_log World subprocess_run clock default_kubeconfig log_activity).
Abbreviation argv_for :=
  (fun client cmd =>
     _get_kubectl_command default_kubeconfig client (tl (words cmd))).
Abbreviation path_for := (path_of default_kubeconfig).

Lemma db_call_invoked {A : Type} (f : World -> res A * World) s :
  invoked (snd (db_call World f s)) = invoked s.
Proof. unfold db_call. destruct (f (world s)). reflexivity. Qed.

(** A loop with a client: it runs a prefix of the commands, all of them
    when it does not raise. *)
Lemma run_and_log_client client user_id action_type classification commands :
  forall acc s,
  exists n,
    (n <= List.length commands)%nat
    /\ invoked (snd (loop (Some client) user_id action_type classification
                       commands acc s))
       = (invoked s ++ map (argv_for client) (firstn n commands))%list
    /\ forall outputs executed,
         fst (loop (Some client) user_id action_type classification
                commands acc s) = Ok (outputs, executed) ->
         n = List.length commands
         /\ executed = (snd acc ++ commands)%list.
Proof.
  induction commands as [|cmd rest IH]; intros acc s.
  - exists 0%nat. cbn. rewrite !app_nil_r. split; [lia|].
    split; [reflexivity|]. intros outputs executed E.
    injection E as ->. split; reflexivity.
  - cbn [run_and_log]. unfold mbind.
    destruct (run_ok World subprocess_run clock default_kubeconfig
                client (tl (words cmd)) 30 s) as (output & Eo).
    pose proof (run_invokes World subprocess_run clock default_kubeconfig
                  client (tl (words cmd)) 30 s) as Ei.
    destruct (_run_kubectl_command World subprocess_run clock
                default_kubeconfig client (tl (words cmd)) 30 s)
      as [r s1]; cbn [fst snd] in Eo, Ei; subst r.
    match goal with
    | |- context [db_call World ?f s1] =>
        pose proof (db_call_invoked f s1) as Ed;
        destruct (db_call World f s1) as [[[]|e] s2]
    end; cbn [snd] in Ed.
    + destruct (IH (PyDict.set cmd output (fst acc),
                    (snd acc ++ [cmd])%list) s2) as (n & Ln & I & R).
      exists (S n). split; [simpl; lia|]. split.
      * rewrite I, Ed, Ei. cbn [firstn map]. rewrite <- app_assoc.
        reflexivity.
      * intros outputs executed E. destruct (R outputs executed E) as (-> & ->).
        cbn [snd]. rewrite <- app_assoc. split; reflexivity.
    + exists 1%nat. split; [simpl; lia|]. cbn [fst snd]. split.
      * rewrite Ed, Ei. reflexivity.
      * intros outputs executed E. discriminate.
Qed.

(** A loop without a client starts no process, and raises unless there is
    nothing to run. *)
Lemma run_and_log_no_client user_id action_type classification commands acc s :
  invoked (snd (loop None user_id action_type classification commands acc s))
  = invoked s
  /\ forall r,
       fst (loop None user_id action_type classification commands acc s)
       = Ok r -> commands = [] /\ r = acc.
Proof.
  destruct commands as [|cmd rest]; cbn.
  - split; [reflexivity|]. intros r E. injection E as <-. split; reflexivity.
  - split; [reflexivity|]. intros r E. discriminate.
Qed.

Ltac step_db :=
  match goal with
  | |- context [db_call ?W ?f ?s] =>
      let Ed := fresh "Ed" in
      pose proof (db_call_invoked f s) as Ed;
      destruct (db_call W f s) as [[?|?] ?]; cbn [fst snd] in Ed |- *
  end.

(** The choice of the client: the processes it starts and the client it
    gives. *)
Lemma client_for_turn_spec app_k8s_client s :
  let chosen :=
    client_for_turn World subprocess_run default_kubeconfig
      get_active_kubeconfig app_k8s_client s in
  let active := fst (get_active_kubeconfig (world s)) in
  invoked (snd chosen) = (invoked s ++ construction_of active)%list
  /\ match active with
     | Ok (Some config) =>
         forall client, fst chosen = Ok client ->
                        client = Some {| kubeconfig_path := path_for config |}
     | Ok None => fst chosen = Ok app_k8s_client
     | Raise e => fst chosen = Raise e
     end.
Proof.
  cbv zeta. unfold client_for_turn, mbind, db_call.
  destruct (get_active_kubeconfig (world s)) as [[[config|]|e] w];
    cbn [fst snd invoked].
  - unfold K8sClient__init__, mbind, _validate_kubectl_access, ret.
    cbn [world invoked].
    destruct (subprocess_run w ["kubectl"; "cluster-info"] 10)
      as [[p|e] w1].
    + cbn. split; [reflexivity|]. intros client E. injection E as <-.
      reflexivity.
    + destruct (exn_cls e); cbn; (split; [reflexivity|]);
        intros client E; try discriminate; injection E as <-; reflexivity.
  - unfold ret. cbn. now rewrite app_nil_r.
  - cbn. now rewrite app_nil_r.
Qed.


Section TurnAnyProvider.

Context {P : Type} `{LLMProvider P}.
Variable llm_provider : P.

Abbreviation turn :=
  (chat_turn World subprocess_run clock default_kubeconfig
     get_active_kubeconfig log_activity save_chat_message llm_provider).
Abbreviation steps :=
  (chat_commands World subprocess_run clock default_kubeconfig
     get_active_kubeconfig log_activity save_chat_message llm_provider).
Abbreviation follow_ups_of :=
  (follow_up_step World subprocess_run clock default_kubeconfig
     log_activity llm_provider).

(** Step 5 with a client: it runs a prefix of at most two commands, and
    all of them when it does not raise. *)
Lemma follow_up_step_client client user_id classification post acc s :
  exists fs n,
    (n <= List.length fs)%nat /\ (List.length fs <= 2)%nat
    /\ (fs = []
        \/ exists suggested,
             suggest_follow_up_commands llm_provider post = Ok suggested
             /\ fs = limit_follow_ups suggested)
    /\ invoked (snd (follow_ups_of (Some client) user_id classification
                       post acc s))
       = (invoked s ++ map (argv_for client) (firstn n fs))%list
    /\ forall outputs executed,
         fst (follow_ups_of (Some client) user_id classification post acc s)
         = Ok (outputs, executed) ->
         n = List.length fs /\ executed = (snd acc ++ fs)%list.
Proof.
  unfold follow_up_step.
  destruct (follow_up_allowed classification && PyDict.truthy (fst acc)
            && investigates (question_type classification)).
  - unfold mbind, lift.
    destruct (suggest_follow_up_commands llm_provider post) as [fl|e].
    + destruct (run_and_log_client client user_id
                  "followup_command_executed" classification
                  (limit_follow_ups fl) acc s) as (n & Ln & I & R).
      exists (limit_follow_ups fl), n.
      split; [exact Ln|]. split; [apply limit_follow_ups_length|].
      split; [right; exists fl; split; reflexivity|].
      split; [exact I | exact R].
    + exists [], 0%nat. cbn. rewrite app_nil_r.
      split; [lia|]. split; [lia|]. split; [now left|].
      split; [reflexivity|].
      intros outputs executed E. discriminate.
  - exists [], 0%nat. unfold ret. cbn. rewrite !app_nil_r.
    split; [lia|]. split; [lia|]. split; [now left|].
    split; [reflexivity|].
    intros outputs executed E. injection E as ->. split; reflexivity.
Qed.

(** The processes of the steps, whatever their outcome: those of the
    choice of the client, then a prefix of the commands kept and of at most
    two follow-up commands; all of them when the steps give a response. *)
Lemma chat_commands_trace app_k8s_client user_id session_id user_message
    classification user_prefs post_suggest post_follow_up post_analyze s
    suggested :
  suggest_commands llm_provider post_suggest = Ok suggested ->
  let kept :=
    limit_commands suggested
      (effective_max_commands classification user_prefs) in
  let active := fst (get_active_kubeconfig (world s)) in
  let ran :=
    steps app_k8s_client user_id session_id user_message classification
      user_prefs post_suggest post_follow_up post_analyze s in
  (kept = [] ->
   invoked (snd ran) = invoked s
   /\ forall resp, fst ran = Ok resp -> commands_executed resp = [])
  /\ (kept <> [] ->
      exists client fs n,
        (n <= List.length (kept ++ fs))%nat /\ (List.length fs <= 2)%nat
        /\ (fs = []
            \/ exists follow_ups,
                 suggest_follow_up_commands llm_provider post_follow_up
                 = Ok follow_ups
                 /\ fs = limit_follow_ups follow_ups)
        /\ invoked (snd ran)
           = (invoked s ++ construction_of active
              ++ map (argv_for client) (firstn n (kept ++ fs)))%list
        /\ forall resp,
             fst ran = Ok resp ->
             n = List.length (kept ++ fs)
             /\ commands_executed resp = (kept ++ fs)%list
             /\ match active with
                | Ok (Some config) =>
                    client = {| kubeconfig_path := path_for config |}
                | Ok None => app_k8s_client = Some client
                | Raise _ => False
                end).
Proof.
  intros Hs kept active ran. subst ran.
  unfold chat_commands, mbind, lift. rewrite Hs. cbv zeta. fold kept.
  split.
  - intros K. rewrite K.
    destruct (analyze_command_outputs llm_provider post_analyze) as [bot|e];
      cbn [fst snd];
      [|split; [reflexivity | intros resp E; discriminate]].
    repeat step_db; unfold ret; cbn [fst snd];
      (split; [congruence|]); intros resp E; try discriminate.
    injection E as <-. reflexivity.
  - intros K. destruct kept as [|c0 k0] eqn:Ek; [contradiction|]. clear K.
    destruct (client_for_turn_spec app_k8s_client s) as (Ic & Hc).
    fold active in Ic, Hc.
    destruct (client_for_turn World subprocess_run default_kubeconfig
                get_active_kubeconfig app_k8s_client s)
      as [[[client|]|e] s1]; cbn [fst snd] in Ic, Hc |- *.
    + assert (Which : match active with
                      | Ok (Some config) =>
                          client = {| kubeconfig_path := path_for config |}
                      | Ok None => app_k8s_client = Some client
                      | Raise _ => False
                      end).
      { destruct active as [[config|]|e].
        - specialize (Hc _ eq_refl). now injection Hc.
        - now injection Hc.
        - discriminate. }
      destruct (run_and_log_client client user_id "command_executed"
                  classification (c0 :: k0) ([], []) s1)
        as (n1 & L1 & I1 & R1).
      destruct (loop (Some client) user_id "command_executed"
                  classification (c0 :: k0) ([], []) s1)
        as [[[outputs executed]|e] s2]; cbn [fst snd] in I1, R1 |- *.
      * destruct (R1 outputs executed eq_refl) as (-> & Ee).
        cbn [snd app] in Ee. subst executed.
        destruct (follow_up_step_client client user_id classification
                    post_follow_up (outputs, c0 :: k0) s2)
          as (fs & n2 & L2 & F2 & O2 & I2 & R2).
        exists client, fs, (List.length (c0 :: k0) + n2)%nat.
        split; [rewrite length_app; lia|]. split; [exact F2|].
        split; [exact O2|].
        assert (Pre : firstn (List.length (c0 :: k0) + n2)
                        ((c0 :: k0) ++ fs)
                      = ((c0 :: k0) ++ firstn n2 fs)%list)
          by apply firstn_app_2.
        assert (All : firstn (List.length (c0 :: k0)) (c0 :: k0) = c0 :: k0)
          by apply firstn_all.
        rewrite All in I1.
        destruct (follow_ups_of (Some client) user_id classification
                    post_follow_up (outputs, c0 :: k0) s2)
          as [[[outputs2 executed2]|e] s3]; cbn [fst snd] in I2, R2 |- *.
        -- destruct (R2 outputs2 executed2 eq_refl) as (-> & Ee).
           cbn [snd] in Ee. subst executed2.
           destruct (analyze_command_outputs llm_provider post_analyze)
             as [bot|e]; cbn [fst snd];
             [|split;
               [rewrite I2, I1, Ic, Pre, map_app, <- !app_assoc; reflexivity
               |intros resp E; discriminate]].
           repeat step_db; unfold ret; cbn [fst snd];
             (split;
              [rewrite Pre, map_app;
               repeat match goal with
                      | Ed : invoked _ = invoked _ |- _ =>
                          rewrite Ed; clear Ed
                      end;
               rewrite I2, I1, Ic, <- !app_assoc; reflexivity|]);
             intros resp E; try discriminate.
           injection E as <-.
           split; [rewrite length_app; reflexivity|].
           split; [reflexivity | exact Which].
        -- split; [|intros resp E; discriminate].
           rewrite I2, I1, Ic, Pre, map_app, <- !app_assoc. reflexivity.
      * exists client, [], n1. rewrite app_nil_r.
        split; [exact L1|]. split; [simpl; lia|]. split; [now left|].
        split; [|intros resp E; discriminate].
        rewrite I1, Ic, <- app_assoc. reflexivity.
    + destruct (run_and_log_no_client user_id "command_executed"
                  classification (c0 :: k0) ([], []) s1) as (I1 & R1).
      destruct (loop None user_id "command_executed" classification
                  (c0 :: k0) ([], []) s1) as [[acc1|e] s2];
        cbn [fst snd] in I1, R1 |- *.
      * destruct (R1 acc1 eq_refl) as (F & _). discriminate.
      * exists {| kubeconfig_path := default_kubeconfig |}, [], 0%nat.
        split; [lia|]. split; [simpl; lia|]. split; [now left|].
        split; [|intros resp E; discriminate].
        cbn [firstn map]. rewrite I1, Ic, app_nil_r. reflexivity.
    + exists {| kubeconfig_path := default_kubeconfig |}, [], 0%nat.
      split; [lia|]. split; [simpl; lia|]. split; [now left|].
      split; [|intros resp E; discriminate].
      cbn [firstn map]. rewrite Ic, app_nil_r. reflexivity.
Qed.

(** X10.  The list [commands_executed] of an answered turn is a faithful
    log of its commands: the processes started during the turn are those
    of the choice of the client ([kubectl cluster-info] once when a
    kubeconfig is active, because the client is then built inside the turn,
    and none otherwise), followed by exactly the commands of the list, in
    order, each without its first word and run with that client.  A turn
    answered without commands started no process. *)
Theorem commands_executed_is_the_log (app_k8s_client : option K8sClient)
    (user_id : Z) (session_id user_message : string)
    (classification : Classification) (user_prefs : option UserPrefs)
    (post_suggest post_follow_up post_analyze : http_result)
    (s s' : Sys World) (resp : ChatResponse) :
  turn app_k8s_client user_id session_id user_message classification
    user_prefs post_suggest post_follow_up post_analyze s
  = (Answered resp, s') ->
  let active := fst (get_active_kubeconfig (world s)) in
  (commands_executed resp = [] /\ invoked s' = invoked s)
  \/ (commands_executed resp <> []
      /\ exists client,
           invoked s'
           = (invoked s ++ construction_of active
              ++ map (argv_for client) (commands_executed resp))%list
           /\ match active with
              | Ok (Some config) =>
                  client = {| kubeconfig_path := path_for config |}
              | Ok None => app_k8s_client = Some client
              | Raise _ => False
              end).
Proof.
  intros E active. unfold chat_turn in E.
  destruct (suggest_commands llm_provider post_suggest)
    as [suggested|e] eqn:Hs.
  - destruct (chat_commands_trace app_k8s_client user_id session_id
                user_message classification user_prefs post_suggest
                post_follow_up post_analyze s suggested Hs) as (Hnone & Hsome).
    destruct (steps app_k8s_client user_id session_id user_message
                classification user_prefs post_suggest post_follow_up
                post_analyze s) as [[r|e] s1]; [|discriminate].
    injection E as <- <-. cbn [fst snd] in Hnone, Hsome.
    destruct (limit_commands suggested
                (effective_max_commands classification user_prefs))
      as [|c0 k0] eqn:K.
    + left. destruct (Hnone eq_refl) as (I & R). split; [now apply R | exact I].
    + right.
      destruct (Hsome ltac:(discriminate))
        as (client & fs & n & _ & _ & _ & I & R).
      destruct (R r eq_refl) as (-> & Ec & Which).
      split; [rewrite Ec; discriminate|].
      exists client. split; [|exact Which].
      rewrite I, Ec, firstn_all. reflexivity.
  - unfold chat_commands, mbind, lift in E. rewrite Hs in E. discriminate.
Qed.

(** With a database that answers, a loop with a client does not raise. *)
Lemma run_and_log_total client user_id action_type classification commands :
  (forall u a w, exists w', log_activity u a w = (Ok tt, w')) ->
  forall acc s,
  exists r s',
    loop (Some client) user_id action_type classification commands acc s
    = (Ok r, s').
Proof.
  intros Hlog. induction commands as [|cmd rest IH]; intros acc s.
  - eexists _, _. reflexivity.
  - cbn [run_and_log]. unfold mbind.
    destruct (run_ok World subprocess_run clock default_kubeconfig
                client (tl (words cmd)) 30 s) as (output & Eo).
    destruct (_run_kubectl_command World subprocess_run clock
                default_kubeconfig client (tl (words cmd)) 30 s)
      as [r s1]; cbn [fst] in Eo; subst r.
    unfold db_call at 1.
    match goal with
    | |- context [log_activity ?u ?a (world s1)] =>
        destruct (Hlog u a (world s1)) as (w' & ->)
    end.
    apply IH.
Qed.

(** With a database that answers and a validation that raises nothing but
    a time-out or a missing binary, the choice of the client gives a
    client whenever a kubeconfig is active or the application has one. *)
Lemma client_for_turn_total app_k8s_client s :
  (forall w, exists a w', get_active_kubeconfig w = (Ok a, w')) ->
  (forall w e w',
      subprocess_run w ["kubectl"; "cluster-info"] 10 = (Raise e, w') ->
      exn_cls e = TimeoutExpired \/ exn_cls e = FileNotFoundError) ->
  app_k8s_client <> None ->
  exists client s',
    client_for_turn World subprocess_run default_kubeconfig
      get_active_kubeconfig app_k8s_client s = (Ok (Some client), s').
Proof.
  intros Hactive Hvalid Happ.
  unfold client_for_turn, mbind, db_call.
  destruct (Hactive (world s)) as ([config|] & w & ->).
  - unfold K8sClient__init__, mbind, _validate_kubectl_access, ret.
    cbn [world invoked].
    destruct (subprocess_run w ["kubectl"; "cluster-info"] 10)
      as [[p|e] w1] eqn:V.
    + eexists _, _. reflexivity.
    + destruct (Hvalid w e w1 V) as [C|C]; rewrite C;
        eexists _, _; reflexivity.
  - destruct app_k8s_client as [client|]; [|contradiction].
    eexists _, _. reflexivity.
Qed.

Ltac answer_db Hlog Hsave :=
  unfold db_call at 1;
  match goal with
  | |- context [save_chat_message ?u ?sid ?m (world ?s)] =>
      destruct (Hsave u sid m (world s)) as (? & ->)
  | |- context [log_activity ?u ?a (world ?s)] =>
      destruct (Hlog u a (world s)) as (? & ->)
  end.

(** When the provider does not raise, the database answers and a client
    is at hand, the steps give a response. *)
Lemma chat_commands_total app_k8s_client user_id session_id user_message
    classification user_prefs post_suggest post_follow_up post_analyze s :
  (forall post, exists c, suggest_commands llm_provider post = Ok c) ->
  (forall post,
      exists c, suggest_follow_up_commands llm_provider post = Ok c) ->
  (forall post, exists v, analyze_command_outputs llm_provider post = Ok v) ->
  (forall w, exists a w', get_active_kubeconfig w = (Ok a, w')) ->
  (forall u a w, exists w', log_activity u a w = (Ok tt, w')) ->
  (forall u sid m w, exists w', save_chat_message u sid m w = (Ok tt, w')) ->
  (forall w e w',
      subprocess_run w ["kubectl"; "cluster-info"] 10 = (Raise e, w') ->
      exn_cls e = TimeoutExpired \/ exn_cls e = FileNotFoundError) ->
  app_k8s_client <> None ->
  exists resp s',
    steps app_k8s_client user_id session_id user_message classification
      user_prefs post_suggest post_follow_up post_analyze s = (Ok resp, s').
Proof.
  intros T1 T2 T3 Hactive Hlog Hsave Hvalid Happ.
  destruct (T1 post_suggest) as (suggested & E1).
  destruct (T2 post_follow_up) as (fl & E2).
  destruct (T3 post_analyze) as (v & E3).
  unfold chat_commands, mbind, lift. rewrite E1, E3. cbv zeta.
  destruct (limit_commands suggested
              (effective_max_commands classification user_prefs))
    as [|c0 k0].
  - do 3 answer_db Hlog Hsave. eexists _, _. reflexivity.
  - destruct (client_for_turn_total app_k8s_client s Hactive Hvalid Happ)
      as (client & s1 & ->).
    destruct (run_and_log_total client user_id "command_executed"
                classification (c0 :: k0) Hlog ([], []) s1)
      as (acc1 & s2 & ->).
    assert (F : exists acc2 s3,
               follow_ups_of (Some client) user_id classification
                 post_follow_up acc1 s2 = (Ok acc2, s3)).
    { unfold follow_up_step.
      destruct (follow_up_allowed classification && PyDict.truthy (fst acc1)
                && investigates (question_type classification)).
      - unfold mbind, lift. rewrite E2.
        apply run_and_log_total, Hlog.
      - eexists _, _. reflexivity. }
    destruct F as (acc2 & s3 & ->).
    do 2 answer_db Hlog Hsave. eexists _, _. reflexivity.
Qed.

End TurnAnyProvider.

(** X13.  With the hosted or the local provider, which give the same turn
    for the same answers of the model, a turn starts at most six
    processes: one for the choice of the client and five for commands.  An
    answered turn has executed at most five commands, each beginning with
    ["kubectl "].  The turn is answered, and not refused with the status
    500, whenever the database calls return, the validation of a client
    built in the turn raises nothing but a time-out or a missing binary,
    and the application has a client. *)
Theorem turn_process_budget (h : OpenRouterProvider.t)
    (l : LocalLLMProvider.t) (app_k8s_client : option K8sClient)
    (user_id : Z) (session_id user_message : string)
    (classification : Classification) (user_prefs : option UserPrefs)
    (post_suggest post_follow_up post_analyze : http_result) (s : Sys World) :
  let reply :=
    chat_turn World subprocess_run clock default_kubeconfig
      get_active_kubeconfig log_activity save_chat_message h
      app_k8s_client user_id session_id user_message classification
      user_prefs post_suggest post_follow_up post_analyze s in
  chat_turn World subprocess_run clock default_kubeconfig
    get_active_kubeconfig log_activity save_chat_message l
    app_k8s_client user_id session_id user_message classification
    user_prefs post_suggest post_follow_up post_analyze s = reply
  /\ (List.length (invoked (snd reply)) <= List.length (invoked s) + 6)%nat
  /\ (forall resp,
         fst reply = Answered resp ->
         (List.length (commands_executed resp) <= 5)%nat
         /\ Forall (fun cmd => startswith "kubectl " cmd = true)
              (commands_executed resp))
  /\ ((forall w, exists a w', get_active_kubeconfig w = (Ok a, w')) ->
      (forall u a w, exists w', log_activity u a w = (Ok tt, w')) ->
      (forall u sid m w,
          exists w', save_chat_message u sid m w = (Ok tt, w')) ->
      (forall w e w',
          subprocess_run w ["kubectl"; "cluster-info"] 10 = (Raise e, w') ->
          exn_cls e = TimeoutExpired \/ exn_cls e = FileNotFoundError) ->
      app_k8s_client <> None ->
      exists resp, fst reply = Answered resp).
Proof.
  intros reply. split; [reflexivity|].
  assert (S3 : exists n text,
             suggest_commands h post_suggest
             = Ok (firstn n (extract_commands text)) /\ (n <= 3)%nat).
  { destruct (suggest_commands_cases h post_suggest) as [(text & _ & E)|E].
    - exists 3%nat, text. split; [exact E | lia].
    - exists 0%nat, "". split; [exact E | lia]. }
  destruct S3 as (n3 & t3 & E3 & L3).
  destruct (limit_commands_prefix (firstn n3 (extract_commands t3))
              (effective_max_commands classification user_prefs))
    as (k & Hk).
  assert (Lk : (List.length
                  (limit_commands (firstn n3 (extract_commands t3))
                     (effective_max_commands classification user_prefs))
                <= 3)%nat).
  { rewrite Hk, !length_firstn. lia. }
  assert (Sk : Forall (fun cmd => startswith "kubectl " cmd = true)
                 (limit_commands (firstn n3 (extract_commands t3))
                    (effective_max_commands classification user_prefs))).
  { rewrite Hk. apply Forall_forall. intros cmd Hin.
    apply In_firstn, In_firstn, extract_commands_shape in Hin.
    destruct Hin as (rest & -> & _). reflexivity. }
  destruct (chat_commands_trace h app_k8s_client user_id session_id
              user_message classification user_prefs post_suggest
              post_follow_up post_analyze s _ E3) as (Hnone & Hsome).
  subst reply. unfold chat_turn.
  split; [|split].
  - destruct (limit_commands (firstn n3 (extract_commands t3))
                (effective_max_commands classification user_prefs))
      as [|c0 k0] eqn:K.
    + destruct (Hnone eq_refl) as (I & _).
      destruct (chat_commands World subprocess_run clock default_kubeconfig
                  get_active_kubeconfig log_activity save_chat_message h
                  app_k8s_client user_id session_id user_message
                  classification user_prefs post_suggest post_follow_up
                  post_analyze s) as [[r|e] s1];
        cbn [fst snd] in I |- *; rewrite I; lia.
    + destruct (Hsome ltac:(discriminate))
        as (client & fs & n & Ln & Lf & _ & I & _).
      assert (B : (List.length
                     (construction_of (fst (get_active_kubeconfig (world s))))
                   <= 1)%nat).
      { destruct (fst (get_active_kubeconfig (world s))) as [[c|]|e];
          simpl; lia. }
      rewrite length_app in Ln.
      destruct (chat_commands World subprocess_run clock default_kubeconfig
                  get_active_kubeconfig log_activity save_chat_message h
                  app_k8s_client user_id session_id user_message
                  classification user_prefs post_suggest post_follow_up
                  post_analyze s) as [[r|e] s1];
        cbn [fst snd] in I |- *; rewrite I, !length_app, length_map,
          length_firstn; lia.
  - intros resp E.
    destruct (chat_commands World subprocess_run clock default_kubeconfig
                get_active_kubeconfig log_activity save_chat_message h
                app_k8s_client user_id session_id user_message
                classification user_prefs post_suggest post_follow_up
                post_analyze s) as [[r|e] s1]; [|discriminate].
    cbn [fst snd] in *. injection E as <-.
    destruct (limit_commands (firstn n3 (extract_commands t3))
                (effective_max_commands classification user_prefs))
      as [|c0 k0] eqn:K.
    + destruct (Hnone eq_refl) as (_ & R). rewrite (R r eq_refl).
      split; [simpl; lia | constructor].
    + destruct (Hsome ltac:(discriminate))
        as (client & fs & n & _ & Lf & Of & _ & R).
      destruct (R r eq_refl) as (_ & -> & _).
      split; [rewrite length_app; lia|].
      apply Forall_app. split; [exact Sk|].
      destruct Of as [->|(fl & Ef & ->)]; [constructor|].
      rewrite limit_follow_ups_firstn.
      apply Forall_forall. intros cmd Hin. apply In_firstn in Hin.
      assert (Ef' : OpenRouterProvider.suggest_follow_up_commands h
                      post_follow_up = Ok fl) by exact Ef.
      destruct (suggest_follow_up_commands_cases h post_follow_up)
        as [(text & _ & E)|E]; rewrite E in Ef'.
      2: { assert (Efl : [] = fl) by congruence.
           rewrite <- Efl in Hin. destruct Hin. }
      assert (Efl : firstn 2 (extract_commands text) = fl) by congruence.
      rewrite <- Efl in Hin.
      apply In_firstn, extract_commands_shape in Hin.
      destruct Hin as (rest & -> & _). reflexivity.
  - intros Hactive Hlog Hsave Hvalid Happ.
    destruct (chat_commands_total h app_k8s_client user_id session_id
                user_message classification user_prefs post_suggest
                post_follow_up post_analyze s) as (resp & s1 & E);
      try assumption.
    + intros post. apply hosted_suggest_total.
    + intros post. apply hosted_follow_up_total.
    + intros post. apply hosted_analyze_total.
    + rewrite E. exists resp. reflexivity.
Qed.

End TurnFacts.

(** ** The command extraction of [llm_client.py], line by line *)

Lemma split_from_absent sep s :
  contains sep s = false -> split_from sep 0 s = [s].
Proof.
  induction s as [|c r IH]; [reflexivity|].
  cbn [contains split_from]. intros H.
  apply orb_false_iff in H. destruct H as [H1 H2].
  rewrite H1, (IH H2). reflexivity.
Qed.

Lemma split_after_k_free pre rest :
  has_char "k" pre = false ->
  split "kubectl " (pre ++ "kubectl " ++ rest) = pre :: split "kubectl " rest.
Proof.
  unfold split. induction pre as [|c p IH]; intros H; [reflexivity|].
  cbn [has_char] in H. apply orb_false_iff in H. destruct H as [Hc Hp].
  change ((String c p ++ "kubectl " ++ rest))
    with (String c (p ++ "kubectl " ++ rest)).
  cbn [split_from startswith]. rewrite Hc. cbn [andb].
  rewrite (IH Hp). reflexivity.
Qed.

Lemma contains_after pre sep rest : contains sep (pre ++ sep ++ rest) = true.
Proof.
  assert (P : forall a b, startswith a (a ++ b) = true).
  { induction a as [|x a IH]; intros b; [destruct b; reflexivity|].
    simpl. now rewrite Ascii.eqb_refl, IH. }
  induction pre as [|c p IH]; simpl.
  - apply startswith_contains, P.
  - rewrite IH. apply orb_true_r.
Qed.

(** X14.  A one-line answer that is a command, ["kubectl "] followed by a text
    in which ["kubectl "] does not occur again, is returned as that one
    command, with the white space after the prefix removed. *)
Theorem clean_command_line_is_returned (h : OpenRouterProvider.t)
    (l : LocalLLMProvider.t) (line rest : string) :
  contains nl line = false ->
  strip line = "kubectl " ++ rest ->
  contains "kubectl " rest = false ->
  truthy (strip rest) = true ->
  OpenRouterProvider.suggest_commands h (Response 200 (Ok (PyText line)))
  = Ok ["kubectl " ++ strip rest]
  /\ LocalLLMProvider.suggest_commands l (Response 200 (Ok (PyText line)))
     = Ok ["kubectl " ++ strip rest].
Proof.
  intros Hnl Hline Hrest Htruthy.
  assert (E : extract_commands line = ["kubectl " ++ strip rest]).
  { unfold extract_commands, split. rewrite (split_from_absent _ _ Hnl).
    cbn [flat_map]. rewrite app_nil_r.
    unfold commands_of_line. rewrite Hline.
    assert (C : contains "kubectl " ("kubectl " ++ rest) = true)
      by exact (contains_after "" "kubectl " rest).
    assert (Sp : split "kubectl " ("kubectl " ++ rest)
                 = "" :: split "kubectl " rest)
      by exact (split_after_k_free "" rest eq_refl).
    rewrite C, orb_true_r, Sp.
    unfold split. rewrite (split_from_absent _ _ Hrest).
    cbn [flat_map]. rewrite Htruthy. reflexivity. }
  unfold OpenRouterProvider.suggest_commands,
    LocalLLMProvider.suggest_commands.
  cbn. rewrite E. split; reflexivity.
Qed.

(** X15.  Text before the first ["kubectl "] of a line becomes a command of its
    own: a line [pre ++ "kubectl " ++ rest], where [pre] (a list marker, a
    number, "Run:") has no letter k, gives the two commands
    ["kubectl " ++ pre] and ["kubectl " ++ rest], both stripped. *)
Theorem text_before_kubectl_becomes_command (line pre rest : string) :
  strip line = pre ++ "kubectl " ++ rest ->
  has_char "k" pre = false ->
  truthy (strip pre) = true ->
  contains "kubectl " rest = false ->
  truthy (strip rest) = true ->
  commands_of_line line
  = ["kubectl " ++ strip pre; "kubectl " ++ strip rest].
Proof.
  intros Hline Hk Hpre Hrest Htruthy.
  unfold commands_of_line. rewrite Hline.
  rewrite (contains_after pre "kubectl " rest), orb_true_r.
  rewrite (split_after_k_free pre rest Hk).
  unfold split. rewrite (split_from_absent _ _ Hrest).
  cbn [flat_map]. rewrite Hpre, Htruthy. reflexivity.
Qed.

(** ** The provider factory *)

Lemma rstrip_char_spec c s :
  ends_with_char c (rstrip_char c s) = false
  /\ exists n, s = rstrip_char c s ++ repeat_char c n.
Proof.
  induction s as [|d s (IH1 & n & IH2)]; simpl.
  - split; [reflexivity | exists 0%nat; reflexivity].
  - destruct (rstrip_char c s) as [|x r] eqn:R.
    + destruct (Ascii.eqb d c) eqn:E.
      * split; [reflexivity|]. apply Ascii.eqb_eq in E. subst d.
        exists (S n). simpl. now rewrite IH2 at 1.
      * split; [simpl; exact E|].
        exists n. simpl. now rewrite IH2 at 1.
    + split; [exact IH1|]. exists n. simpl. now rewrite IH2 at 1.
Qed.

(** X16.  Whenever the factory returns a provider: a hosted provider has a
    non-empty API key, which is the configured one, and sends it as
    ["Bearer " ++ key]; a local provider's endpoint is the configured URL
    without its trailing slashes, and its request URL is that endpoint
    followed by ["/v1/chat/completions"]. *)
Theorem created_provider_invariants (provider_config : Factory.Config)
    (p : Factory.Provider) :
  Factory.create_provider provider_config = Ok p ->
  match p with
  | Factory.Hosted i =>
      Factory.or_api_key i <> ""
      /\ get_default "api_key" None provider_config
         = Some (Factory.or_api_key i)
      /\ Factory.or_authorization i = "Bearer " ++ Factory.or_api_key i
  | Factory.SelfHosted i =>
      ends_with_char "/" (Factory.lo_endpoint_url i) = false
      /\ Factory.lo_api_url i
         = Factory.lo_endpoint_url i ++ "/v1/chat/completions"
      /\ exists n,
          get_default "endpoint_url" (Some "http://localhost:8080")
            provider_config
          = Some (Factory.lo_endpoint_url i ++ repeat_char "/" n)
  end.
Proof.
  unfold Factory.create_provider.
  destruct (get_default "provider" (Some "") provider_config) as [prov|];
    cbn [bind]; [|discriminate].
  destruct (String.eqb (lower prov) "openrouter").
  - destruct (get_default "api_key" None provider_config) as [[|c k]|];
      try discriminate.
    intros E. injection E as <-. cbn.
    split; [discriminate|]. split; reflexivity.
  - destruct (String.eqb (lower prov) "local"); [|discriminate].
    unfold Factory.LocalLLMProvider__init__.
    destruct (get_default "endpoint_url" (Some "http://localhost:8080")
                provider_config) as [url|]; cbn [bind]; [|discriminate].
    intros E. injection E as <-. cbn.
    destruct (rstrip_char_spec "/" url) as (H1 & n & H2).
    split; [exact H1|]. split; [reflexivity|].
    exists n. congruence.
Qed.

(** X17.  The factory accepts a configuration exactly when its provider name
    is, in any letter case, "openrouter" with a non-empty API key, or
    "local" with an endpoint URL that is absent or a string. *)
Theorem create_provider_accepts (provider_config : Factory.Config) :
  (exists p, Factory.create_provider provider_config = Ok p)
  <->
  exists provider,
    get_default "provider" (Some "") provider_config = Some provider
    /\ ((lower provider = "openrouter"
         /\ exists c k, get_default "api_key" None provider_config
                        = Some (String c k))
        \/ (lower provider = "local"
            /\ get_default "endpoint_url" (Some "http://localhost:8080")
                 provider_config <> None)).
Proof.
  unfold Factory.create_provider.
  destruct (get_default "provider" (Some "") provider_config) as [prov|];
    cbn [bind].
  - destruct (String.eqb (lower prov) "openrouter") eqn:E1.
    + apply String.eqb_eq in E1.
      destruct (get_default "api_key" None provider_config) as [[|c k]|].
      * split; [intros [p H]; discriminate|].
        intros (pr & Hp & [(_ & c & k & H)|(H & _)]); [discriminate|].
        injection Hp as <-. rewrite E1 in H. discriminate.
      * split; [|eauto]. intros _. exists prov. split; [reflexivity|].
        left. split; [exact E1 | eauto].
      * split; [intros [p H]; discriminate|].
        intros (pr & Hp & [(_ & c & k & H)|(H & _)]); [discriminate|].
        injection Hp as <-. rewrite E1 in H. discriminate.
    + apply String.eqb_neq in E1.
      destruct (String.eqb (lower prov) "local") eqn:E2.
      * apply String.eqb_eq in E2.
        unfold Factory.LocalLLMProvider__init__.
        destruct (get_default "endpoint_url" (Some "http://localhost:8080")
                    provider_config) as [url|]; cbn [bind].
        -- split; [|eauto]. intros _. exists prov. split; [reflexivity|].
           right. split; [exact E2 | discriminate].
        -- split; [intros [p H]; discriminate|].
           intros (pr & Hp & [(H & _)|(_ & H)]); [|congruence].
           injection Hp as <-. congruence.
      * apply String.eqb_neq in E2.
        split; [intros [p H]; discriminate|].
        intros (pr & Hp & [(H & _)|(H & _)]); injection Hp as <-; congruence.
  - split; [intros [p H]; discriminate|].
    intros (pr & Hp & _). discriminate.
Qed.


(** ** The messages of a request *)

Lemma recent_history_length h : (List.length (recent_history h) <= 10)%nat.
Proof.
  unfold recent_history.
  destruct (10 <? List.length h)%nat eqn:E.
  - apply Nat.ltb_lt in E. rewrite length_skipn. lia.
  - apply Nat.ltb_ge in E. exact E.
Qed.

(** X19.  A request carries at least two and at most twelve messages: the
    system prompt first, the current user message last, and between them
    the user and assistant entries of the last ten entries of the history,
    each with its role and its text, in the order of the history.  Entries
    before the last ten never reach the request. *)
Theorem request_messages_window (system_prompt user_message : string)
    (conversation_history old : list HistoryEntry) :
  let messages :=
    build_messages system_prompt conversation_history user_message in
  messages
  = ({| m_role := "system"; m_content := system_prompt |}
     :: map (fun msg => {| m_role := h_role msg; m_content := h_message msg |})
          (filter
             (fun msg => String.eqb (h_role msg) "user"
                         || String.eqb (h_role msg) "assistant")
             (skipn (List.length conversation_history - 10)
                conversation_history))
     ++ [{| m_role := "user"; m_content := user_message |}])%list
  /\ (2 <= List.length messages <= 12)%nat
  /\ hd_error messages
     = Some {| m_role := "system"; m_content := system_prompt |}
  /\ last messages {| m_role := ""; m_content := "" |}
     = {| m_role := "user"; m_content := user_message |}
  /\ Forall (fun m => In (m_role m) ["system"; "user"; "assistant"]) messages
  /\ (List.length conversation_history = 10%nat ->
      build_messages system_prompt (old ++ conversation_history) user_message
      = messages).
Proof.
  intros messages. subst messages. unfold build_messages.
  set (pick := fun msg : HistoryEntry =>
                 if String.eqb (h_role msg) "user"
                 then [{| m_role := "user"; m_content := h_message msg |}]
                 else if String.eqb (h_role msg) "assistant"
                      then [{| m_role := "assistant";
                               m_content := h_message msg |}]
                      else []).
  assert (One : forall l, (List.length (flat_map pick l) <= List.length l)%nat).
  { induction l as [|a l IH]; simpl; [lia|]. rewrite length_app.
    assert (List.length (pick a) <= 1)%nat.
    { unfold pick. destruct (String.eqb (h_role a) "user"); [simpl; lia|].
      destruct (String.eqb (h_role a) "assistant"); simpl; lia. }
    lia. }
  assert (Roles : forall l,
             Forall (fun m => In (m_role m) ["system"; "user"; "assistant"])
               (flat_map pick l)).
  { induction l as [|a l IH]; simpl; [constructor|].
    apply Forall_app. split; [|exact IH]. unfold pick.
    destruct (String.eqb (h_role a) "user");
      [repeat constructor; simpl; tauto|].
    destruct (String.eqb (h_role a) "assistant");
      repeat constructor; simpl; tauto. }
  assert (Window : recent_history conversation_history
                   = skipn (List.length conversation_history - 10)
                       conversation_history).
  { unfold recent_history.
    destruct (10 <? List.length conversation_history)%nat eqn:E;
      [reflexivity|].
    apply Nat.ltb_ge in E.
    replace (List.length conversation_history - 10)%nat with 0%nat by lia.
    reflexivity. }
  assert (Pick : forall l,
             flat_map pick l
             = map (fun msg => {| m_role := h_role msg;
                                  m_content := h_message msg |})
                 (filter
                    (fun msg => String.eqb (h_role msg) "user"
                                || String.eqb (h_role msg) "assistant") l)).
  { induction l as [|a l IH]; [reflexivity|].
    cbn [flat_map filter]. rewrite IH. unfold pick.
    destruct (String.eqb (h_role a) "user") eqn:U.
    - apply String.eqb_eq in U. cbn [orb map app]. rewrite U. reflexivity.
    - destruct (String.eqb (h_role a) "assistant") eqn:A; cbn [orb];
        [|reflexivity].
      apply String.eqb_eq in A. cbn [map app]. rewrite A. reflexivity. }
  split; [|split; [|split; [|split; [|split]]]].
  - rewrite Pick, Window. reflexivity.
  - rewrite !length_app. cbn [List.length].
    pose proof (One (recent_history conversation_history)).
    pose proof (recent_history_length conversation_history). lia.
  - reflexivity.
  - rewrite app_assoc. apply last_last.
  - apply Forall_app. split; [repeat constructor; simpl; tauto|].
    apply Forall_app. split; [apply Roles|].
    repeat constructor; simpl; tauto.
  - intros L. f_equal. f_equal. f_equal.
    unfold recent_history. rewrite length_app, L.
    replace (10 <? 10)%nat with false by reflexivity.
    destruct old as [|o old']; [reflexivity|].
    replace (10 <? List.length (o :: old') + 10)%nat with true
      by (symmetry; apply Nat.ltb_lt; simpl; lia).
    replace (List.length (o :: old') + 10 - 10)%nat
      with (List.length (o :: old') + 0)%nat by lia.
    rewrite skipn_app, Nat.add_0_r, skipn_all.
    replace (List.length (o :: old') - List.length (o :: old'))%nat
      with 0%nat by lia.
    reflexivity.
Qed.

(** ** The extractor of [project/llm_client.py] *)

Lemma startswith_app p s :
  startswith p s = true -> exists r, s = p ++ r.
Proof.
  revert s; induction p as [|a p IH]; intros s H; [exists s; reflexivity|].
  destruct s as [|b s]; [discriminate|]. simpl in H.
  apply andb_prop in H. destruct H as [E H].
  apply Ascii.eqb_eq in E. subst b.
  destruct (IH _ H) as (r & ->). exists r. reflexivity.
Qed.

Lemma after_prefix_app p s t : Project.after_prefix p s = Some t -> s = p ++ t.
Proof.
  revert s; induction p as [|a p IH]; intros s H.
  - injection H as <-. reflexivity.
  - destruct s as [|b s]; [discriminate|]. simpl in H.
    destruct (Ascii.eqb a b) eqn:E; [|discriminate].
    apply Ascii.eqb_eq in E. subst b. simpl. f_equal. auto.
Qed.

Lemma ws_dots_head t m :
  Project.ws_dots t = Some m -> exists w m', m = String w m' /\ isspace w = true.
Proof.
  destruct t as [|w t]; [discriminate|]. simpl.
  destruct (isspace w) eqn:W; [|discriminate].
  destruct (Project.ws_dots t).
  - intros E; injection E as <-. eexists _, _. split; [reflexivity | exact W].
  - destruct (Project.until_newline t); [discriminate|].
    intros E; injection E as <-. eexists _, _. split; [reflexivity | exact W].
Qed.

Lemma search_kubectl_shape line m :
  Project.search_kubectl line = Some m ->
  exists w m', m = "kubectl" ++ String w m' /\ isspace w = true.
Proof.
  induction line as [|c rest IH]; [discriminate|].
  cbn [Project.search_kubectl].
  destruct (Project.after_prefix "kubectl" (String c rest)) as [t|];
    [|exact IH].
  destruct (Project.ws_dots t) as [m0|] eqn:W; [|exact IH].
  intros E. injection E as <-.
  destruct (ws_dots_head _ _ W) as (w & m' & -> & Hw).
  exists w, m'. split; [reflexivity | exact Hw].
Qed.

Lemma words_kubectl_space w rest :
  isspace w = true ->
  words ("kubectl" ++ String w rest) = "kubectl" :: words (String w rest).
Proof. intros H. simpl. rewrite H. reflexivity. Qed.

Lemma project_line_shape line cmd :
  In cmd (Project.commands_of_line line) ->
  hd_error (words cmd) = Some "kubectl".
Proof.
  unfold Project.commands_of_line.
  destruct (negb (truthy (strip line))); [contradiction|].
  set (l := strip (Project.drop_number (Project.drop_bullet (strip line)))).
  destruct (startswith "kubectl " l) eqn:S.
  - intros [<-|[]]. destruct (startswith_app _ _ S) as (r & ->). reflexivity.
  - destruct (contains "kubectl " l); [|contradiction].
    destruct (Project.search_kubectl l) as [m|] eqn:M; [|contradiction].
    intros [<-|[]].
    destruct (search_kubectl_shape _ _ M) as (w & m' & -> & Hw).
    now rewrite (words_kubectl_space w m' Hw).
Qed.

Lemma project_line_one line :
  (List.length (Project.commands_of_line line) <= 1)%nat.
Proof.
  unfold Project.commands_of_line.
  destruct (negb (truthy (strip line))); [simpl; lia|].
  destruct (startswith "kubectl " _); [simpl; lia|].
  destruct (contains "kubectl " _); [|simpl; lia].
  destruct (Project.search_kubectl _); simpl; lia.
Qed.

(** X20.  In this variant both suggestion methods return the same list for
    the same response.  It has at most three commands, follow-ups included,
    and at most one per line of the answer; the first word of every command
    is ["kubectl"]; and it is empty when the request fails (it raises, the
    status is not 200 or the body cannot be decoded) and for every response
    that is not a 200 response with a text. *)
Theorem project_suggestions (post : http_result) :
  exists cmds,
    Project.suggest_commands post = Ok cmds
    /\ Project.suggest_follow_up_commands post = Ok cmds
    /\ (List.length cmds <= 3)%nat
    /\ (forall text, post = Response 200 (Ok (PyText text)) ->
                     cmds = Project.extract_kubectl_commands text
                     /\ (List.length cmds <= List.length (split nl text))%nat)
    /\ Forall (fun cmd => hd_error (words cmd) = Some "kubectl") cmds
    /\ (request_failed post = true -> cmds = [])
    /\ ((forall text, post <> Response 200 (Ok (PyText text))) -> cmds = []).
Proof.
  assert (Cap : forall text,
             (List.length (Project.extract_kubectl_commands text) <= 3)%nat).
  { intros text. unfold Project.extract_kubectl_commands.
    apply firstn_le_length. }
  assert (Lines : forall text,
             (List.length (Project.extract_kubectl_commands text)
              <= List.length (split nl text))%nat).
  { intros text. unfold Project.extract_kubectl_commands.
    rewrite length_firstn.
    etransitivity; [apply Nat.le_min_r|].
    induction (split nl text) as [|a ls IH]; simpl; [lia|].
    rewrite length_app. pose proof (project_line_one a). lia. }
  assert (Shape : forall text,
             Forall (fun cmd => hd_error (words cmd) = Some "kubectl")
               (Project.extract_kubectl_commands text)).
  { intros text. apply Forall_forall. intros cmd Hin.
    unfold Project.extract_kubectl_commands in Hin.
    apply In_firstn, in_flat_map in Hin.
    destruct Hin as (line & _ & Hin). exact (project_line_shape _ _ Hin). }
  assert (Empty : forall p,
             Project.suggest_commands p = Ok [] ->
             Project.suggest_follow_up_commands p = Ok [] ->
             (forall text, p <> Response 200 (Ok (PyText text))) ->
             exists cmds,
               Project.suggest_commands p = Ok cmds
               /\ Project.suggest_follow_up_commands p = Ok cmds
               /\ (List.length cmds <= 3)%nat
               /\ (forall text, p = Response 200 (Ok (PyText text)) ->
                     cmds = Project.extract_kubectl_commands text
                     /\ (List.length cmds <= List.length (split nl text))%nat)
               /\ Forall (fun cmd => hd_error (words cmd) = Some "kubectl")
                    cmds
               /\ (request_failed p = true -> cmds = [])
               /\ ((forall text, p <> Response 200 (Ok (PyText text))) ->
                   cmds = [])).
  { intros p E1 E2 N. exists []. rewrite E1, E2.
    split; [reflexivity|]. split; [reflexivity|]. split; [simpl; lia|].
    split; [intros text E; destruct (N text E)|].
    split; [constructor|]. split; reflexivity. }
  destruct post as [e|status [v|e]].
  - apply Empty; try reflexivity. discriminate.
  - destruct (status =? 200) eqn:S200.
    + apply Z.eqb_eq in S200. subst status. destruct v as [text|] eqn:V.
      * exists (Project.extract_kubectl_commands text).
        split; [reflexivity|]. split; [reflexivity|]. split; [apply Cap|].
        split; [intros t E; injection E as <-; split; [reflexivity|apply Lines]|].
        split; [apply Shape|].
        split; [discriminate|].
        intros N. destruct (N text eq_refl).
      * apply Empty; try reflexivity. discriminate.
    + apply Empty.
      * unfold Project.suggest_commands. rewrite S200. reflexivity.
      * unfold Project.suggest_follow_up_commands. rewrite S200. reflexivity.
      * intros text E. injection E as -> _. discriminate.
  - apply Empty.
    + unfold Project.suggest_commands.
      destruct (status =? 200); reflexivity.
    + unfold Project.suggest_follow_up_commands.
      destruct (status =? 200); reflexivity.
    + discriminate.
Qed.

Lemma rstrip_app_keep a b :
  rstrip b = b -> b <> "" -> rstrip (a ++ b) = a ++ b.
Proof.
  intros Hb Hn. induction a as [|c a IH]; [exact Hb|].
  simpl. rewrite IH. destruct (a ++ b) eqn:E; [|reflexivity].
  destruct a; [simpl in E; congruence | discriminate].
Qed.

Lemma is_decimal_plain c :
  Project.is_decimal c = true ->
  isspace c = false /\ Ascii.eqb c "-" = false /\ Ascii.eqb c "*" = false.
Proof.
  intros H. repeat split.
  - destruct (isspace c) eqn:S; [|reflexivity].
    unfold Project.is_decimal in H. unfold isspace in S.
    destruct (N_of_ascii c) as [|p]; [discriminate|]. exfalso.
    apply andb_prop in H. destruct H as [H1 H2].
    apply N.leb_le in H1, H2.
    repeat (apply orb_prop in S; destruct S as [S|S]);
      try (apply andb_prop in S; destruct S as [S1 S2];
           apply N.leb_le in S1, S2; lia);
      apply N.eqb_eq in S; lia.
  - destruct (Ascii.eqb c "-") eqn:E; [|reflexivity].
    apply Ascii.eqb_eq in E. subst. discriminate.
  - destruct (Ascii.eqb c "*") eqn:E; [|reflexivity].
    apply Ascii.eqb_eq in E. subst. discriminate.
Qed.

Lemma skip_decimals_app ds r :
  Project.all_decimal ds = true ->
  Project.skip_decimals (ds ++ String "." r) = String "." r.
Proof.
  induction ds as [|d ds IH]; intros H; [reflexivity|].
  simpl in H. apply andb_prop in H. destruct H as [Hd Hds].
  simpl. rewrite Hd. auto.
Qed.

(** X21.  A command line comes out as it is, and a list marker in front of it
    is removed: for a command ["kubectl " ++ rest] that does not end in
    white space, the lines [cmd], ["- " ++ cmd], ["* " ++ cmd] and
    [digits ++ ". " ++ cmd] all give the one command [cmd]. *)
Theorem project_strips_list_markers (rest digits : string) :
  rstrip rest = rest -> rest <> "" ->
  Project.all_decimal digits = true -> digits <> "" ->
  let cmd := "kubectl " ++ rest in
  Project.commands_of_line cmd = [cmd]
  /\ Project.commands_of_line ("- " ++ cmd) = [cmd]
  /\ Project.commands_of_line ("* " ++ cmd) = [cmd]
  /\ Project.commands_of_line (digits ++ ". " ++ cmd) = [cmd].
Proof.
  intros Hr Hn Hd Hdn cmd.
  assert (Scmd : strip cmd = cmd).
  { unfold strip, cmd. cbn [lstrip isspace].
    exact (rstrip_app_keep "kubectl " rest Hr Hn). }
  assert (Base : forall l, l = cmd ->
             (if startswith "kubectl " (strip l) then [strip l]
              else if contains "kubectl " (strip l)
                   then match Project.search_kubectl (strip l) with
                        | Some m => [m]
                        | None => []
                        end
                   else []) = [cmd]).
  { intros l ->. rewrite Scmd. reflexivity. }
  split; [|split; [|split]].
  - unfold Project.commands_of_line. rewrite Scmd.
    replace (negb (truthy cmd)) with false by reflexivity.
    apply Base. reflexivity.
  - unfold Project.commands_of_line.
    assert (S : strip ("- " ++ cmd) = "- " ++ cmd).
    { unfold strip, cmd. cbn [lstrip isspace].
      exact (rstrip_app_keep "- kubectl " rest Hr Hn). }
    rewrite S. replace (negb (truthy ("- " ++ cmd))) with false by reflexivity.
    apply Base. reflexivity.
  - unfold Project.commands_of_line.
    assert (S : strip ("* " ++ cmd) = "* " ++ cmd).
    { unfold strip, cmd. cbn [lstrip isspace].
      exact (rstrip_app_keep "* kubectl " rest Hr Hn). }
    rewrite S. replace (negb (truthy ("* " ++ cmd))) with false by reflexivity.
    apply Base. reflexivity.
  - unfold Project.commands_of_line.
    destruct digits as [|d ds]; [congruence|].
    simpl in Hd. apply andb_prop in Hd. destruct Hd as [Hd Hds].
    destruct (is_decimal_plain d Hd) as (Hsp & Hm & Hs).
    change (String d ds ++ ". " ++ cmd)
      with (String d (ds ++ ". " ++ cmd)).
    assert (S : strip (String d (ds ++ ". " ++ cmd))
                = String d (ds ++ ". " ++ cmd)).
    { unfold strip. cbn [lstrip]. rewrite Hsp.
      assert (A : String d (ds ++ ". " ++ cmd)
                  = (String d ds ++ ". kubectl ") ++ rest).
      { unfold cmd. simpl. f_equal.
        clear. induction ds as [|x ds IH]; simpl; [reflexivity|].
        now rewrite IH. }
      rewrite A. exact (rstrip_app_keep _ rest Hr Hn). }
    rewrite S. cbn [truthy negb].
    assert (B : Project.drop_bullet (String d (ds ++ ". " ++ cmd))
                = String d (ds ++ ". " ++ cmd)).
    { unfold Project.drop_bullet.
      destruct (ds ++ ". " ++ cmd); [reflexivity|].
      rewrite Hm, Hs. reflexivity. }
    rewrite B.
    assert (N : Project.drop_number (String d (ds ++ ". " ++ cmd)) = cmd).
    { unfold Project.drop_number. rewrite Hd.
      change (ds ++ ". " ++ cmd) with (ds ++ String "." (" " ++ cmd)).
      rewrite (skip_decimals_app ds _ Hds). reflexivity. }
    rewrite N. apply Base. reflexivity.
Qed.

(** ** The age of a resource *)

(** X22.  The age label shows the largest unit that is not zero: whole days
    from one day on, whole hours from one hour on, whole minutes from one
    minute on, and "Just now" below a minute; a time stamp that cannot be
    read gives "Unknown".  A creation time up to a day in the future is
    shown as the age 24 hours minus the distance. *)
Theorem age_label (total : Z) :
  (86400 <= total ->
   _calculate_age (Ok total) = str_of_int (total / 86400) ++ "d")
  /\ (3600 <= total < 86400 ->
      _calculate_age (Ok total) = str_of_int (total / 3600) ++ "h")
  /\ (60 <= total < 3600 ->
      _calculate_age (Ok total) = str_of_int (total / 60) ++ "m")
  /\ (0 <= total < 60 -> _calculate_age (Ok total) = "Just now")
  /\ (-86400 <= total < 0 ->
      _calculate_age (Ok total) = _calculate_age (Ok (total + 86400)))
  /\ (forall e, _calculate_age (Raise e) = "Unknown").
Proof.
  unfold _calculate_age.
  repeat split; try reflexivity; intros H.
  - replace (0 <? total / 86400) with true; [reflexivity|].
    symmetry. apply Z.ltb_lt.
    pose proof (Z.div_le_lower_bound total 86400 1). lia.
  - rewrite (Z.div_small total 86400), (Z.mod_small total 86400) by lia.
    cbn [Z.ltb Z.compare].
    replace (0 <? total / 3600) with true; [reflexivity|].
    symmetry. apply Z.ltb_lt.
    pose proof (Z.div_le_lower_bound total 3600 1). lia.
  - rewrite (Z.div_small total 86400), (Z.mod_small total 86400) by lia.
    rewrite (Z.div_small total 3600), (Z.mod_small total 3600) by lia.
    cbn [Z.ltb Z.compare].
    replace (0 <? total / 60) with true; [reflexivity|].
    symmetry. apply Z.ltb_lt.
    pose proof (Z.div_le_lower_bound total 60 1). lia.
  - rewrite (Z.div_small total 86400), (Z.mod_small total 86400) by lia.
    rewrite (Z.div_small total 3600), (Z.mod_small total 3600) by lia.
    rewrite (Z.div_small total 60) by lia. reflexivity.
  - assert (D : total / 86400 = -1).
    { symmetry. apply (Z.div_unique total 86400 (-1) (total + 86400)); lia. }
    assert (M : total mod 86400 = total + 86400).
    { symmetry. apply (Z.mod_unique total 86400 (-1) (total + 86400)); lia. }
    rewrite D, M.
    rewrite (Z.div_small (total + 86400) 86400),
      (Z.mod_small (total + 86400) 86400) by lia.
    reflexivity.
Qed.

(** ** The authentication decorators *)

Section AuthFacts.

Variable Db : Type.
Variable R : Type.
Variable get_session : string -> Db -> res (option AuthSession) * Db.
Variable get_user_by_id : Z -> Db -> res (option AuthUser) * Db.
Variable update_session_activity : string -> Db -> res unit * Db.

Abbreviation user_auth :=
  (require_user_auth Db R get_session get_user_by_id update_session_activity).
Abbreviation admin_auth :=
  (require_admin_auth Db R get_session get_user_by_id update_session_activity).

(** X23.  An endpoint behind [require_user_auth] answers only for a non-empty
    session cookie whose session exists and whose user exists and is not
    banned; the activity of the session has then been updated, and the
    endpoint ran on that user.  Behind [require_admin_auth] the user's
    role is moreover "admin". *)
Theorem served_only_when_authorised
    (f : AuthUser -> AuthSession -> Db -> res R * Db)
    (cookie : option string) (db db' : Db) (r : R) :
  user_auth f cookie db = (Served r, db')
  \/ admin_auth f cookie db = (Served r, db') ->
  exists session_id session user db1 db2 db3,
    cookie = Some session_id
    /\ session_id <> ""
    /\ get_session session_id db = (Ok (Some session), db1)
    /\ get_user_by_id (session_user_id session) db1 = (Ok (Some user), db2)
    /\ user_is_banned user = false
    /\ update_session_activity session_id db2 = (Ok tt, db3)
    /\ f user session db3 = (Ok r, db')
    /\ (admin_auth f cookie db = (Served r, db') -> user_role user = "admin").
Proof.
  assert (Enter : forall sid user session d,
             enter Db R update_session_activity f sid user session d
             = (Served r, db') ->
             exists d3, update_session_activity sid d = (Ok tt, d3)
                        /\ f user session d3 = (Ok r, db')).
  { intros sid user session d. unfold enter.
    destruct (update_session_activity sid d) as [[[]|e] d3]; [|discriminate].
    destruct (f user session d3) as [[r0|e] d4] eqn:F; [|discriminate].
    intros E. injection E as <- <-. eauto. }
  intros [E|E].
  - unfold require_user_auth in E.
    destruct cookie as [[|c sid]|]; try discriminate.
    destruct (get_session (String c sid) db) as [[[session|]|e] db1] eqn:G;
      try discriminate.
    destruct (get_user_by_id (session_user_id session) db1)
      as [[[user|]|e] db2] eqn:U; try discriminate.
    destruct (user_is_banned user) eqn:B; [discriminate|].
    destruct (Enter _ _ _ _ E) as (db3 & Hu & Hf).
    exists (String c sid), session, user, db1, db2, db3.
    repeat split; auto; try discriminate.
    unfold require_admin_auth. rewrite G, U.
    destruct (String.eqb (user_role user) "admin") eqn:A; simpl;
      [intros _; now apply String.eqb_eq | discriminate].
  - unfold require_admin_auth in E.
    destruct cookie as [[|c sid]|]; try discriminate.
    destruct (get_session (String c sid) db) as [[[session|]|e] db1] eqn:G;
      try discriminate.
    destruct (get_user_by_id (session_user_id session) db1)
      as [[[user|]|e] db2] eqn:U; try discriminate.
    destruct (String.eqb (user_role user) "admin") eqn:A; simpl in E;
      [|discriminate].
    destruct (user_is_banned user) eqn:B; [discriminate|].
    destruct (Enter _ _ _ _ E) as (db3 & Hu & Hf).
    exists (String c sid), session, user, db1, db2, db3.
    repeat split; auto; try discriminate.
    intros _. now apply String.eqb_eq.
Qed.

(** X24.  Whoever is served as an administrator is served the same answer as a
    user: the administrator check only refuses more. *)
Theorem admin_check_is_stricter
    (f : AuthUser -> AuthSession -> Db -> res R * Db)
    (cookie : option string) (db db' : Db) (r : R) :
  admin_auth f cookie db = (Served r, db') ->
  user_auth f cookie db = (Served r, db').
Proof.
  unfold require_admin_auth, require_user_auth.
  destruct cookie as [[|c sid]|]; try discriminate.
  destruct (get_session (String c sid) db) as [[[session|]|e] db1];
    try discriminate.
  destruct (get_user_by_id (session_user_id session) db1)
    as [[[user|]|e] db2]; try discriminate.
  destruct (String.eqb (user_role user) "admin"); simpl; [|discriminate].
  destruct (user_is_banned user); [discriminate|]. auto.
Qed.

(** X25.  A refusal with the status 401 or 403 is decided without the endpoint:
    any other endpoint is refused in the same way, with the database in
    the same state.  A decorator answers a refusal only with the status
    401, 403 or 500. *)
Theorem refusal_ignores_endpoint
    (f g : AuthUser -> AuthSession -> Db -> res R * Db)
    (cookie : option string) (db db' : Db) (status : Z) (error : string) :
  (user_auth f cookie db = (Denied status error, db') ->
   In status [401; 403; 500]
   /\ (status <> 500 -> user_auth g cookie db = (Denied status error, db')))
  /\ (admin_auth f cookie db = (Denied status error, db') ->
      In status [401; 403; 500]
      /\ (status <> 500 ->
          admin_auth g cookie db = (Denied status error, db'))).
Proof.
  split; intros E.
  - unfold require_user_auth in *.
    destruct cookie as [[|c sid]|];
      try (injection E as <- <- <-; simpl; split; [tauto | reflexivity]).
    destruct (get_session (String c sid) db) as [[[session|]|e] db1];
      try (injection E as <- <- <-; simpl; split; [tauto | congruence]).
    destruct (get_user_by_id (session_user_id session) db1)
      as [[[user|]|e] db2];
      try (injection E as <- <- <-; simpl; split; [tauto | congruence]).
    destruct (user_is_banned user);
      try (injection E as <- <- <-; simpl; split; [tauto | congruence]).
    unfold enter in *.
    destruct (update_session_activity (String c sid) db2) as [[[]|e] db3];
      try (injection E as <- <- <-; simpl; split; [tauto | congruence]).
    destruct (f user session db3) as [[r0|e] db4]; [discriminate|].
    injection E as <- <- <-. simpl. split; [tauto | congruence].
  - unfold require_admin_auth in *.
    destruct cookie as [[|c sid]|];
      try (injection E as <- <- <-; simpl; split; [tauto | reflexivity]).
    destruct (get_session (String c sid) db) as [[[session|]|e] db1];
      try (injection E as <- <- <-; simpl; split; [tauto | congruence]).
    destruct (get_user_by_id (session_user_id session) db1)
      as [[[user|]|e] db2];
      try (injection E as <- <- <-; simpl; split; [tauto | congruence]).
    destruct (negb (String.eqb (user_role user) "admin"));
      try (injection E as <- <- <-; simpl; split; [tauto | congruence]).
    destruct (user_is_banned user);
      try (injection E as <- <- <-; simpl; split; [tauto | congruence]).
    unfold enter in *.
    destruct (update_session_activity (String c sid) db2) as [[[]|e] db3];
      try (injection E as <- <- <-; simpl; split; [tauto | congruence]).
    destruct (f user session db3) as [[r0|e] db4]; [discriminate|].
    injection E as <- <- <-. simpl. split; [tauto | congruence].
Qed.

End AuthFacts.

(** ** The role of a node from its system pods *)

Section NodeRoleFacts.

Variable World : Type.
Variable subprocess_run :
  World -> list string -> Z -> res CompletedProcess * World.
Variable clock : World -> string.
Variable default_kubeconfig : string.
Variable json_loads : string -> res json.

Abbreviation role_of :=
  (determine_role_from_system_pods World subprocess_run clock
     default_kubeconfig json_loads).
Abbreviation system_pods_argv :=
  (fun k8s_client =>
     _get_kubectl_command default_kubeconfig k8s_client
       ["get"; "pods"; "-n"; "kube-system"; "-o"; "json"]).

Lemma counts_for_system_pod node_name name node :
  counts_for_node node_name (system_pod name node)
  = Ok (if String.eqb node node_name && is_critical name
        then 1%nat else 0%nat).
Proof.
  unfold counts_for_node, system_pod, is_critical. simpl.
  destruct (String.eqb node node_name); reflexivity.
Qed.

(** The count over a list of pods as the cluster reports them. *)
Lemma count_system_pods node_name pods :
  forall count,
    count_components node_name
      (map (fun p => system_pod (fst p) (snd p)) pods) count
    = Ok (count
          + List.length
              (filter (fun p => String.eqb (snd p) node_name
                                && is_critical (fst p)) pods))%nat.
Proof.
  induction pods as [|[name node] pods IH]; intros count.
  - simpl. now rewrite Nat.add_0_r.
  - change (map (fun p => system_pod (fst p) (snd p)) ((name, node) :: pods))
      with (system_pod name node
            :: map (fun p => system_pod (fst p) (snd p)) pods).
    cbn [count_components]. rewrite counts_for_system_pod. cbn [bind].
    rewrite IH. cbn [filter fst snd].
    destruct (String.eqb node node_name && is_critical name);
      cbn [List.length]; f_equal; lia.
Qed.

(** X26.  [determine_role_from_system_pods] never raises, runs exactly one
    command ([get pods -n kube-system -o json]) and answers "master" or
    "worker"; it answers "worker" whenever the process did not complete
    with exit code 0 or its output cannot be decoded. *)
Theorem node_role_is_total (node_name : string) (k8s_client : K8sClient)
    (s : Sys World) :
  let ran :=
    fst (subprocess_run (world s) (system_pods_argv k8s_client) 30) in
  exists role s',
    role_of node_name k8s_client s = (role, s')
    /\ invoked s' = (invoked s ++ [system_pods_argv k8s_client])%list
    /\ (role = "master" \/ role = "worker")
    /\ ((forall p, ran = Ok p -> cp_returncode p <> 0) -> role = "worker")
    /\ (forall p e, ran = Ok p -> json_loads (cp_stdout p) = Raise e ->
                    role = "worker").
Proof.
  intros ran. unfold determine_role_from_system_pods.
  destruct (run_result_cases World subprocess_run clock default_kubeconfig
              k8s_client ["get"; "pods"; "-n"; "kube-system"; "-o"; "json"]
              30 s) as (r & s' & E & I & Hs & Hout).
  rewrite E. cbn [bind].
  eexists _, s'. split; [reflexivity|]. split; [exact I|].
  fold ran in Hs, Hout.
  destruct (success r) eqn:S; cbn [negb].
  - destruct (proj1 Hs eq_refl) as (p & Hp & Hz).
    rewrite (Hout p Hp eq_refl).
    split; [|split].
    + destruct (json_loads (cp_stdout p)) as [doc|e]; cbn [bind]; [|tauto].
      destruct (json_get "items" (JList []) doc) as [pods|e]; cbn [bind];
        [|tauto].
      destruct (json_iter pods) as [items|e]; cbn [bind]; [|tauto].
      destruct (count_components node_name items 0) as [n|e]; cbn [bind];
        [|tauto].
      destruct (2 <=? n)%nat; tauto.
    + intros Hnz. exfalso. exact (Hnz p Hp Hz).
    + intros p' e Hp' Hj. rewrite Hp in Hp'. injection Hp' as <-.
      rewrite Hj. reflexivity.
  - split; [tauto|]. split; reflexivity.
Qed.

(** X27.  When the command succeeds and its output decodes to a list of pods
    with a name and a node each, the node is a "master" exactly when at
    least two of the pods on that node bear the name of a critical
    component (kube-apiserver, kube-controller-manager, kube-scheduler,
    etcd, in any letter case); pods on other nodes do not count. *)
Theorem node_role_counts_own_pods (node_name : string)
    (k8s_client : K8sClient) (s : Sys World) (p : CompletedProcess)
    (pods : list (string * string)) :
  fst (subprocess_run (world s) (system_pods_argv k8s_client) 30) = Ok p ->
  cp_returncode p = 0 ->
  json_loads (cp_stdout p)
  = Ok (JDict [("items",
                JList (map (fun x => system_pod (fst x) (snd x)) pods))]) ->
  let own :=
    filter (fun x => String.eqb (snd x) node_name && is_critical (fst x))
      pods in
  fst (role_of node_name k8s_client s)
  = (if (2 <=? List.length own)%nat then "master" else "worker")
  /\ forall others,
      Forall (fun x => snd x <> node_name) others ->
      filter (fun x => String.eqb (snd x) node_name && is_critical (fst x))
        (pods ++ others) = own.
Proof.
  intros Hp Hz Hj own. split.
  - unfold determine_role_from_system_pods.
    destruct (run_result_cases World subprocess_run clock default_kubeconfig
                k8s_client ["get"; "pods"; "-n"; "kube-system"; "-o"; "json"]
                30 s) as (r & s' & E & I & Hs & Hout).
    rewrite E. cbn [bind fst].
    assert (S : success r = true) by (apply Hs; eauto).
    rewrite S, (Hout p Hp S), Hj. cbn [negb bind json_get PyDict.get].
    cbn [String.eqb Ascii.eqb Bool.eqb json_iter bind].
    rewrite count_system_pods. cbn [bind]. reflexivity.
  - intros others F. rewrite filter_app.
    replace (filter _ others) with (@nil (string * string));
      [apply app_nil_r|].
    induction F as [|x l Hx _ IH]; [reflexivity|].
    cbn [filter]. apply String.eqb_neq in Hx. rewrite Hx. exact IH.
Qed.

End NodeRoleFacts.

(** ** The start of the [/chat] handler and the history cache *)

Lemma get_set_same_turns :
  forall (k : string) (v : list CachedTurn) (d : HistoryCache),
    PyDict.get k (PyDict.set k v d) = Some v.
Proof.
  intros k v d. induction d as [|[k' v'] d IH]; simpl.
  - rewrite String.eqb_refl. reflexivity.
  - destruct (String.eqb k k') eqn:E; simpl; rewrite E; [reflexivity|exact IH].
Qed.

Lemma get_dict_remove_other :
  forall (V : Type) (k k' : string) (d : PyDict.t V),
    k <> k' -> PyDict.get k (dict_remove k' d) = PyDict.get k d.
Proof.
  intros V k k' d N. induction d as [|[k0 v0] d IH]; simpl; [reflexivity|].
  destruct (String.eqb k' k0) eqn:E.
  - apply String.eqb_eq in E. subst k0.
    destruct (String.eqb k k') eqn:E'; [|reflexivity].
    apply String.eqb_eq in E'. contradiction.
  - simpl. destruct (String.eqb k k0); [reflexivity|exact IH].
Qed.

(** After the history has been loaded the session is in the cache. *)
Lemma load_history_has_session :
  forall (Db : Type) history user_id session_id cache (db : Db) cache1 db1,
    load_history Db history user_id session_id cache db = (Ok cache1, db1) ->
    exists turns, PyDict.get session_id cache1 = Some turns.
Proof.
  intros Db history user_id session_id cache db cache1 db1.
  unfold load_history.
  destruct (PyDict.get session_id cache) as [turns|] eqn:G.
  - intros H. injection H as <- <-. exists turns. exact G.
  - destruct (history user_id session_id db) as [[h|e] db']; [|discriminate].
    intros H. injection H as <- <-. exists h. apply get_set_same_turns.
Qed.

Lemma append_turn_last :
  forall session_id turn cache turns,
    PyDict.get session_id cache = Some turns ->
    PyDict.get session_id (append_turn session_id turn cache)
    = Some (turns ++ [turn])%list.
Proof.
  intros session_id turn cache turns G. unfold append_turn. rewrite G.
  apply get_set_same_turns.
Qed.

(** X28.  A session that is in the cache is continued from the cache alone:
    the stored history is not read, and whoever the user of the request is,
    the message is appended to the turns the cache holds for the session
    identifier. *)
Theorem cached_session_is_continued_from_cache :
  forall (Db : Type) prefs history history' config
         (user_message : string) (session_id : option string)
         (user_id user_id' : Z) (now : string)
         (cache : HistoryCache) (db : Db) (turns : list CachedTurn),
    PyDict.get (session_key session_id) cache = Some turns ->
    chat_prelude Db prefs history config (Some user_message) session_id
      user_id now cache db
    = chat_prelude Db prefs history' config (Some user_message) session_id
        user_id now cache db
    /\ forall p p' db1 db1',
         prefs user_id db = (Ok p, db1) ->
         prefs user_id' db = (Ok p', db1') ->
         let after uid :=
           snd (fst (chat_prelude Db prefs history config
                       (Some user_message) session_id uid now cache db)) in
         after user_id = after user_id'
         /\ PyDict.get (session_key session_id) (after user_id)
            = Some (turns ++ [user_turn user_message now])%list.
Proof.
  intros Db prefs history history' config user_message session_id
    user_id user_id' now cache db turns G.
  assert (L : forall h uid d,
             load_history Db h uid (session_key session_id) cache d
             = (Ok cache, d)).
  { intros h uid d. unfold load_history. rewrite G. reflexivity. }
  split.
  - unfold chat_prelude. destruct (prefs user_id db) as [[p|e] db1].
    + rewrite !L. reflexivity.
    + reflexivity.
  - intros p p' db1 db1' P P'. cbv zeta. unfold chat_prelude.
    rewrite P, P', !L.
    destruct (config db1) as [[c|e] d3]; destruct (config db1') as [[c'|e'] d3'];
      cbn [fst snd]; (split; [reflexivity|apply append_turn_last; exact G]).
Qed.

(** X29.  A request that is refused for want of a usable LLM configuration
    (the responses with [requires_setup]) had a message, has status 400 or
    500, and its message stays in the cached history of its session as the
    last turn. *)
Theorem refused_turn_stays_in_history :
  forall (Db : Type) prefs history config
         (message session_id : option string) (user_id : Z) (now : string)
         (cache : HistoryCache) (db : Db) status text cache' db',
    chat_prelude Db prefs history config message session_id user_id now
      cache db = (Reply status text true, cache', db') ->
    (status = 400 \/ status = 500)
    /\ exists user_message turns,
         message = Some user_message
         /\ PyDict.get (session_key session_id) cache'
            = Some (turns ++ [user_turn user_message now])%list.
Proof.
  intros Db prefs history config message session_id user_id now cache db
    status text cache' db'.
  unfold chat_prelude. destruct message as [m|]; [|discriminate].
  destruct (prefs user_id db) as [[p|e] db1]; [|discriminate].
  destruct (load_history Db history user_id (session_key session_id) cache db1)
    as [[cache1|e] db2] eqn:L; [|discriminate].
  destruct (load_history_has_session _ _ _ _ _ _ _ _ L) as [turns G].
  destruct (config db2) as [[c|e] db3]; [|discriminate].
  intros H. injection H as R <- <-. split.
  - unfold provider_or_reply in R. destruct c as [[|a l]|].
    + injection R as <- _. left. reflexivity.
    + destruct (Factory.chat_provider (a :: l)); [discriminate|].
      injection R as <- _. right. reflexivity.
    + injection R as <- _. left. reflexivity.
  - exists m, turns. split; [reflexivity|]. apply append_turn_last. exact G.
Qed.

Lemma refused_turn_stays_in_history_witness :
  exists turns,
    PyDict.get "default"
      (snd (fst (chat_prelude unit no_preferences stored_turns
                   (active_config None) (Some "why is web-0 failing?") None
                   1 "t1" [] tt)))
    = Some (turns ++ [user_turn "why is web-0 failing?" "t1"])%list.
Proof.
  destruct (refused_turn_stays_in_history unit no_preferences stored_turns
              (active_config None) (Some "why is web-0 failing?") None 1 "t1"
              [] tt 400
              "No active LLM configuration found. Please add and activate an LLM configuration in the settings."
              _ tt eq_refl) as (_ & m & turns & E & G).
  injection E as <-. exists turns. exact G.
Defined.

Lemma cached_session_is_continued_from_cache_witness :
  PyDict.get "default"
    (snd (fst (chat_prelude unit no_preferences stored_turns
                 (active_config (Some local_config)) (Some "and the nodes?")
                 None 2 "t2"
                 [("default", [user_turn "list the pods" "t0"])] tt)))
  = Some [user_turn "list the pods" "t0"; user_turn "and the nodes?" "t2"].
Proof.
  destruct (cached_session_is_continued_from_cache unit no_preferences
              stored_turns stored_turns (active_config (Some local_config))
              "and the nodes?" None 2 1 "t2"
              [("default", [user_turn "list the pods" "t0"])] tt
              [user_turn "list the pods" "t0"] eq_refl) as (_ & H).
  exact (proj2 (H None None tt tt eq_refl eq_refl)).
Defined.

(** X30.  [logout] leaves the cached history of every session whose
    identifier is not the value of the cookie as it is; the histories of
    the chat sessions, which are keyed by the identifier of the request
    body, outlive it. *)
Theorem logout_keeps_other_sessions :
  forall (cookie : option string) (session_id : string)
         (cache : HistoryCache),
    cookie <> Some session_id ->
    PyDict.get session_id (logout cookie cache)
    = PyDict.get session_id cache.
Proof.
  intros cookie session_id cache N. unfold logout.
  destruct cookie as [[|c sid]|]; try reflexivity.
  apply get_dict_remove_other. intros E. apply N. rewrite E. reflexivity.
Qed.

Lemma logout_keeps_other_sessions_witness :
  PyDict.get "default"
    (logout (Some "s1") [("default", [user_turn "list the pods" "t0"])])
  = Some [user_turn "list the pods" "t0"].
Proof.
  rewrite (logout_keeps_other_sessions (Some "s1") "default"
             [("default", [user_turn "list the pods" "t0"])]).
  - reflexivity.
  - discriminate.
Defined.

(** ** The further properties on concrete inputs *)

Lemma read_pod_file_runs_cat_witness :
  exists r s',
    read_pod_file unit always_ok no_clock home_kubeconfig default_client
      "default" "web-0" "/etc/hosts" (start tt) = (Ok r, s')
    /\ invoked s'
       = [["kubectl"; "exec"; "web-0"; "-n"; "default"; "--"; "cat";
           "/etc/hosts"]]
    /\ fc_content r = "ok".
Proof.
  destruct (read_pod_file_runs_cat unit always_ok no_clock home_kubeconfig
              default_client "default" "web-0" "/etc/hosts" (start tt)
              eq_refl) as (r & s' & E & I & _ & H & _).
  exists r, s'. split; [exact E|]. split; [exact I|].
  exact (proj1 (H _ eq_refl eq_refl)).
Defined.

Lemma browse_pod_files_runs_ls_witness :
  exists r s',
    browse_pod_files unit
      (always_completes
         {| cp_returncode := 0; cp_stdout := listing; cp_stderr := "" |})
      no_clock home_kubeconfig default_client "default" "web-0" "/"
      (start tt) = (Ok r, s')
    /\ invoked s'
       = [["kubectl"; "exec"; "web-0"; "-n"; "default"; "--"; "ls"; "-la";
           "/"]]
    /\ fl_files r = _parse_ls_output listing.
Proof.
  destruct (browse_pod_files_runs_ls unit
              (always_completes
                 {| cp_returncode := 0; cp_stdout := listing;
                    cp_stderr := "" |})
              no_clock home_kubeconfig default_client "default" "web-0" "/"
              (start tt) eq_refl) as (r & s' & E & I & _ & H & _).
  exists r, s'. split; [exact E|]. split; [exact I|].
  exact (proj1 (H _ eq_refl eq_refl)).
Defined.

Example listing_parsed :
  map (fun e => (fe_name e, fe_type e, fe_size e)) (_parse_ls_output listing)
  = [("etc", "directory", "4096"); ("my file.txt", "file", "12");
     ("bin -> usr/bin", "symlink", "7")].
Proof. reflexivity. Qed.

(** The test for "total" looks at the line as it stands: an indented line
    with nine fields gives an entry. *)
Example indented_total_line_is_an_entry :
  map fe_name (parse_ls_line "  total 1 2 3 4 5 6 7 x") = ["x"]
  /\ parse_ls_line "total 1 2 3 4 5 6 7 x" = [].
Proof. split; reflexivity. Qed.

Lemma parse_ls_entries_wellformed_witness :
  truthy (fe_name etc_entry) = true
  /\ isdigit (fe_size etc_entry) = true
  /\ (fe_type etc_entry = "directory" <->
      startswith "d" (fe_permissions etc_entry) = true).
Proof.
  destruct (parse_ls_entries_wellformed listing etc_entry)
    as (H1 & _ & _ & H4 & _ & H6 & _).
  - simpl. tauto.
  - repeat split; try assumption; apply H6.
Defined.

Lemma commands_executed_is_the_log_witness :
  exists resp s',
    chat_turn unit always_ok no_clock home_kubeconfig
      (active_kubeconfig (Some prod_kubeconfig)) activity_logged
      message_saved hosted (Some default_client) 1 "default"
      "why is web-0 failing?" deep None
      (Response 200 (Ok (PyText "kubectl get pods")))
      (Response 200 (Ok (PyText "kubectl get events")))
      answered (start tt) = (Answered resp, s')
    /\ commands_executed resp = ["kubectl get pods"; "kubectl get events"]
    /\ invoked s'
       = [["kubectl"; "cluster-info"];
          ["kubectl"; "--kubeconfig"; "/etc/kube/prod"; "get"; "pods"];
          ["kubectl"; "--kubeconfig"; "/etc/kube/prod"; "get"; "events"]].
Proof.
  eexists _, _. split; [cbv; reflexivity|]. split; [reflexivity|].
  edestruct (commands_executed_is_the_log unit always_ok no_clock
               home_kubeconfig (active_kubeconfig (Some prod_kubeconfig))
               activity_logged message_saved hosted (Some default_client) 1
               "default" "why is web-0 failing?" deep None
               (Response 200 (Ok (PyText "kubectl get pods")))
               (Response 200 (Ok (PyText "kubectl get events")))
               answered (start tt))
    as [(F & _)|(_ & client & I & W)]; [cbv; reflexivity| |].
  - discriminate.
  - cbn in W. subst client. exact I.
Defined.

(** Without an active kubeconfig and without a client of the application
    the turn is refused with the status 500 and starts no process; with a
    client it is answered and runs the command with it. *)
Example turn_without_client_is_refused :
  chat_turn unit always_ok no_clock home_kubeconfig (active_kubeconfig None)
    activity_logged message_saved hosted None 1 "default" "list the pods"
    lookup None (Response 200 (Ok (PyText "kubectl get pods")))
    unreachable_llm answered (start tt)
  = (InternalError, start tt)
  /\ exists resp s',
      chat_turn unit always_ok no_clock home_kubeconfig
        (active_kubeconfig None) activity_logged message_saved hosted
        (Some default_client) 1 "default" "list the pods" lookup None
        (Response 200 (Ok (PyText "kubectl get pods")))
        unreachable_llm answered (start tt) = (Answered resp, s')
      /\ commands_executed resp = ["kubectl get pods"]
      /\ invoked s' = [["kubectl"; "get"; "pods"]].
Proof.
  split; [reflexivity|]. eexists _, _.
  split; [cbv; reflexivity|]. split; reflexivity.
Qed.

Lemma advice_only_iff_nothing_run_witness :
  exists resp s',
    chat_pipeline unit always_ok no_clock home_kubeconfig hosted
      default_client lookup None
      (Response 200 (Ok (PyText "Restart the deployment.")))
      unreachable_llm answered (start tt) = (Ok resp, s')
    /\ (analysis_type resp = "advice_only" <-> commands_executed resp = [])
    /\ analysis_type resp = "advice_only"
    /\ invoked s' = [].
Proof.
  eexists _, _. split; [cbv; reflexivity|].
  edestruct (advice_only_iff_nothing_run unit always_ok no_clock
               home_kubeconfig hosted default_client lookup None
               (Response 200 (Ok (PyText "Restart the deployment.")))
               unreachable_llm answered (start tt)) as (H1 & _ & H3);
    [cbv; reflexivity|].
  split; [exact H1|]. split; [reflexivity|]. exact (H3 eq_refl).
Defined.

Lemma executed_commands_characterised_witness :
  exists resp s',
    chat_pipeline unit always_ok no_clock home_kubeconfig hosted
      default_client deep
      (Some {| max_commands_preference := Some 1 |})
      (Response 200 (Ok (PyText five_commands)))
      (Response 200 (Ok (PyText five_commands)))
      answered (start tt) = (Ok resp, s')
    /\ commands_executed resp
       = ["kubectl get pods"; "kubectl get pods"; "kubectl get nodes"].
Proof.
  eexists _, _. split; [cbv; reflexivity|].
  exact (executed_commands_characterised unit always_ok no_clock
           home_kubeconfig hosted default_client deep
           (Some {| max_commands_preference := Some 1 |})
           (Response 200 (Ok (PyText five_commands)))
           (Response 200 (Ok (PyText five_commands)))
           answered (start tt) _ _
           ["kubectl get pods"; "kubectl get nodes"; "kubectl get services"]
           ["kubectl get pods"; "kubectl get nodes"]
           eq_refl eq_refl eq_refl).
Defined.

Lemma clean_command_line_is_returned_witness :
  OpenRouterProvider.suggest_commands hosted
    (Response 200 (Ok (PyText "  kubectl   get pods -n default ")))
  = Ok ["kubectl get pods -n default"].
Proof.
  exact (proj1 (clean_command_line_is_returned hosted self_hosted
                  "  kubectl   get pods -n default "
                  "  get pods -n default"
                  eq_refl eq_refl eq_refl eq_refl)).
Defined.

Lemma text_before_kubectl_becomes_command_witness :
  commands_of_line "1. Run: kubectl get pods"
  = ["kubectl 1. Run:"; "kubectl get pods"].
Proof.
  exact (text_before_kubectl_becomes_command "1. Run: kubectl get pods"
           "1. Run: " "get pods" eq_refl eq_refl eq_refl eq_refl eq_refl).
Defined.

Lemma created_provider_invariants_witness :
  exists i,
    Factory.create_provider local_config = Ok (Factory.SelfHosted i)
    /\ Factory.lo_api_url i = "http://llm.internal:8080/v1/chat/completions"
    /\ ends_with_char "/" (Factory.lo_endpoint_url i) = false.
Proof.
  eexists. split; [reflexivity|].
  destruct (created_provider_invariants local_config _ eq_refl)
    as (H1 & H2 & _).
  split; [exact H2 | exact H1].
Defined.

Example unsupported_provider :
  Factory.create_provider [("provider", Some "Ollama")]
  = Raise (Factory.value_error "Unsupported provider type: ollama").
Proof. reflexivity. Qed.

(** The default endpoint of the factory is out of reach of the handler. *)
Example chat_refuses_local_without_endpoint :
  Factory.create_provider [("provider", Some "local")]
  = Ok (Factory.SelfHosted
          {| Factory.lo_endpoint_url := "http://localhost:8080";
             Factory.lo_model := Some "default";
             Factory.lo_api_url :=
               "http://localhost:8080/v1/chat/completions" |})
  /\ Factory.chat_provider [("provider", Some "local")]
     = Raise (Factory.attribute_error "rstrip").
Proof. split; reflexivity. Qed.

(** Three follow-up commands come back from this variant. *)
Example project_follow_ups_are_three :
  Project.suggest_follow_up_commands
    (Response 200 (Ok (PyText five_commands)))
  = Ok ["kubectl get pods"; "kubectl get nodes"; "kubectl get services"].
Proof. reflexivity. Qed.

Example project_finds_command_in_sentence :
  Project.commands_of_line "Then run: kubectl logs web-0 --tail 20"
  = ["kubectl logs web-0 --tail 20"].
Proof. reflexivity. Qed.

Lemma project_strips_list_markers_witness :
  Project.commands_of_line "kubectl get pods" = ["kubectl get pods"]
  /\ Project.commands_of_line "- kubectl get pods" = ["kubectl get pods"]
  /\ Project.commands_of_line "* kubectl get pods" = ["kubectl get pods"]
  /\ Project.commands_of_line "12. kubectl get pods" = ["kubectl get pods"].
Proof.
  apply (project_strips_list_markers "get pods" "12").
  - reflexivity.
  - discriminate.
  - reflexivity.
  - discriminate.
Defined.

Lemma served_only_when_authorised_witness :
  exists session_id session user db1 db2 db3,
    Some "s1" = Some session_id
    /\ session_id <> ""
    /\ one_session session_id tt = (Ok (Some session), db1)
    /\ two_users (session_user_id session) db1 = (Ok (Some user), db2)
    /\ user_is_banned user = false
    /\ touch session_id db2 = (Ok tt, db3)
    /\ whoami user session db3 = (Ok 1, tt)
    /\ (require_admin_auth unit Z one_session two_users touch whoami
          (Some "s1") tt = (Served 1, tt) -> user_role user = "admin").
Proof.
  apply (served_only_when_authorised unit Z one_session two_users touch
           whoami (Some "s1") tt tt 1).
  right. reflexivity.
Defined.

Lemma admin_check_is_stricter_witness :
  require_user_auth unit Z one_session two_users touch whoami (Some "s1") tt
  = (Served 1, tt).
Proof.
  apply (admin_check_is_stricter unit Z one_session two_users touch whoami
           (Some "s1") tt tt 1).
  reflexivity.
Defined.

Example banned_user_is_refused :
  require_user_auth unit Z one_session two_users touch whoami (Some "s2") tt
  = (Denied 403 "Account is banned", tt)
  /\ require_admin_auth unit Z one_session two_users touch whoami
       (Some "s2") tt
     = (Denied 403 "Admin access required", tt)
  /\ require_user_auth unit Z one_session two_users touch whoami None tt
     = (Denied 401 "Session ID required", tt).
Proof. repeat split. Qed.

Lemma node_role_counts_own_pods_witness :
  fst (determine_role_from_system_pods unit (always_completes pods_listed)
         no_clock home_kubeconfig decoded_pods "cp1" default_client
         (start tt)) = "master"
  /\ fst (determine_role_from_system_pods unit
            (always_completes pods_listed) no_clock home_kubeconfig
            decoded_pods "w1" default_client (start tt)) = "worker".
Proof.
  split.
  - exact (proj1 (node_role_counts_own_pods unit
                    (always_completes pods_listed) no_clock home_kubeconfig
                    decoded_pods "cp1" default_client (start tt) pods_listed
                    kube_system_pods eq_refl eq_refl eq_refl)).
  - exact (proj1 (node_role_counts_own_pods unit
                    (always_completes pods_listed) no_clock home_kubeconfig
                    decoded_pods "w1" default_client (start tt) pods_listed
                    kube_system_pods eq_refl eq_refl eq_refl)).
Defined.

Example age_examples :
  _calculate_age (Ok 200000) = "2d"
  /\ _calculate_age (Ok 7300) = "2h"
  /\ _calculate_age (Ok 59) = "Just now"
  /\ _calculate_age (Ok (-3600)) = "23h".
Proof. repeat split. Qed.

Example analyze_pod_issues_swaps :
  invoked
    (snd (analyze_pod_issues unit always_ok no_clock home_kubeconfig
            default_client "web-0" "prod" (start tt)))
  = [["kubectl"; "get"; "pod"; "web-0"; "-n"; "prod"; "-o"; "json"];
     ["kubectl"; "logs"; "prod"; "-n"; "web-0"; "--tail"; "1000"];
     ["kubectl"; "describe"; "pod"; "web-0"; "-n"; "prod"];
     ["kubectl"; "get"; "events"; "-n"; "prod"; "-o"; "json"]].
Proof. reflexivity. Qed.
